(** * DiagnosticService: quota-governed diagnosis with cache and rule-based fallback

    A shallow embedding of [services/DiagnosticService.js] (the class
    [DiagnosticService]): the daily counter and the rate limiter that gate
    the Gemini client, the one-hour diagnosis cache, the parsing and
    validation of the Gemini answer, the rule-based engine and the health
    score of [performDiagnosticScan].  After it come the code around the
    service: the data sources ([AlternativeDataService.js] and the three
    fetchers of the service), the handlers of [organController.js] that
    read or drive the service ([getQuotaStatus], [diagnoseAllOrgans]), the
    verification of a restoration image, and the donations of
    [vialController.js] ([initializePayment], [handleWebhook]).

    Conventions of the embedding.
    - A JavaScript number is [number]: NaN, the two infinities, or an exact
      rational.  IEEE rounding and the negative zero are not modelled, so
      that what is stated of a number is stated where the arithmetic of
      the code is exact (whole numbers up to Number.MAX_SAFE_INTEGER), or
      as bounds that the rounding respects.
    - A JavaScript string is a [string] of bytes; a character outside ASCII
      stands as its UTF-8 bytes.
    - A metric snapshot is a flat object: an ordered list of named
      primitives, in the order in which JavaScript enumerates the object's
      own properties.  The nested fields that two adapters add beside the
      primitive ones ([events], [coordinates]) are never read by the
      service and are not represented.
    - The conversions between numbers and text that depend on the engine
      and its locale are a parameter, [Host], of everything that uses them.
    - What the process reads from its surroundings during one call (the
      clock, the date, the answer of the Gemini client) is an explicit
      argument of type [World]; the service's fields are an explicit
      [State] that each call returns updated.
    - A run is a list of calls made one after another, each to completion,
      as the loop of [diagnoseAllOrgans] awaits them.  A schedule is a list
      of events on the one service of the process: a call starts, or the
      answer of the Gemini client arrives for a call that waits at the
      await of line 298, so that the calls of different requests overlap.
    - The answer of a remote service, the results of [Math.random()] and
      the outcome of a data base operation are given to the function that
      asks for them; the two collections that the donations read back are
      finite maps. *)

From Stdlib Require Import ZArith QArith Qround Qabs Ascii String List Lia Bool.
From stdpp Require Import gmap strings pretty.
Import ListNotations.

Set Warnings "-register-all".
Local Open Scope Z_scope.

(** ** Numbers *)

Inductive number : Type :=
| NaN
| NegInfinity
| Fin (q : Q)
| Infinity.

Definition Qlt_bool (x y : Q) : bool := negb (Qle_bool y x).

Definition Qsign (q : Q) : Z := Z.sgn (Qnum q).

(** [num_lt a b] is the abstract comparison a < b on numbers: [None] is the
    undefined outcome of a comparison with NaN. *)
Definition num_lt (a b : number) : option bool :=
  match a, b with
  | NaN, _ | _, NaN => None
  | Infinity, _ => Some false
  | _, NegInfinity => Some false
  | NegInfinity, _ => Some true
  | _, Infinity => Some true
  | Fin x, Fin y => Some (Qlt_bool x y)
  end.

Definition num_neg (a : number) : number :=
  match a with
  | NaN => NaN
  | NegInfinity => Infinity
  | Infinity => NegInfinity
  | Fin q => Fin (- q)
  end.

Definition num_add (a b : number) : number :=
  match a, b with
  | NaN, _ | _, NaN => NaN
  | Infinity, NegInfinity | NegInfinity, Infinity => NaN
  | Infinity, _ | _, Infinity => Infinity
  | NegInfinity, _ | _, NegInfinity => NegInfinity
  | Fin x, Fin y => Fin (x + y)
  end.

Definition num_sub (a b : number) : number := num_add a (num_neg b).

Definition signed_infinity (sgn : Z) : number :=
  match sgn with
  | Z0 => NaN
  | Zpos _ => Infinity
  | Zneg _ => NegInfinity
  end.

Definition num_sign (a : number) : Z :=
  match a with
  | NaN => 0
  | NegInfinity => -1
  | Infinity => 1
  | Fin q => Qsign q
  end.

Definition num_mul (a b : number) : number :=
  match a, b with
  | NaN, _ | _, NaN => NaN
  | Fin x, Fin y => Fin (x * y)
  | _, _ => signed_infinity (num_sign a * num_sign b)
  end.

(** Division; a zero divisor is the positive zero. *)
Definition num_div (a b : number) : number :=
  match a, b with
  | NaN, _ | _, NaN => NaN
  | Fin x, Fin y =>
      if Qeq_bool y 0 then signed_infinity (Qsign x) else Fin (x / y)
  | Fin _, _ => Fin 0
  | _, Fin y => signed_infinity (num_sign a * (if Qeq_bool y 0 then 1 else Qsign y))
  | _, _ => NaN
  end.

(** [Math.max(a, b)] and [Math.min(a, b)]. *)
Definition Math_max (a b : number) : number :=
  match num_lt a b with
  | None => NaN
  | Some true => b
  | Some false => a
  end.

Definition Math_min (a b : number) : number :=
  match num_lt b a with
  | None => NaN
  | Some true => b
  | Some false => a
  end.

(** [Math.round]: the nearest integer, a tie going to the larger one. *)
Definition Math_round (a : number) : number :=
  match a with
  | Fin q => Fin (inject_Z (Qfloor (q + (1 # 2))))
  | _ => a
  end.

(** ** Values *)

(** The primitives a metric snapshot carries in its fields. *)
Inductive prim : Type :=
| PUndefined
| PNull
| PBool (b : bool)
| PNum (n : number)
| PStr (s : string).

(** An object, as the ordered list of its own enumerable properties. *)
Definition object (A : Type) : Type := list (string * A).

(** What [JSON.parse] can build, and what a diagnosis object holds. *)
Inductive value : Type :=
| VPrim (p : prim)
| VArr (items : list value)
| VObj (fields : list (string * value)).

Definition VStr (s : string) : value := VPrim (PStr s).
Definition VUndefined : value := VPrim PUndefined.

Definition Metrics : Type := object prim.
Definition Diagnosis : Type := object value.

(** How a call ends: with a value, or with a thrown error. *)
Inductive completion (A : Type) : Type :=
| Return (a : A)
| Throw.
Arguments Return {A} a.
Arguments Throw {A}.

(** ** Strings *)

Definition dquote : ascii := "034"%char.
Definition backslash : ascii := "092"%char.

Definition str1 (c : ascii) : string := String c EmptyString.

(** [s.includes(t)]. *)
Fixpoint includes (s t : string) : bool :=
  String.prefix t s ||
  match s with
  | EmptyString => false
  | String _ r => includes r t
  end.

Fixpoint join (sep : string) (l : list string) : string :=
  match l with
  | [] => ""
  | [x] => x
  | x :: r => x +:+ sep +:+ join sep r
  end.

(** ** Properties of objects *)

Section Property.
Context {A : Type}.

(** [o[k]] for an own property; [None] when there is none. *)
Fixpoint lookupProp (o : object A) (k : string) : option A :=
  match o with
  | [] => None
  | (k', v) :: r => if String.eqb k' k then Some v else lookupProp r k
  end.

Definition hasProp (o : object A) (k : string) : bool :=
  match lookupProp o k with Some _ => true | None => false end.

Definition keys (o : object A) : list string := map fst o.

Fixpoint replaceProp (o : object A) (k : string) (v : A) : object A :=
  match o with
  | [] => []
  | (k', v') :: r =>
      if String.eqb k' k then (k', v) :: r else (k', v') :: replaceProp r k v
  end.
End Property.

(** A canonical array index: a decimal numeral without leading zero below
    2^32 - 1.  Properties with such names are enumerated first, in
    ascending order. *)
Definition digitValue (c : ascii) : option Z :=
  let n := Z.of_N (N_of_ascii c) in
  if (48 <=? n) && (n <=? 57) then Some (n - 48) else None.

Fixpoint decimalValue (acc : Z) (s : string) : option Z :=
  match s with
  | EmptyString => Some acc
  | String c r =>
      match digitValue c with
      | Some d => decimalValue (10 * acc + d) r
      | None => None
      end
  end.

Definition arrayIndex (k : string) : option Z :=
  match k with
  | EmptyString => None
  | String c r =>
      if Ascii.eqb c "0" && negb (String.eqb r "") then None
      else match decimalValue 0 k with
           | Some n => if n <? 4294967295 then Some n else None
           | None => None
           end
  end.

Section Define.
Context {A : Type}.

Fixpoint insertIndexed (o : object A) (n : Z) (k : string) (v : A) : object A :=
  match o with
  | [] => [(k, v)]
  | (k', v') :: r =>
      match arrayIndex k' with
      | Some n' =>
          if n' <? n then (k', v') :: insertIndexed r n k v
          else (k, v) :: o
      | None => (k, v) :: o
      end
  end.

(** [o[k] = v]: an existing property keeps its place, a new one goes to
    the end, or among the array indices when its name is one. *)
Definition setProp (o : object A) (k : string) (v : A) : object A :=
  if hasProp o k then replaceProp o k v
  else match arrayIndex k with
       | Some n => insertIndexed o n k v
       | None => o ++ [(k, v)]
       end.

(** The object an object literal or a sequence of assignments builds. *)
Definition objectOf (entries : list (string * A)) : object A :=
  fold_left (fun o kv => setProp o (fst kv) (snd kv)) entries [].
End Define.

(** [o.k]: the own property, or undefined (none of the names the service
    reads is inherited from Object.prototype). *)
Definition getPrim (o : Metrics) (k : string) : prim :=
  match lookupProp o k with Some v => v | None => PUndefined end.

Definition getProp (o : Diagnosis) (k : string) : value :=
  match lookupProp o k with Some v => v | None => VUndefined end.

(** ** Conversions of the language *)

(** The built-in conversions between numbers and text.  Their results
    depend on the engine and on the locale of the process, so the service
    is modelled over any choice of them. *)
Record Host : Type := {
  (** [Number::toString], as template literals and JSON.stringify use it *)
  Number_toString : number -> string;
  (** [Number.prototype.toLocaleString()] *)
  Number_toLocaleString : number -> string;
  (** [Number.prototype.toFixed(digits)] *)
  Number_toFixed : number -> Z -> string;
  (** [StringToNumber], the numeric value of a string *)
  StringToNumber : string -> number
}.

Definition Boolean_toString (b : bool) : string :=
  if b then "true" else "false".

(** [ToBoolean]. *)
Definition truthy (p : prim) : bool :=
  match p with
  | PUndefined | PNull => false
  | PBool b => b
  | PNum NaN => false
  | PNum (Fin q) => negb (Qeq_bool q 0)
  | PNum _ => true
  | PStr s => negb (String.eqb s "")
  end.

(** [a || b]. *)
Definition or_else (a b : prim) : prim := if truthy a then a else b.

(** [a?.m()] skips the call on these two. *)
Definition nullish (p : prim) : bool :=
  match p with
  | PUndefined | PNull => true
  | _ => false
  end.

Section Conversions.
Variable host : Host.

(** [ToString], the conversion a template literal applies. *)
Definition ToString (p : prim) : string :=
  match p with
  | PUndefined => "undefined"
  | PNull => "null"
  | PBool b => Boolean_toString b
  | PNum n => Number_toString host n
  | PStr s => s
  end.

(** [ToNumber]. *)
Definition ToNumber (p : prim) : number :=
  match p with
  | PUndefined => NaN
  | PNull => Fin 0
  | PBool b => if b then Fin 1 else Fin 0
  | PNum n => n
  | PStr s => StringToNumber host s
  end.

(** [p < c], [p > c] and [p >= c] against a numeric constant. *)
Definition js_lt (p : prim) (c : number) : bool :=
  match num_lt (ToNumber p) c with Some true => true | _ => false end.

Definition js_gt (p : prim) (c : number) : bool :=
  match num_lt c (ToNumber p) with Some true => true | _ => false end.

Definition js_ge (p : prim) (c : number) : bool :=
  match num_lt (ToNumber p) c with Some false => true | _ => false end.

(** [p.toLocaleString()]: the method of numbers formats, the inherited
    one of strings and booleans returns their text, and there is nothing
    to call on undefined or null. *)
Definition toLocaleString (p : prim) : completion string :=
  match p with
  | PUndefined | PNull => Throw
  | PBool b => Return (Boolean_toString b)
  | PNum n => Return (Number_toLocaleString host n)
  | PStr s => Return s
  end.

(** [p.toFixed(digits)]: only numbers have the method. *)
Definition toFixed (p : prim) (digits : Z) : completion string :=
  match p with
  | PNum n => Return (Number_toFixed host n digits)
  | _ => Throw
  end.
End Conversions.

(** ** JSON.stringify of a snapshot *)

Definition hexDigit (n : N) : ascii :=
  ascii_of_N (if (n <? 10)%N then 48 + n else 87 + n).

(** One code unit inside a quoted JSON string. *)
Definition escapeChar (c : ascii) : string :=
  let n := N_of_ascii c in
  if (n =? 34)%N then String backslash (str1 dquote)
  else if (n =? 92)%N then String backslash (str1 backslash)
  else if (n =? 8)%N then String backslash "b"
  else if (n =? 9)%N then String backslash "t"
  else if (n =? 10)%N then String backslash "n"
  else if (n =? 12)%N then String backslash "f"
  else if (n =? 13)%N then String backslash "r"
  else if (n <? 32)%N then
    String backslash ("u00" +:+ String (hexDigit (n / 16)) (str1 (hexDigit (n mod 16))))
  else str1 c.

Fixpoint escapeString (s : string) : string :=
  match s with
  | EmptyString => ""
  | String c r => escapeChar c +:+ escapeString r
  end.

(** [QuoteJSONString]. *)
Definition quoteJSON (s : string) : string :=
  String dquote (escapeString s +:+ str1 dquote).

Section Stringify.
Variable host : Host.

(** The text of a property value; [None] for undefined, whose property
    is left out. *)
Definition stringifyPrim (p : prim) : option string :=
  match p with
  | PUndefined => None
  | PNull => Some "null"
  | PBool b => Some (Boolean_toString b)
  | PNum (Fin q) => Some (Number_toString host (Fin q))
  | PNum _ => Some "null"
  | PStr s => Some (quoteJSON s)
  end.

Fixpoint stringifyMembers (m : Metrics) : list string :=
  match m with
  | [] => []
  | (k, v) :: r =>
      match stringifyPrim v with
      | Some t => (quoteJSON k +:+ ":" +:+ t) :: stringifyMembers r
      | None => stringifyMembers r
      end
  end.

(** [JSON.stringify(metrics)]. *)
Definition JSON_stringify (m : Metrics) : string :=
  "{" +:+ join "," (stringifyMembers m) +:+ "}".
End Stringify.

(** ** JSON.parse *)

Definition isJSONSpace (c : ascii) : bool :=
  let n := N_of_ascii c in
  ((n =? 32) || (n =? 9) || (n =? 10) || (n =? 13))%N.

Fixpoint skipSpace (s : string) : string :=
  match s with
  | EmptyString => s
  | String c r => if isJSONSpace c then skipSpace r else s
  end.

Definition hexValue (c : ascii) : option Z :=
  let n := Z.of_N (N_of_ascii c) in
  if (48 <=? n) && (n <=? 57) then Some (n - 48)
  else if (97 <=? n) && (n <=? 102) then Some (n - 87)
  else if (65 <=? n) && (n <=? 70) then Some (n - 55)
  else None.

Definition byte (n : Z) : ascii := ascii_of_N (Z.to_N n).

(** The UTF-8 bytes of the code unit a \u escape names (each half of a
    surrogate pair on its own). *)
Definition encodeUnit (u : Z) : string :=
  if u <? 128 then str1 (byte u)
  else if u <? 2048 then String (byte (192 + u / 64)) (str1 (byte (128 + u mod 64)))
  else String (byte (224 + u / 4096))
         (String (byte (128 + (u / 64) mod 64)) (str1 (byte (128 + u mod 64)))).

Definition simpleEscape (c : ascii) : option ascii :=
  let n := N_of_ascii c in
  if (n =? 34)%N then Some dquote
  else if (n =? 92)%N then Some backslash
  else if (n =? 47)%N then Some "/"%char
  else if (n =? 98)%N then Some "008"%char
  else if (n =? 102)%N then Some "012"%char
  else if (n =? 110)%N then Some "010"%char
  else if (n =? 114)%N then Some "013"%char
  else if (n =? 116)%N then Some "009"%char
  else None.

(** The characters of a JSON string after its opening quote, up to the
    closing one: the decoded text and what follows it. *)
Fixpoint parseChars (s : string) : option (string * string) :=
  match s with
  | EmptyString => None
  | String c r =>
      if Ascii.eqb c dquote then Some ("", r)
      else if Ascii.eqb c backslash then
        match r with
        | EmptyString => None
        | String e r1 =>
            match simpleEscape e with
            | Some d =>
                match parseChars r1 with
                | Some (t, rest) => Some (String d t, rest)
                | None => None
                end
            | None =>
                if Ascii.eqb e "u" then
                  match r1 with
                  | String h1 (String h2 (String h3 (String h4 r2))) =>
                      match hexValue h1, hexValue h2, hexValue h3, hexValue h4 with
                      | Some a, Some b, Some c', Some d =>
                          match parseChars r2 with
                          | Some (t, rest) =>
                              Some (encodeUnit (((a * 16 + b) * 16 + c') * 16 + d) +:+ t, rest)
                          | None => None
                          end
                      | _, _, _, _ => None
                      end
                  | _ => None
                  end
                else None
            end
        end
      else if (N_of_ascii c <? 32)%N then None
      else
        match parseChars r with
        | Some (t, rest) => Some (String c t, rest)
        | None => None
        end
  end.

(** A run of decimal digits: its value on top of [acc], its length, and
    what follows it. *)
Fixpoint readDigits (s : string) (acc : Z) (count : nat) : Z * nat * string :=
  match s with
  | EmptyString => (acc, count, s)
  | String c r =>
      match digitValue c with
      | Some d => readDigits r (10 * acc + d) (S count)
      | None => (acc, count, s)
      end
  end.

Definition pow10 (n : nat) : positive := Z.to_pos (10 ^ Z.of_nat n).

(** The integer part: a single zero, or digits that start with a non-zero one. *)
Definition parseInt (s : string) : option (Z * string) :=
  match s with
  | EmptyString => None
  | String c r =>
      match digitValue c with
      | None => None
      | Some 0 => Some (0, r)
      | Some _ =>
          let '(n, _, rest) := readDigits s 0 0 in Some (n, rest)
      end
  end.

(** The optional fraction: numerator and number of digits. *)
Definition parseFrac (s : string) : option (Z * nat * string) :=
  match s with
  | String "." r =>
      let '(f, k, rest) := readDigits r 0 0 in
      match k with
      | O => None
      | _ => Some (f, k, rest)
      end
  | _ => Some (0, O, s)
  end.

(** The optional exponent. *)
Definition parseExp (s : string) : option (Z * string) :=
  match s with
  | String c r =>
      if Ascii.eqb c "e" || Ascii.eqb c "E" then
        let '(sgn, r1) :=
          match r with
          | String "+" r' => (1, r')
          | String "-" r' => (-1, r')
          | _ => (1, r)
          end in
        let '(e, k, rest) := readDigits r1 0 0 in
        match k with
        | O => None
        | _ => Some (sgn * e, rest)
        end
      else Some (0, s)
  | EmptyString => Some (0, s)
  end.

Definition scale10 (q : Q) (e : Z) : Q :=
  if 0 <=? e then (q * inject_Z (10 ^ e))%Q
  else (q / inject_Z (10 ^ (- e)))%Q.

(** A JSON number, as the rational its digits denote. *)
Definition parseNumber (s : string) : option (Q * string) :=
  let '(sgn, s1) :=
    match s with
    | String "-" r => (-1, r)
    | _ => (1, s)
    end in
  match parseInt s1 with
  | None => None
  | Some (n, s2) =>
      match parseFrac s2 with
      | None => None
      | Some (f, k, s3) =>
          match parseExp s3 with
          | None => None
          | Some (e, s4) =>
              let mantissa := ((n * Zpos (pow10 k) + f) # pow10 k)%Q in
              Some (Qred (inject_Z sgn * scale10 mantissa e), s4)
          end
      end
  end.

Definition dropPrefix (p s : string) : option string :=
  if String.prefix p s
  then Some (String.substring (String.length p) (String.length s - String.length p) s)
  else None.

(** A JSON value at the head of [s] (no leading space), and what follows
    it.  [fuel] bounds the nesting and the number of members; [JSON_parse]
    gives enough of it for the whole text. *)
Fixpoint parseValue (fuel : nat) (s : string) {struct fuel} : option (value * string) :=
  match fuel with
  | O => None
  | S fuel' =>
      match s with
      | EmptyString => None
      | String c r =>
          if Ascii.eqb c "{" then
            match skipSpace r with
            | String "}" rest => Some (VObj [], rest)
            | r' =>
                match parseMembers fuel' [] r' with
                | Some (o, rest) => Some (VObj o, rest)
                | None => None
                end
            end
          else if Ascii.eqb c "[" then
            match skipSpace r with
            | String "]" rest => Some (VArr [], rest)
            | r' =>
                match parseElements fuel' [] r' with
                | Some (l, rest) => Some (VArr l, rest)
                | None => None
                end
            end
          else if Ascii.eqb c dquote then
            match parseChars r with
            | Some (t, rest) => Some (VStr t, rest)
            | None => None
            end
          else
            match dropPrefix "true" s, dropPrefix "false" s, dropPrefix "null" s with
            | Some rest, _, _ => Some (VPrim (PBool true), rest)
            | _, Some rest, _ => Some (VPrim (PBool false), rest)
            | _, _, Some rest => Some (VPrim PNull, rest)
            | None, None, None =>
                match parseNumber s with
                | Some (q, rest) => Some (VPrim (PNum (Fin q)), rest)
                | None => None
                end
            end
      end
  end
with parseElements (fuel : nat) (acc : list value) (s : string) {struct fuel}
  : option (list value * string) :=
  match fuel with
  | O => None
  | S fuel' =>
      match parseValue fuel' s with
      | None => None
      | Some (v, r) =>
          match skipSpace r with
          | String "," r' => parseElements fuel' (acc ++ [v]) (skipSpace r')
          | String "]" rest => Some (acc ++ [v], rest)
          | _ => None
          end
      end
  end
with parseMembers (fuel : nat) (acc : object value) (s : string) {struct fuel}
  : option (object value * string) :=
  match fuel with
  | O => None
  | S fuel' =>
      match s with
      | String c r =>
          if Ascii.eqb c dquote then
            match parseChars r with
            | None => None
            | Some (k, r1) =>
                match skipSpace r1 with
                | String ":" r2 =>
                    match parseValue fuel' (skipSpace r2) with
                    | None => None
                    | Some (v, r3) =>
                        match skipSpace r3 with
                        | String "," r4 => parseMembers fuel' (setProp acc k v) (skipSpace r4)
                        | String "}" rest => Some (setProp acc k v, rest)
                        | _ => None
                        end
                    end
                | _ => None
                end
            end
          else None
      | EmptyString => None
      end
  end.

(** [JSON.parse(text)]; [None] when it throws a SyntaxError. *)
Definition JSON_parse (text : string) : option value :=
  match parseValue (2 * String.length text + 2) (skipSpace text) with
  | Some (v, rest) =>
      match skipSpace rest with
      | EmptyString => Some v
      | _ => None
      end
  | None => None
  end.

(** ** The match of [/\{[\s\S]*\}/] *)

(** The text from its first opening brace on. *)
Fixpoint fromFirstOpen (s : string) : option string :=
  match s with
  | EmptyString => None
  | String c r => if Ascii.eqb c "{" then Some s else fromFirstOpen r
  end.

(** The text up to its last closing brace. *)
Fixpoint upToLastClose (s : string) : option string :=
  match s with
  | EmptyString => None
  | String c r =>
      match upToLastClose r with
      | Some t => Some (String c t)
      | None => if Ascii.eqb c "}" then Some (str1 c) else None
      end
  end.

(** [text.match(/\{[\s\S]*\}/)]: the greedy match runs from the first
    opening brace to the last closing brace after it. *)
Definition matchBraces (text : string) : option string :=
  match fromFirstOpen text with
  | Some s => upToLastClose s
  | None => None
  end.

(** Writing a JSON text in a string literal: every apostrophe stands for a
    double quote. *)
Fixpoint dq (s : string) : string :=
  match s with
  | EmptyString => ""
  | String c r => String (if Ascii.eqb c "'" then dquote else c) (dq r)
  end.

(** ** The service *)

Record CacheEntry : Type := {
  data : Diagnosis;
  timestamp : Z
}.

(** The fields of a [DiagnosticService]. *)
Record State : Type := {
  diagnosisCache : gmap string CacheEntry;
  cacheExpiry : Z;
  lastGeminiCall : Z;
  minCallInterval : Z;
  dailyCallCount : Z;
  maxDailyCalls : Z;
  lastResetDate : string
}.

(** [new DiagnosticService()], on the day [today]. *)
Definition constructor (today : string) : State := {|
  diagnosisCache := ∅;
  cacheExpiry := 3600000;
  lastGeminiCall := 0;
  minCallInterval := 60000;
  dailyCallCount := 0;
  maxDailyCalls := 50;
  lastResetDate := today
|}.

(** What [model.generateContent] and [response.text()] give: the raw text,
    or an error thrown on the way. *)
Inductive GeminiReply : Type :=
| GeminiText (text : string)
| GeminiError.

(** What one call of [generateDiagnosis] reads from outside the service. *)
Record World : Type := {
  (** [new Date().toDateString()] in resetDailyCounterIfNeeded *)
  today : string;
  (** [Date.now()] in the test of the cached entry *)
  clockAtCacheCheck : Z;
  (** [Date.now()] of [const now] *)
  clockNow : Z;
  (** the answer of the Gemini client, were it called *)
  gemini : GeminiReply;
  (** [new Date().toISOString()] in generateRuleBasedDiagnosis *)
  isoNow : string
}.

(** Which branch of [generateDiagnosis] ran; each one logs its own line. *)
Inductive Route : Type :=
| CacheHit          (* Using cached diagnosis (quota saved) *)
| QuotaFallback     (* Gemini daily limit reached / rate limit - using rule-based diagnosis *)
| GeminiParsed      (* Gemini diagnosis generated, from the object in the answer *)
| GeminiUnparsed    (* Error parsing Gemini response, then Gemini diagnosis generated *)
| GeminiFailed.     (* Error generating diagnosis with Gemini *)

(** The Gemini client was called on this route. *)
Definition geminiInvoked (r : Route) : bool :=
  match r with
  | GeminiParsed | GeminiUnparsed | GeminiFailed => true
  | CacheHit | QuotaFallback => false
  end.

(** The call was entered in the quota (lines 327-328 ran). *)
Definition quotaRecorded (r : Route) : bool :=
  match r with
  | GeminiParsed | GeminiUnparsed => true
  | _ => false
  end.

Definition bind {A B : Type} (c : completion A) (k : A -> completion B) : completion B :=
  match c with
  | Return a => k a
  | Throw => Throw
  end.

Notation "'do' x <- c ; k" := (bind c (fun x => k))
  (at level 10, x name, c at level 100, k at level 200).

Definition resetDailyCounterIfNeeded (s : State) (w : World) : State :=
  if String.eqb (lastResetDate s) (today w) then s
  else {|
    diagnosisCache := diagnosisCache s;
    cacheExpiry := cacheExpiry s;
    lastGeminiCall := lastGeminiCall s;
    minCallInterval := minCallInterval s;
    dailyCallCount := 0;
    maxDailyCalls := maxDailyCalls s;
    lastResetDate := today w
  |}.

(** [this.diagnosisCache.set(cacheKey, { data, timestamp: now })]. *)
Definition cacheSet (s : State) (cacheKey : string) (d : Diagnosis) (now : Z) : State := {|
  diagnosisCache := <[cacheKey := {| data := d; timestamp := now |}]> (diagnosisCache s);
  cacheExpiry := cacheExpiry s;
  lastGeminiCall := lastGeminiCall s;
  minCallInterval := minCallInterval s;
  dailyCallCount := dailyCallCount s;
  maxDailyCalls := maxDailyCalls s;
  lastResetDate := lastResetDate s
|}.

(** [this.lastGeminiCall = now; this.dailyCallCount++]. *)
Definition recordCall (s : State) (now : Z) : State := {|
  diagnosisCache := diagnosisCache s;
  cacheExpiry := cacheExpiry s;
  lastGeminiCall := now;
  minCallInterval := minCallInterval s;
  dailyCallCount := dailyCallCount s + 1;
  maxDailyCalls := maxDailyCalls s;
  lastResetDate := lastResetDate s
|}.

(** The fallback of the parse (lines 315-318). *)
Definition genericDiagnosis (organType : string) : Diagnosis :=
  [("diagnosis",
    VStr ("Environmental stress detected in " +:+ organType +:+ ". Immediate intervention required."));
   ("status", VStr "INFLAMED")].

(** Lines 306-311, the body of the inner try: the object that JSON.parse
    makes of the match, or [None] when an error is thrown (no match, or a
    SyntaxError of JSON.parse).  A text that parses from an opening brace
    is an object, so the last case never returns. *)
Definition extractObject (text : string) : option Diagnosis :=
  match matchBraces text with
  | Some json =>
      match JSON_parse json with
      | Some (VObj o) => Some o
      | _ => None
      end
  | None => None
  end.

(** Lines 303-319: the object in the answer, or the fallback of the catch;
    the flag tells which. *)
Definition parseGeminiText (organType text : string) : Diagnosis * bool :=
  match extractObject text with
  | Some o => (o, true)
  | None => (genericDiagnosis organType, false)
  end.

Definition isString (v : value) (s : string) : bool :=
  match v with
  | VPrim (PStr t) => String.eqb t s
  | _ => false
  end.

(** Lines 322-324. *)
Definition validateStatus (diagnosisData : Diagnosis) : Diagnosis :=
  let status := getProp diagnosisData "status" in
  if isString status "INFLAMED" || isString status "HEALTHY" then diagnosisData
  else setProp diagnosisData "status" (VStr "INFLAMED").

Section Service.
Variable host : Host.

(** [metrics.totalAreaHa?.toLocaleString() || "N/A"], as text. *)
Definition localeOrNA (p : prim) : completion string :=
  do t <- (if nullish p then Return PUndefined
           else do t <- toLocaleString host p; Return (PStr t));
  Return (ToString host (or_else t (PStr "N/A"))).

Definition ruleBasedResult (diagnosis status severity iso : string) : Diagnosis :=
  [("diagnosis", VStr diagnosis);
   ("status", VStr status);
   ("severity", VStr severity);
   ("source", VStr "Rule-based diagnostic system");
   ("timestamp", VStr iso)].

Definition generateRuleBasedDiagnosis (metrics : Metrics) (organType : string) (iso : string)
  : completion Diagnosis :=
  if String.eqb organType "Lungs" then
    let alertCount := or_else (getPrim metrics "alertCount") (PNum (Fin 0)) in
    let region := ToString host (getPrim metrics "region") in
    if js_gt host alertCount (Fin 1000) then
      do n <- toLocaleString host alertCount;
      do area <- localeOrNA (getPrim metrics "totalAreaHa");
      Return (ruleBasedResult
        ("CRITICAL RESPIRATORY DISTRESS: " +:+ n +:+ " deforestation alerts detected in "
         +:+ region +:+ ". Massive tissue damage observed. Area affected: " +:+ area
         +:+ " hectares. Immediate intervention required to prevent irreversible damage.")
        "INFLAMED" "CRITICAL" iso)
    else if js_gt host alertCount (Fin 500) then
      do n <- toLocaleString host alertCount;
      Return (ruleBasedResult
        ("ACUTE INFLAMMATION: " +:+ n
         +:+ " deforestation events compromising respiratory function in " +:+ region
         +:+ ". Significant tissue degradation detected. Urgent restoration protocols recommended.")
        "INFLAMED" "HIGH" iso)
    else if js_gt host alertCount (Fin 200) then
      Return (ruleBasedResult
        ("MODERATE STRESS: " +:+ ToString host alertCount
         +:+ " deforestation alerts indicate early-stage respiratory compromise in " +:+ region
         +:+ ". Preventive measures advised to avoid progression.")
        "INFLAMED" "MODERATE" iso)
    else
      Return (ruleBasedResult
        ("STABLE CONDITION: Minimal deforestation activity (" +:+ ToString host alertCount
         +:+ " alerts) in " +:+ region
         +:+ ". Respiratory function within normal parameters. Continue monitoring.")
        "HEALTHY" "LOW" iso)
  else if String.eqb organType "Veins" then
    let pH := or_else (getPrim metrics "pH") (PNum (Fin (81 # 10))) in
    let location := ToString host (getPrim metrics "location") in
    let level := ToString host (getPrim metrics "acidificationLevel") in
    if js_lt host pH (Fin (79 # 10)) then
      do x <- toFixed host pH 3;
      Return (ruleBasedResult
        ("SEVERE ACIDOSIS: Ocean pH at " +:+ x +:+ " in " +:+ location
         +:+ ". Critical acidification threatening circulatory system integrity. Coral bleaching and marine ecosystem collapse imminent. Emergency alkalinity restoration required.")
        "INFLAMED" "CRITICAL" iso)
    else if js_lt host pH (Fin 8) then
      do x <- toFixed host pH 3;
      Return (ruleBasedResult
        ("ACUTE ACIDIFICATION: pH level " +:+ x +:+ " detected in " +:+ location
         +:+ ". Circulatory system under significant stress. " +:+ level
         +:+ " acidification level compromising vascular health. Immediate buffering intervention needed.")
        "INFLAMED" "HIGH" iso)
    else if js_lt host pH (Fin (81 # 10)) then
      do x <- toFixed host pH 3;
      Return (ruleBasedResult
        ("EARLY ACIDOSIS: pH " +:+ x +:+ " in " +:+ location
         +:+ " indicates moderate circulatory stress. " +:+ level
         +:+ " acidification detected. Preventive measures recommended.")
        "INFLAMED" "MODERATE" iso)
    else
      do x <- toFixed host pH 3;
      Return (ruleBasedResult
        ("OPTIMAL CIRCULATION: Ocean pH at " +:+ x +:+ " in " +:+ location
         +:+ ". Vascular system functioning normally. Acidification levels within safe parameters.")
        "HEALTHY" "LOW" iso)
  else if String.eqb organType "Skin" then
    let aqi := or_else (getPrim metrics "aqi") (PNum (Fin 1)) in
    let pm25 := or_else (getPrim metrics "pm25") (PNum (Fin 0)) in
    let location := ToString host (getPrim metrics "location") in
    if js_ge host aqi (Fin 4) || js_gt host pm25 (Fin 35) then
      do x <- toFixed host pm25 2;
      Return (ruleBasedResult
        ("SEVERE DERMAL TOXICITY: Air Quality Index " +:+ ToString host aqi
         +:+ " (Unhealthy) in " +:+ location +:+ ". PM2.5 particulate matter at " +:+ x
         +:+ " μg/m³. Skin barrier severely compromised. Toxic exposure causing cellular damage. Immediate air purification required.")
        "INFLAMED" "CRITICAL" iso)
    else if js_ge host aqi (Fin 3) || js_gt host pm25 (Fin 25) then
      do x <- toFixed host pm25 2;
      Return (ruleBasedResult
        ("ACUTE IRRITATION: AQI " +:+ ToString host aqi +:+ " with PM2.5 at " +:+ x
         +:+ " μg/m³ in " +:+ location
         +:+ ". Moderate air pollution causing dermal stress. Protective measures advised.")
        "INFLAMED" "HIGH" iso)
    else if js_ge host aqi (Fin 2) || js_gt host pm25 (Fin 12) then
      do x <- toFixed host pm25 2;
      Return (ruleBasedResult
        ("MILD INFLAMMATION: AQI " +:+ ToString host aqi +:+ ", PM2.5 " +:+ x
         +:+ " μg/m³ in " +:+ location
         +:+ ". Acceptable air quality but showing early signs of environmental stress. Monitor closely.")
        "INFLAMED" "MODERATE" iso)
    else
      do x <- toFixed host pm25 2;
      Return (ruleBasedResult
        ("HEALTHY EPIDERMIS: Air quality excellent in " +:+ location +:+ ". AQI "
         +:+ ToString host aqi +:+ ", PM2.5 " +:+ x
         +:+ " μg/m³. Skin barrier functioning optimally. No intervention needed.")
        "HEALTHY" "LOW" iso)
  else
    Return (ruleBasedResult
      ("Environmental monitoring active for " +:+ organType +:+ ". Awaiting detailed analysis.")
      "INFLAMED" "LOW" iso).

(** The key of the cache (line 229). *)
Definition cacheKey (organType : string) (metrics : Metrics) : string :=
  organType +:+ "-" +:+ JSON_stringify host metrics.

(** The cached entry, when it is still valid (lines 230-232). *)
Definition cachedValid (s : State) (key : string) (w : World) : option CacheEntry :=
  match diagnosisCache s !! key with
  | Some cached =>
      if clockAtCacheCheck w - timestamp cached <? cacheExpiry s then Some cached else None
  | None => None
  end.

(** Lines 238-242. *)
Definition shouldUseGemini (s : State) (w : World) : bool :=
  let timeSinceLastCall := clockNow w - lastGeminiCall s in
  (minCallInterval s <=? timeSinceLastCall) && (dailyCallCount s <? maxDailyCalls s).

(** The rule-based diagnosis, cached when it is produced (lines 250-258
    and 345-356). *)
Definition ruleBasedCached (s : State) (key : string) (metrics : Metrics)
    (organType : string) (w : World) (r : Route) : completion Diagnosis * State * Route :=
  match generateRuleBasedDiagnosis metrics organType (isoNow w) with
  | Return ruleBased => (Return ruleBased, cacheSet s key ruleBased (clockNow w), r)
  | Throw => (Throw, s, r)
  end.

Definition generateDiagnosis (s0 : State) (metrics : Metrics) (organType : string) (w : World)
  : completion Diagnosis * State * Route :=
  let s := resetDailyCounterIfNeeded s0 w in
  let key := cacheKey organType metrics in
  match cachedValid s key w with
  | Some cached => (Return (data cached), s, CacheHit)
  | None =>
      let now := clockNow w in
      if negb (shouldUseGemini s w) then
        ruleBasedCached s key metrics organType w QuotaFallback
      else
        match gemini w with
        | GeminiText text =>
            let '(parsed, ok) := parseGeminiText organType text in
            let diagnosisData := validateStatus parsed in
            (Return diagnosisData,
             cacheSet (recordCall s now) key diagnosisData now,
             if ok then GeminiParsed else GeminiUnparsed)
        | GeminiError =>
            ruleBasedCached s key metrics organType w GeminiFailed
        end
  end.
End Service.

(** ** The diagnostic scan *)

(** An organ document, as far as the scan reads it. *)
Record Organ : Type := {
  name : string;
  type : string;
  healthScore : number
}.

(** What a scan reads from outside the service.  The three fetchers end in
    a snapshot whatever their sources do; which snapshot is up to the
    network, so they are taken as given functions of the place asked for. *)
Record ScanWorld : Type := {
  fetchDeforestationData : string -> Metrics;
  fetchOceanPHData : string -> Metrics;
  fetchAirQualityData : string -> Metrics;
  diagnosisWorld : World;
  (** [new Date().toISOString()] of the result *)
  scanIso : string
}.

(** The object [performDiagnosticScan] returns. *)
Record ScanResult : Type := {
  scan_metrics : Metrics;
  scan_diagnosis : value;
  scan_status : value;
  scan_healthScore : number;
  scan_timestamp : string
}.

Section Scan.
Variable host : Host.

(** Lines 457-475; [None] is the thrown Unknown organ type. *)
Definition fetchMetrics (organ : Organ) (sw : ScanWorld) : option Metrics :=
  if String.eqb (type organ) "Lungs" then
    Some (fetchDeforestationData sw (if includes (name organ) "Amazon" then "Amazon" else "Congo"))
  else if String.eqb (type organ) "Veins" then
    Some (fetchOceanPHData sw (if includes (name organ) "Barrier" then "Great Barrier Reef" else "Ocean"))
  else if String.eqb (type organ) "Skin" then
    Some (fetchAirQualityData sw (if includes (name organ) "Lagos" then "Lagos" else "Delhi"))
  else None.

(** Lines 481-489. *)
Definition computeHealthScore (organ : Organ) (metrics : Metrics) : number :=
  if String.eqb (type organ) "Lungs" && truthy (getPrim metrics "alertCount") then
    Math_max (Fin 0)
      (num_sub (Fin 100) (num_div (ToNumber host (getPrim metrics "alertCount")) (Fin 10)))
  else if String.eqb (type organ) "Veins" && truthy (getPrim metrics "pH") then
    Math_min (Fin 100)
      (num_mul (num_sub (ToNumber host (getPrim metrics "pH")) (Fin (75 # 10))) (Fin 200))
  else if String.eqb (type organ) "Skin" && truthy (getPrim metrics "aqi") then
    Math_max (Fin 0)
      (num_sub (Fin 100) (num_mul (ToNumber host (getPrim metrics "aqi")) (Fin 15)))
  else healthScore organ.

Definition performDiagnosticScan (s : State) (organ : Organ) (sw : ScanWorld)
  : completion ScanResult * State :=
  match fetchMetrics organ sw with
  | None => (Throw, s)
  | Some metrics =>
      match generateDiagnosis host s metrics (type organ) (diagnosisWorld sw) with
      | (Throw, s', _) => (Throw, s')
      | (Return diagnosisResult, s', _) =>
          let healthScore := computeHealthScore organ metrics in
          (Return {|
             scan_metrics := metrics;
             scan_diagnosis := getProp diagnosisResult "diagnosis";
             scan_status := getProp diagnosisResult "status";
             scan_healthScore := Math_round healthScore;
             scan_timestamp := scanIso sw
           |}, s')
      end
  end.
End Scan.

(** ** Runs of the service *)

(** One call of [generateDiagnosis]. *)
Record Call : Type := {
  call_metrics : Metrics;
  call_organType : string;
  call_world : World
}.

(** What one call of a run did. *)
Record Step : Type := {
  step_before : State;
  step_call : Call;
  step_result : completion Diagnosis;
  step_route : Route;
  step_after : State
}.

Section Runs.
Variable host : Host.

Definition stepOf (s : State) (c : Call) : Step :=
  let '(r, s', route) :=
    generateDiagnosis host s (call_metrics c) (call_organType c) (call_world c) in
  {| step_before := s; step_call := c; step_result := r;
     step_route := route; step_after := s' |}.

(** The calls [calls], one after the other, from the state [s]. *)
Fixpoint run (s : State) (calls : list Call) : list Step :=
  match calls with
  | [] => []
  | c :: rest => let st := stepOf s c in st :: run (step_after st) rest
  end.

(** The state the calls leave. *)
Fixpoint runState (s : State) (calls : list Call) : State :=
  match calls with
  | [] => s
  | c :: rest => runState (step_after (stepOf s c)) rest
  end.
End Runs.

(** The state in which the step tested the quota: the one it started
    from, after the reset of a new day. *)
Definition step_checked (st : Step) : State :=
  resetDailyCounterIfNeeded (step_before st) (call_world (step_call st)).

(** The times ([const now]) of the calls entered in the quota, in order. *)
Definition recordedTimes (steps : list Step) : list Z :=
  map (fun st => clockNow (call_world (step_call st)))
      (filter (fun st => quotaRecorded (step_route st) = true) steps).

(** Consecutive times are at least [d] apart. *)
Fixpoint spaced (d : Z) (times : list Z) : Prop :=
  match times with
  | a :: (b :: _) as rest => d <= b - a /\ spaced d rest
  | _ => True
  end.

(** ** A host to run examples on *)

(** Decimal conversions in the style of an en-US Node process.  They are
    exact on integers and on numbers with a short decimal expansion; the
    theorems of this file hold for every host and do not use them. *)
Module RefHost.

Definition digitChar (d : Z) : ascii := byte (48 + d).

(** The digits of r/den after the decimal point, at most [k] of them. *)
Fixpoint fracDigits (r den : Z) (k : nat) : string :=
  match k with
  | O => ""
  | S k' =>
      if r =? 0 then ""
      else String (digitChar (10 * r / den)) (fracDigits ((10 * r) mod den) den k')
  end.

Definition sign (q : Q) : string := if Qlt_bool q 0 then "-" else "".

Definition toString (n : number) : string :=
  match n with
  | NaN => "NaN"
  | Infinity => "Infinity"
  | NegInfinity => "-Infinity"
  | Fin q =>
      let num := Z.abs (Qnum q) in
      let den := Zpos (Qden q) in
      let frac := fracDigits (num mod den) den 17 in
      sign q +:+ pretty (num / den) +:+ (if String.eqb frac "" then "" else "." +:+ frac)
  end.

Fixpoint zeros (k : nat) : string :=
  match k with
  | O => ""
  | S k' => String "0" (zeros k')
  end.

Definition padLeft (k : nat) (t : string) : string :=
  zeros (k - String.length t) +:+ t.

(** |q| * 10^d rounded to the nearest integer, a tie going up. *)
Definition scaled (q : Q) (d : nat) : Z :=
  Qfloor (Qabs q * inject_Z (10 ^ Z.of_nat d) + (1 # 2)).

Definition toFixed (n : number) (digits : Z) : string :=
  match n with
  | Fin q =>
      let d := Z.to_nat digits in
      let m := scaled q d in
      let p := 10 ^ Z.of_nat d in
      sign q +:+ pretty (m / p)
        +:+ (if (d =? 0)%nat then "" else "." +:+ padLeft d (pretty (m mod p)))
  | _ => toString n
  end.

(** Commas between the groups of three digits of [t]. *)
Fixpoint group (t : string) : string :=
  match t with
  | EmptyString => ""
  | String c r =>
      String c (if (0 <? String.length r)%nat && (String.length r mod 3 =? 0)%nat
                then String "," (group r) else group r)
  end.

Definition toLocaleString (n : number) : string :=
  match n with
  | Fin q =>
      let m := scaled q 3 in
      let frac := fracDigits (m mod 1000) 1000 3 in
      sign q +:+ group (pretty (m / 1000))
        +:+ (if String.eqb frac "" then "" else "." +:+ frac)
  | _ => toString n
  end.

Definition stringToNumber (t : string) : number :=
  match skipSpace t with
  | EmptyString => Fin 0
  | t' =>
      match parseNumber t' with
      | Some (q, rest) =>
          match skipSpace rest with
          | EmptyString => Fin q
          | _ => NaN
          end
      | None => NaN
      end
  end.

Definition host : Host := {|
  Number_toString := toString;
  Number_toLocaleString := toLocaleString;
  Number_toFixed := toFixed;
  StringToNumber := stringToNumber
|}.

End RefHost.

Definition num (z : Z) : prim := PNum (Fin (inject_Z z)).

(** The snapshot of the mock branch of fetchDeforestationData. *)
Definition lungsMetrics (alertCount : Z) : Metrics :=
  [("alertCount", num alertCount);
   ("totalAreaHa", num (alertCount * 5));
   ("region", PStr "Amazon");
   ("dataSource", PStr "Mock Data (Realistic)");
   ("timestamp", PStr "2026-01-15T10:00:00.000Z")].

(** ** Sample inputs *)

(** A world in which both readings of the clock give [t]. *)
Definition worldAt (day : string) (t : Z) (iso : string) (reply : GeminiReply) : World := {|
  today := day;
  clockAtCacheCheck := t;
  clockNow := t;
  gemini := reply;
  isoNow := iso
|}.

Definition thursday : string := "Thu Jan 15 2026".

(** 2026-01-15T10:00:00.000Z, in milliseconds. *)
Definition tenOClock : Z := 1768471200000.

Definition healthyAnswer : string :=
  dq "{'diagnosis': 'Tissue regeneration observed. Respiratory function stable.', 'status': 'HEALTHY'}".

(** A first call that Gemini answers. *)
Definition answeredWorld : World :=
  worldAt thursday tenOClock "2026-01-15T10:00:00.000Z" (GeminiText healthyAnswer).

(** A call, one millisecond later, on which the Gemini client throws. *)
Definition failingWorld (t : Z) : World :=
  worldAt thursday t "2026-01-15T10:00:00.001Z" GeminiError.

Definition lungsCall (alertCount : Z) (w : World) : Call := {|
  call_metrics := lungsMetrics alertCount;
  call_organType := "Lungs";
  call_world := w
|}.

(** ** Predicates of the properties *)

(** The status is one of the two permitted values. *)
Definition statusPermitted (d : Diagnosis) : Prop :=
  getProp d "status" = VStr "INFLAMED" \/ getProp d "status" = VStr "HEALTHY".

(** A non-empty text. *)
Definition nonEmptyText (v : value) : Prop :=
  exists t, v = VStr t /\ t <> "".

(** Every cached diagnosis has a permitted status. *)
Definition cachePermitted (s : State) : Prop :=
  forall k e, diagnosisCache s !! k = Some e -> statusPermitted (data e).

Definition isNumber (p : prim) : bool :=
  match p with
  | PNum _ => true
  | _ => false
  end.

(** The fields on which the rule-based engine calls toFixed hold numbers
    (or nothing): pH for the Veins, pm25 for the Skin. *)
Definition ruleBasedReady (metrics : Metrics) (organType : string) : bool :=
  if String.eqb organType "Lungs" then true
  else if String.eqb organType "Veins" then
    isNumber (or_else (getPrim metrics "pH") (PNum (Fin (81 # 10))))
  else if String.eqb organType "Skin" then
    isNumber (or_else (getPrim metrics "pm25") (PNum (Fin 0)))
  else true.

Definition ruleBasedFields : list string :=
  ["diagnosis"; "status"; "severity"; "source"; "timestamp"].

(** The text contains a well-formed JSON object: some part of it parses
    as one. *)
Definition containsObject (text : string) : Prop :=
  exists a json b o, text = a +:+ json +:+ b /\ JSON_parse json = Some (VObj o).

Definition unknownStatusAnswer : string :=
  dq "{'diagnosis': 'Mild irritation of the canopy.', 'status': 'UNKNOWN'}".

Definition bareStatusAnswer : string := dq "{'status': 'HEALTHY'}".

(** The diagnosis a call returned; the empty object when it threw. *)
Definition returned (r : completion Diagnosis * State * Route) : Diagnosis :=
  match r with
  | (Return d, _, _) => d
  | (Throw, _, _) => []
  end.

(** A Veins snapshot whose pH is a text. *)
Definition textualPH : Metrics :=
  [("pH", PStr "acidic"); ("location", PStr "Great Barrier Reef")].

Definition bareStatusWorld : World :=
  worldAt thursday tenOClock "2026-01-15T10:00:00.000Z" (GeminiText bareStatusAnswer).

Definition unparsedWorld : World :=
  worldAt thursday tenOClock "2026-01-15T10:00:00.000Z"
    (GeminiText "I am unable to assess this organ.").

(** ** The fields that JSON.stringify writes *)

Definition isDefined (p : prim) : bool :=
  match p with
  | PUndefined => false
  | _ => true
  end.

(** The fields of a snapshot that hold something else than undefined. *)
Definition definedFields (m : Metrics) : Metrics :=
  List.filter (fun kv => isDefined (snd kv)) m.

Definition allAscii : list ascii := map ascii_of_nat (seq 0 256).

(** [p] holds of every code unit. *)
Definition everyAscii (p : ascii -> bool) : bool := forallb p allAscii.

(** The escaped form of [c1] is the beginning of that of [c2] only when
    they are the same code unit. *)
Definition escapePrefixFree (c1 c2 : ascii) : bool :=
  implb (String.prefix (escapeChar c1) (escapeChar c2)) (Ascii.eqb c1 c2).

(** The escaped form of [c] does not begin with a double quote. *)
Definition escapeHidesQuote (c : ascii) : bool :=
  match escapeChar c with
  | String h _ => negb (Ascii.eqb h dquote)
  | EmptyString => false
  end.

Definition reefFirstPH : Metrics :=
  objectOf [("pH", num 8); ("location", PStr "Great Barrier Reef")].

Definition reefFirstLocation : Metrics :=
  objectOf [("location", PStr "Great Barrier Reef"); ("pH", num 8)].

(** The seeded organ of the Veins. *)
Definition reefOrgan : Organ := {|
  name := "Great Barrier Reef Veins";
  type := "Veins";
  healthScore := Fin 42
|}.

(** A scan on which every fetcher ends with the snapshot [m]. *)
Definition scanWorld (m : Metrics) (w : World) : ScanWorld := {|
  fetchDeforestationData := fun _ => m;
  fetchOceanPHData := fun _ => m;
  fetchAirQualityData := fun _ => m;
  diagnosisWorld := w;
  scanIso := "2026-01-15T10:00:02.000Z"
|}.

(** The snapshot of fetchOceanPHData, with the given pH. *)
Definition reefMetrics (pH : Q) : Metrics :=
  [("pH", PNum (Fin pH));
   ("location", PStr "Great Barrier Reef");
   ("dataSource", PStr "NOAA OCADS (Mock)");
   ("timestamp", PStr "2026-01-15T10:00:00.000Z");
   ("acidificationLevel", PStr "HIGH")].

(** The health score a scan returned; [None] when it threw. *)
Definition scanScore (r : completion ScanResult * State) : option number :=
  match r with
  | (Return res, _) => Some (scan_healthScore res)
  | (Throw, _) => None
  end.


(** ** More sample inputs *)

Definition wednesday : string := "Wed Jan 14 2026".

(** A service that used its fifty calls on Wednesday, the last of them at
    ten in the evening. *)
Definition exhaustedState : State := {|
  diagnosisCache := ∅;
  cacheExpiry := 3600000;
  lastGeminiCall := 1768428000000;
  minCallInterval := 60000;
  dailyCallCount := 50;
  maxDailyCalls := 50;
  lastResetDate := wednesday
|}.


(** Three calls of one sweep on Thursday morning, 400 ms apart. *)
Definition sweepCalls : list Call :=
  [lungsCall 1500 answeredWorld;
   lungsCall 700 (worldAt thursday (tenOClock + 400) "2026-01-15T10:00:00.400Z"
                    (GeminiText healthyAnswer));
   lungsCall 50 (worldAt thursday (tenOClock + 800) "2026-01-15T10:00:00.800Z"
                   (GeminiText healthyAnswer))].

(** The state after the first call of Thursday, answered by Gemini. *)
Definition afterFirstCall : State :=
  step_after (stepOf RefHost.host (constructor thursday) (lungsCall 1500 answeredWorld)).

(** The same call, one hour later to the millisecond. *)
Definition hourLaterWorld : World :=
  worldAt thursday (tenOClock + 3600000) "2026-01-15T11:00:00.000Z"
    (GeminiText unknownStatusAnswer).

(** The snapshot of the mock branch of fetchAirQualityData. *)
Definition skinMetrics (aqi pm25 : Q) : Metrics :=
  [("aqi", PNum (Fin aqi));
   ("pm25", PNum (Fin pm25));
   ("pm10", PNum (Fin 60));
   ("no2", PNum (Fin 30));
   ("location", PStr "Lagos");
   ("dataSource", PStr "Mock Data (Realistic)");
   ("timestamp", PStr "2026-01-15T10:00:00.000Z")].

(** Two more organs, with the score the data base held before the scan. *)
Definition forestOrgan : Organ := {|
  name := "Amazon Rainforest";
  type := "Lungs";
  healthScore := Fin 42
|}.

Definition cityOrgan : Organ := {|
  name := "Lagos Atmosphere";
  type := "Skin";
  healthScore := Fin 42
|}.

(** The number is an integer between 0 and 100. *)
Definition percentage (a : number) : Prop :=
  exists z : Z, a = Fin (inject_Z z) /\ 0 <= z <= 100.

(** ** The quota report of the organ controller *)

(** [new Date(t).toISOString()] for an integral time value [t].  A time
    beyond 8.64e15 ms on either side of the epoch is no date and the
    method throws a RangeError; a year outside 0..9999 is written with a
    sign and six digits. *)
Definition maxTime : Z := 8640000000000000.

Definition msPerDay : Z := 86400000.

(** The last [width] decimal digits of [n]. *)
Fixpoint decimal (width : nat) (n : Z) : string :=
  match width with
  | O => ""
  | S k => decimal k (n / 10) +:+ str1 (byte (48 + n mod 10))
  end.

(** Year, month and day of a day number counted from 1970-01-01. *)
Definition civilFromDays (days : Z) : Z * Z * Z :=
  let z := days + 719468 in
  let era := z / 146097 in
  let doe := z - era * 146097 in
  let yoe := (doe - doe / 1460 + doe / 36524 - doe / 146096) / 365 in
  let doy := doe - (365 * yoe + yoe / 4 - yoe / 100) in
  let mp := (5 * doy + 2) / 153 in
  let d := doy - (153 * mp + 2) / 5 + 1 in
  let m := if mp <? 10 then mp + 3 else mp - 9 in
  let y := yoe + era * 400 + (if m <=? 2 then 1 else 0) in
  (y, m, d).

Definition yearText (y : Z) : string :=
  if (0 <=? y) && (y <=? 9999) then decimal 4 y
  else (if y <? 0 then "-" else "+") +:+ decimal 6 (Z.abs y).

Definition toISOString (t : Z) : completion string :=
  if (t <? - maxTime) || (maxTime <? t) then Throw
  else
    let '(y, m, d) := civilFromDays (t / msPerDay) in
    let ms := t mod msPerDay in
    Return (yearText y +:+ "-" +:+ decimal 2 m +:+ "-" +:+ decimal 2 d +:+ "T"
              +:+ decimal 2 (ms / 3600000) +:+ ":"
              +:+ decimal 2 (ms / 60000 mod 60) +:+ ":"
              +:+ decimal 2 (ms / 1000 mod 60) +:+ "."
              +:+ decimal 3 (ms mod 1000) +:+ "Z").

(** The object [quotaInfo] of [getQuotaStatus]; [None] is JavaScript's
    null. *)
Record QuotaInfo : Type := {
  dailyCallsUsed : Z;
  dailyCallsLimit : Z;
  remainingCalls : Z;
  percentageUsed : string;
  info_lastResetDate : string;
  info_lastGeminiCall : option string;
  cacheSize : Z;
  cacheExpiryMinutes : number;
  minCallIntervalSeconds : number;
  info_status : string;
  info_message : string
}.

(** What a handler sends: the status code with the payload of a success,
    or with the message of a failure. *)
Inductive Response (A : Type) : Type :=
| Success (code : Z) (data : A)
| Failure (code : Z) (message : string).
Arguments Success {A} code data.
Arguments Failure {A} code message.

Definition code {A : Type} (r : Response A) : Z :=
  match r with
  | Success c _ | Failure c _ => c
  end.

Section OrganController.
Variable host : Host.

Definition ofZ (z : Z) : number := Fin (inject_Z z).

(** organController.js, lines 221-246: the fields are read off the service
    as they stand; resetDailyCounterIfNeeded is not called. *)
Definition quotaInfo (s : State) : completion QuotaInfo :=
  do last <- (if 0 <? lastGeminiCall s
              then do iso <- toISOString (lastGeminiCall s); Return (Some iso)
              else Return None);
  Return {|
    dailyCallsUsed := dailyCallCount s;
    dailyCallsLimit := maxDailyCalls s;
    remainingCalls := maxDailyCalls s - dailyCallCount s;
    percentageUsed :=
      Number_toFixed host
        (num_mul (num_div (ofZ (dailyCallCount s)) (ofZ (maxDailyCalls s))) (Fin 100)) 1;
    info_lastResetDate := lastResetDate s;
    info_lastGeminiCall := last;
    cacheSize := Z.of_nat (size (diagnosisCache s));
    cacheExpiryMinutes := num_div (num_div (ofZ (cacheExpiry s)) (Fin 1000)) (Fin 60);
    minCallIntervalSeconds := num_div (ofZ (minCallInterval s)) (Fin 1000);
    info_status :=
      if dailyCallCount s <? maxDailyCalls s then "AVAILABLE" else "QUOTA_EXCEEDED";
    info_message :=
      if dailyCallCount s <? maxDailyCalls s
      then Number_toString host (ofZ (maxDailyCalls s - dailyCallCount s))
             +:+ " Gemini calls remaining today"
      else "Daily quota reached. Using rule-based diagnosis."
  |}.

(** Lines 219-261; [iso] is the [new Date().toISOString()] of the answer. *)
Definition getQuotaStatus (s : State) (iso : string) : Response (QuotaInfo * string) :=
  match quotaInfo s with
  | Return info => Success 200 (info, iso)
  | Throw => Failure 500 "Failed to fetch quota status"
  end.
End OrganController.

(** The report on the service that used its fifty calls on Wednesday; the
    two durations are the fractions 60 and 60, as the divisions leave
    them. *)
Definition exhaustedReport : QuotaInfo := {|
  dailyCallsUsed := 50;
  dailyCallsLimit := 50;
  remainingCalls := 0;
  percentageUsed := "100.0";
  info_lastResetDate := wednesday;
  info_lastGeminiCall := Some "2026-01-14T22:00:00.000Z";
  cacheSize := 0;
  cacheExpiryMinutes := Fin (3600000 # 60000);
  minCallIntervalSeconds := Fin (60000 # 1000);
  info_status := "QUOTA_EXCEEDED";
  info_message := "Daily quota reached. Using rule-based diagnosis."
|}.

(** ** The data sources *)

(** [Math.floor]. *)
Definition Math_floor (a : number) : number :=
  match a with
  | Fin q => Fin (inject_Z (Qfloor q))
  | _ => a
  end.

(** [a || b] on numbers. *)
Definition num_or (a b : number) : number :=
  if truthy (PNum a) then a else b.

(** [p === text]. *)
Definition strictEquals (p : prim) (text : string) : bool :=
  match p with
  | PStr t => String.eqb t text
  | _ => false
  end.

(** What [Math.random()] gives: a number from 0 up to, not including, 1. *)
Definition unitInterval (r : Q) : Prop := (0 <= r)%Q /\ (r < 1)%Q.

(** The names every object literal inherits from Object.prototype in
    Node: looked up in a table written as a literal, they give a function
    (or the prototype itself), which is truthy and has no field of the
    table's entries. *)
Definition inheritedNames : list string :=
  ["constructor"; "__defineGetter__"; "__defineSetter__"; "hasOwnProperty";
   "__lookupGetter__"; "__lookupSetter__"; "isPrototypeOf"; "propertyIsEnumerable";
   "toString"; "valueOf"; "__proto__"; "toLocaleString"].

Definition inherited (key : string) : bool := existsb (String.eqb key) inheritedNames.

(** The result of [table[key] || fallback]. *)
Inductive Lookup (A : Type) : Type :=
| Own (a : A)
| Inherited.
Arguments Own {A} a.
Arguments Inherited {A}.

(** AlternativeDataService.js.  The answer of a request, the results of
    Math.random() and the text of the clock are given to each function;
    [random n] is the result of the n-th call of Math.random() that the
    function, or the one that called it, makes. *)
Module AlternativeDataService.

Record Bounds : Type := {
  minLat : Q;
  maxLat : Q;
  minLon : Q;
  maxLon : Q
}.

(** Lines 297-320. *)
Definition getRegionCoordinates (region : string) : Lookup Bounds :=
  let Amazon := {| minLat := -15; maxLat := 5; minLon := -75; maxLon := -45 |} in
  if String.eqb region "Amazon" then Own Amazon
  else if String.eqb region "Congo" then
    Own {| minLat := -5; maxLat := 5; minLon := 10; maxLon := 30 |}
  else if String.eqb region "Indonesia" then
    Own {| minLat := -10; maxLat := 6; minLon := 95; maxLon := 141 |}
  else if inherited region then Inherited
  else Own Amazon.

Record Coordinates : Type := {
  lat : Q;
  lon : Q
}.

(** Lines 327-335. *)
Definition getOceanCoordinates (location : string) : Lookup Coordinates :=
  let reef := {| lat := -182871 # 10000; lon := 1476992 # 10000 |} in
  if String.eqb location "Great Barrier Reef" then Own reef
  else if String.eqb location "Caribbean Sea" then Own {| lat := 15; lon := -75 |}
  else if String.eqb location "Pacific Ocean" then Own {| lat := 0; lon := -140 |}
  else if inherited location then Inherited
  else Own reef.

(** An event of the EONET answer, as far as the service reads it:
    [coordinates] is the pair lon, lat at the head of geometry[0], and
    [magnitude] the number of magnitude.value; [None] where the answer
    has nothing there. *)
Record Event : Type := {
  title : prim;
  date : prim;
  coordinates : option (Q * Q);
  magnitude : option Q
}.

(** The request of lines 120-128: the array under data.events ([[]] when
    the answer has none), or the message of the error thrown by the
    request or by the reading of an answer of another shape. *)
Inductive NasaReply : Type :=
| NasaEvents (events : list Event)
| NasaFailed (message : string).

Record EventSummary : Type := {
  summary_title : prim;
  summary_date : prim;
  summary_coordinates : option (Q * Q)
}.

(** The object a deforestation fetcher returns; [events] and [error] are
    [None] where the object has no such field. *)
Record ForestData : Type := {
  alertCount : number;
  totalAreaHa : number;
  region : string;
  dataSource : string;
  timestamp : string;
  events : option (list EventSummary);
  error : option string
}.

(** The callback of the filter, lines 134-145: a comparison with the
    missing bound of an inherited member is false. *)
Definition inRegion (regionCoords : Lookup Bounds) (event : Event) : bool :=
  match coordinates event with
  | None => false
  | Some (lon, lat) =>
      match regionCoords with
      | Inherited => false
      | Own b =>
          Qle_bool (minLat b) lat && Qle_bool lat (maxLat b)
          && Qle_bool (minLon b) lon && Qle_bool lon (maxLon b)
      end
  end.

(** [event.magnitude?.value || 500]. *)
Definition magnitudeOr500 (event : Event) : Q :=
  match magnitude event with
  | Some v => if Qeq_bool v 0 then 500 else v
  | None => 500
  end.

Definition summary (e : Event) : EventSummary := {|
  summary_title := title e;
  summary_date := date e;
  summary_coordinates := coordinates e
|}.

(** The mock alert count, line 173 and line 87 of DiagnosticService.js. *)
Definition mockAlertCount (r : Q) : number :=
  num_add (Math_floor (num_mul (Fin r) (Fin 1000))) (Fin 500).

(** Lines 115-183. *)
Definition fetchNASAWildfireData (reply : NasaReply) (random : nat -> Q) (iso : string)
    (region : string) : ForestData :=
  match reply with
  | NasaEvents events =>
      let regionCoords := getRegionCoordinates region in
      let regionalEvents := filter (fun e => inRegion regionCoords e = true) events in
      let totalArea := fold_left (fun sum event => (sum + magnitudeOr500 event)%Q)
                                 regionalEvents 0%Q in
      {| alertCount := Fin (inject_Z (Z.of_nat (length regionalEvents)));
         totalAreaHa := Math_round (Fin totalArea);
         region := region;
         dataSource := "NASA EONET";
         timestamp := iso;
         events := Some (map summary (firstn 5 regionalEvents));
         error := None |}
  | NasaFailed message =>
      let mock := mockAlertCount (random 0%nat) in
      {| alertCount := mock;
         totalAreaHa := Math_floor (num_mul mock (Fin 5));
         region := region;
         dataSource := "NASA EONET (Mock)";
         timestamp := iso;
         events := None;
         error := Some message |}
  end.

(** The object of the ocean adapter. *)
Record OceanData : Type := {
  pH : number;
  ocean_location : string;
  ocean_coordinates : Lookup Coordinates;
  ocean_dataSource : string;
  ocean_timestamp : string;
  acidificationLevel : string;
  note : string
}.

(** [parseFloat(x.toFixed(digits))] on a finite x, with numbers as exact
    fractions: x rounded to that many decimals, a tie going away from
    zero. *)
Definition roundTo (digits : nat) (x : Q) : Q :=
  let p := 10 ^ Z.of_nat digits in
  let n := Qfloor (Qabs x * inject_Z p + (1 # 2))%Q in
  (if Qlt_bool x 0 then - n else n) # Z.to_pos p.

(** Lines 191-232.  Nothing between lines 192 and 219 throws when the
    location is a string, so the object of the catch block is never
    built. *)
Definition fetchNOAAOceanData (random : nat -> Q) (iso : string) (location : string)
  : OceanData :=
  let coords := getOceanCoordinates location in
  let basePH := if includes location "Barrier" then 795 # 100 else 805 # 100 in
  let variation := ((random 0%nat - (1 # 2)) * (1 # 10))%Q in
  let pH := roundTo 3 (basePH + variation)%Q in
  {| pH := Fin pH;
     ocean_location := location;
     ocean_coordinates := coords;
     ocean_dataSource := "NOAA OCADS (Simulated)";
     ocean_timestamp := iso;
     acidificationLevel :=
       if Qlt_bool pH 8 then "HIGH" else if Qlt_bool pH (81 # 10) then "MODERATE" else "LOW";
     note := "Based on NOAA Ocean Acidification trends 2020-2026" |}.

(** The answer of the Open-Meteo request, lines 245-255: the five readings
    of data.current (undefined where it lacks one), no data.current at
    all, or the message of the error thrown. *)
Inductive MeteoReply : Type :=
| MeteoCurrent (us_aqi pm2_5 pm10 nitrogen_dioxide carbon_monoxide : prim)
| MeteoNoCurrent
| MeteoFailed (message : string).

Definition scaledRandom (r : Q) (width offset : Q) : prim :=
  PNum (num_add (num_mul (Fin r) (Fin width)) (Fin offset)).

Definition flooredRandom (r : Q) (width offset : Q) : prim :=
  PNum (num_add (Math_floor (num_mul (Fin r) (Fin width))) (Fin offset)).

(** Lines 239-290. *)
Definition fetchOpenMeteoAirQuality (reply : MeteoReply) (random : nat -> Q) (iso : string)
    (city : string) : Metrics :=
  let mock (message : string) : Metrics :=
    [("aqi", flooredRandom (random 0%nat) 3 2);
     ("pm25", scaledRandom (random 1%nat) 30 10);
     ("pm10", scaledRandom (random 2%nat) 50 20);
     ("no2", scaledRandom (random 3%nat) 30 5);
     ("location", PStr city);
     ("dataSource", PStr "Open-Meteo (Mock)");
     ("timestamp", PStr iso);
     ("error", PStr message)] in
  match reply with
  | MeteoCurrent us_aqi pm2_5 pm10 nitrogen_dioxide carbon_monoxide =>
      [("aqi", or_else us_aqi (PNum (Fin 2)));
       ("pm25", or_else pm2_5 (PNum (Fin 0)));
       ("pm10", or_else pm10 (PNum (Fin 0)));
       ("no2", or_else nitrogen_dioxide (PNum (Fin 0)));
       ("co", or_else carbon_monoxide (PNum (Fin 0)));
       ("location", PStr city);
       ("dataSource", PStr "Open-Meteo");
       ("timestamp", PStr iso)]
  | MeteoNoCurrent => mock "No data returned"
  | MeteoFailed message => mock message
  end.

End AlternativeDataService.

(** The three fetchers of DiagnosticService.js. *)
Module Fetchers.

(** The answer of the Global Forest Watch request, lines 61-70: the numbers
    that parseInt and parseFloat read in the first row, no first row, or
    an error thrown. *)
Inductive GfwReply : Type :=
| GfwRow (alert_count total_area_ha : number)
| GfwNoRow
| GfwFailed.

Record ForestNetwork : Type := {
  nasa : AlternativeDataService.NasaReply;
  (** [process.env.GFW_API_KEY]; [None] when it is not set *)
  GFW_API_KEY : option string;
  gfw : GfwReply;
  forest_random : nat -> Q;
  forest_iso : string
}.

(** The test of lines 46-49. *)
Definition hasRealKey (key : option string) : bool :=
  match key with
  | Some k => negb (String.eqb k "") && negb (String.eqb k "your_gfw_api_key")
  | None => false
  end.

(** Lines 28-95.  The NASA adapter draws the first random number when it
    falls back on its mock; the mock of line 87 draws the next one. *)
Definition fetchDeforestationData (net : ForestNetwork) (region : string)
  : AlternativeDataService.ForestData :=
  let nasaData :=
    AlternativeDataService.fetchNASAWildfireData (nasa net) (forest_random net)
      (forest_iso net) region in
  if String.eqb (AlternativeDataService.dataSource nasaData) "NASA EONET" then nasaData
  else
    let mock :=
      let mockAlertCount := AlternativeDataService.mockAlertCount (forest_random net 1%nat) in
      {| AlternativeDataService.alertCount := mockAlertCount;
         AlternativeDataService.totalAreaHa := Math_floor (num_mul mockAlertCount (Fin 5));
         AlternativeDataService.region := region;
         AlternativeDataService.dataSource := "Mock Data (Realistic)";
         AlternativeDataService.timestamp := forest_iso net;
         AlternativeDataService.events := None;
         AlternativeDataService.error := None |} in
    if hasRealKey (GFW_API_KEY net) then
      match gfw net with
      | GfwRow alert_count total_area_ha =>
          {| AlternativeDataService.alertCount := num_or alert_count (Fin 0);
             AlternativeDataService.totalAreaHa := num_or total_area_ha (Fin 0);
             AlternativeDataService.region := region;
             AlternativeDataService.dataSource := "Global Forest Watch";
             AlternativeDataService.timestamp := forest_iso net;
             AlternativeDataService.events := None;
             AlternativeDataService.error := None |}
      | GfwNoRow | GfwFailed => mock
      end
    else mock.

(** Lines 102-123.  The adapter returns an object whatever the location,
    so the object of the catch block is never built. *)
Definition fetchOceanPHData (random : nat -> Q) (iso : string) (location : string)
  : AlternativeDataService.OceanData :=
  AlternativeDataService.fetchNOAAOceanData random iso location.

(** The answer of the two OpenWeather requests, lines 135-160: the four
    readings of the first entry of the list (undefined where it lacks
    one), or the message of the error thrown on the way. *)
Inductive OpenWeatherReply : Type :=
| OpenWeatherEntry (aqi pm2_5 pm10 no2 : prim)
| OpenWeatherFailed (message : string).

Record AirNetwork : Type := {
  openWeather : OpenWeatherReply;
  openMeteo : AlternativeDataService.MeteoReply;
  air_random : nat -> Q;
  air_iso : string
}.

(** Lines 130-203.  The mock of the Open-Meteo adapter has drawn four
    random numbers when the mock of lines 192-201 draws its own. *)
Definition fetchAirQualityData (net : AirNetwork) (city : string) : Metrics :=
  match openWeather net with
  | OpenWeatherEntry aqi pm2_5 pm10 no2 =>
      [("aqi", or_else aqi (PNum (Fin 3)));
       ("pm25", or_else pm2_5 (PNum (Fin 0)));
       ("pm10", or_else pm10 (PNum (Fin 0)));
       ("no2", or_else no2 (PNum (Fin 0)));
       ("location", PStr city);
       ("dataSource", PStr "OpenWeather");
       ("timestamp", PStr (air_iso net))]
  | OpenWeatherFailed message =>
      let openMeteoData :=
        AlternativeDataService.fetchOpenMeteoAirQuality (openMeteo net) (air_random net)
          (air_iso net) city in
      if strictEquals (getPrim openMeteoData "dataSource") "Open-Meteo" then openMeteoData
      else
        [("aqi", AlternativeDataService.flooredRandom (air_random net 4%nat) 3 3);
         ("pm25", AlternativeDataService.scaledRandom (air_random net 5%nat) 50 25);
         ("pm10", AlternativeDataService.scaledRandom (air_random net 6%nat) 80 40);
         ("no2", AlternativeDataService.scaledRandom (air_random net 7%nat) 40 20);
         ("location", PStr city);
         ("dataSource", PStr "Mock Data (Realistic)");
         ("timestamp", PStr (air_iso net));
         ("error", PStr message)]
  end.

End Fetchers.

(** ** Sample networks *)

(** Every random draw gives a quarter. *)
Definition quarter : nat -> Q := fun _ => (1 # 4)%Q.

(** EONET does not answer and no API key of Global Forest Watch is set. *)
Definition forestDown : Fetchers.ForestNetwork := {|
  Fetchers.nasa := AlternativeDataService.NasaFailed "timeout of 15000ms exceeded";
  Fetchers.GFW_API_KEY := Some "your_gfw_api_key";
  Fetchers.gfw := Fetchers.GfwFailed;
  Fetchers.forest_random := quarter;
  Fetchers.forest_iso := "2026-01-15T10:00:00.000Z"
|}.

Definition fire (name : string) (lon lat : Q) (magnitude : option Q)
  : AlternativeDataService.Event := {|
  AlternativeDataService.title := PStr name;
  AlternativeDataService.date := PStr "2026-01-10T00:00:00Z";
  AlternativeDataService.coordinates := Some (lon, lat);
  AlternativeDataService.magnitude := magnitude
|}.

(** EONET answers with four fires: two in the Amazon box, one in the Congo
    box, one without coordinates. *)
Definition forestAnswered : Fetchers.ForestNetwork := {|
  Fetchers.nasa :=
    AlternativeDataService.NasaEvents
      [fire "Wildfire in Para" (-52) (-3) None;
       fire "Wildfire in Kasai" 22 (-4) (Some 1200%Q);
       {| AlternativeDataService.title := PStr "Wildfire";
          AlternativeDataService.date := PUndefined;
          AlternativeDataService.coordinates := None;
          AlternativeDataService.magnitude := None |};
       fire "Wildfire in Acre" (-70) (-9) (Some (3005 # 10)%Q)];
  Fetchers.GFW_API_KEY := None;
  Fetchers.gfw := Fetchers.GfwNoRow;
  Fetchers.forest_random := quarter;
  Fetchers.forest_iso := "2026-01-15T10:00:00.000Z"
|}.

(** Neither OpenWeather nor Open-Meteo answers. *)
Definition airDown : Fetchers.AirNetwork := {|
  Fetchers.openWeather := Fetchers.OpenWeatherFailed "Request failed with status code 401";
  Fetchers.openMeteo := AlternativeDataService.MeteoNoCurrent;
  Fetchers.air_random := quarter;
  Fetchers.air_iso := "2026-01-15T10:00:00.000Z"
|}.

(** A scan that fetches the air quality from the network [net]. *)
Definition airScanWorld (net : Fetchers.AirNetwork) (w : World) : ScanWorld := {|
  fetchDeforestationData := fun _ => [];
  fetchOceanPHData := fun _ => [];
  fetchAirQualityData := Fetchers.fetchAirQualityData net;
  diagnosisWorld := w;
  scanIso := "2026-01-15T10:00:02.000Z"
|}.

(** ** The sweep over all organs *)

(** An organ document, as far as the controller reads and writes it; the
    scan reads its name, type and healthScore. *)
Record Document : Type := {
  _id : string;
  organ : Organ;
  symptomState : value;
  currentFundingUSD : number;
  targetFundingUSD : number;
  diagnosis : value;
  lastMetricValue : option Metrics;
  lastUpdated : option string
}.

(** An entry of the results of the sweep.  The text of the error, which
    is the engine's or the data base's, is not represented. *)
Inductive SweepEntry : Type :=
| Diagnosed (organId organName : string) (diagnosis : value)
| Errored (organId organName : string).

Definition organId (e : SweepEntry) : string :=
  match e with
  | Diagnosed i _ _ | Errored i _ => i
  end.

Definition organName (e : SweepEntry) : string :=
  match e with
  | Diagnosed _ n _ | Errored _ n => n
  end.

(** What a sweep reads from outside the controller: the documents that
    Organ.find gives ([None] when it throws), the world of the scan of
    each organ by its position, whether organ.save accepts a document, and
    the [new Date()] written in it. *)
Record SweepWorld : Type := {
  find : option (list Document);
  scanWorldAt : nat -> ScanWorld;
  save : Document -> bool;
  updatedAt : nat -> string
}.

Section Sweep.
Variable host : Host.

(** Lines 173-177 (and 112-116): the fields written from the result. *)
Definition updated (doc : Document) (diagnosticResult : ScanResult) (now : string)
  : Document := {|
  _id := _id doc;
  organ := {| name := name (organ doc);
              type := type (organ doc);
              healthScore := scan_healthScore diagnosticResult |};
  symptomState := scan_status diagnosticResult;
  currentFundingUSD := currentFundingUSD doc;
  targetFundingUSD := targetFundingUSD doc;
  diagnosis := scan_diagnosis diagnosticResult;
  lastMetricValue := Some (scan_metrics diagnosticResult);
  lastUpdated := Some now
|}.

(** The body of the loop, lines 168-196, for the organ at position [i]:
    the entry pushed, the state of the service, and the document saved. *)
Definition diagnoseOne (w : SweepWorld) (s : State) (i : nat) (doc : Document)
  : SweepEntry * State * option Document :=
  match performDiagnosticScan host s (organ doc) (scanWorldAt w i) with
  | (Return diagnosticResult, s') =>
      let doc' := updated doc diagnosticResult (updatedAt w i) in
      if save w doc'
      then (Diagnosed (_id doc) (name (organ doc)) (scan_diagnosis diagnosticResult),
            s', Some doc')
      else (Errored (_id doc) (name (organ doc)), s', None)
  | (Throw, s') => (Errored (_id doc) (name (organ doc)), s', None)
  end.

(** The loop of lines 168-196 from position [i] on. *)
Fixpoint diagnoseEach (w : SweepWorld) (s : State) (i : nat) (organs : list Document)
  : list SweepEntry * State * list Document :=
  match organs with
  | [] => ([], s, [])
  | doc :: rest =>
      let '(entry, s1, saved) := diagnoseOne w s i doc in
      let '(results, s2, savedRest) := diagnoseEach w s1 (S i) rest in
      (entry :: results, s2,
       match saved with Some d => d :: savedRest | None => savedRest end)
  end.

(** organController.js, lines 161-213: the answer, the state of the
    service and the documents saved. *)
Definition diagnoseAllOrgans (w : SweepWorld) (s : State)
  : Response (string * list SweepEntry) * State * list Document :=
  match find w with
  | None => (Failure 500 "Failed to diagnose all organs", s, [])
  | Some organs =>
      let '(results, s', saved) := diagnoseEach w s 0 organs in
      (Success 200
         ("Diagnostic scan completed for "
            +:+ Number_toString host (ofZ (Z.of_nat (length results))) +:+ " organs",
          results),
       s', saved)
  end.
End Sweep.

(** Three documents: a forest, an organ of a type the service does not
    know, and a reef. *)
Definition document (id : string) (o : Organ) : Document := {|
  _id := id;
  organ := o;
  symptomState := VStr "HEALTHY";
  currentFundingUSD := Fin 0;
  targetFundingUSD := Fin 100000;
  diagnosis := VStr "";
  lastMetricValue := None;
  lastUpdated := None
|}.

Definition sampleOrgans : list Document :=
  [document "65a4f0c2e1" forestOrgan;
   document "65a4f0c2e2" {| name := "Arctic Ice"; type := "Bones"; healthScore := Fin 70 |};
   document "65a4f0c2e3" reefOrgan].

(** A sweep of Thursday morning whose scans follow one another by 400 ms
    (the clock is not read more than ten times), with Gemini answering
    and the data base accepting every document. *)
Definition sampleSweep : SweepWorld := {|
  find := Some sampleOrgans;
  scanWorldAt := fun i => {|
    fetchDeforestationData := fun _ => lungsMetrics 1500;
    fetchOceanPHData := fun _ => reefMetrics (7925 # 1000);
    fetchAirQualityData := Fetchers.fetchAirQualityData airDown;
    diagnosisWorld :=
      worldAt thursday (tenOClock + 400 * Z.min (Z.of_nat i) 10) "2026-01-15T10:00:00.000Z"
        (GeminiText healthyAnswer);
    scanIso := "2026-01-15T10:00:02.000Z"
  |};
  save := fun _ => true;
  updatedAt := fun _ => "2026-01-15T10:00:03.000Z"
|}.

(** ** The donations *)

(** Organ.js, lines 55-58: the virtual field fundingPercentage. *)
Definition fundingPercentage (doc : Document) : number :=
  match targetFundingUSD doc with
  | Fin t => if Qeq_bool t 0 then Fin 0
             else num_mul (num_div (currentFundingUSD doc) (Fin t)) (Fin 100)
  | t => num_mul (num_div (currentFundingUSD doc) t) (Fin 100)
  end.

(** [a >= b] on numbers. *)
Definition num_ge (a b : number) : bool :=
  match num_lt a b with
  | Some false => true
  | _ => false
  end.

(** The body of a webhook of the payment provider, as far as the handler
    reads it: the status, and the reference under either spelling, a
    string where it is present. *)
Record Payload : Type := {
  payload_status : prim;
  tx_ref : option string;
  txRef : option string
}.

(** A document of the collection of vials. *)
Record Vial : Type := {
  vial_organId : string;
  transactionRef : string;
  amountUSD : number;
  vial_currency : string;
  donorEmail : prim;
  donorName : prim;
  vial_status : string;
  flutterwaveData : option Payload;
  processedAt : option string
}.

(** The two collections: the vials by their transactionRef, which the
    schema makes unique, and the organs by their _id. *)
Record DataBase : Type := {
  vialCollection : gmap string Vial;
  organCollection : gmap string Document
}.

Record WebhookRequest : Type := {
  (** [req.headers['verif-hash']] *)
  verif_hash : option string;
  body : Payload
}.

(** What the handler reads from outside: the configured hash, which of
    the data base operations of the call throw (numbered 0 to 3 in the
    order of lines 105, 120, 123 and 136), the transactionRef of the vial
    that Vial.findOne picks for a payload without reference, and the
    clock. *)
Record WebhookWorld : Type := {
  FLUTTERWAVE_WEBHOOK_HASH : option string;
  dbThrows : nat -> bool;
  foundWithoutReference : option string;
  webhook_now : string
}.

(** [a || b] on optional strings. *)
Definition firstTruthy (a b : option string) : option string :=
  match a with
  | Some t => if String.eqb t "" then b else a
  | None => b
  end.

(** The test of line 91. *)
Definition validSignature (w : WebhookWorld) (req : WebhookRequest) : bool :=
  match verif_hash req, FLUTTERWAVE_WEBHOOK_HASH w with
  | Some signature, Some hash => negb (String.eqb signature "") && String.eqb signature hash
  | _, _ => false
  end.

(** Line 105: the vial found, with the key it is stored under. *)
Definition findOne (w : WebhookWorld) (db : DataBase) (reference : option string)
  : option (string * Vial) :=
  let key := match reference with
             | Some t => Some t
             | None => foundWithoutReference w
             end in
  match key with
  | Some k =>
      match vialCollection db !! k with
      | Some vial => Some (k, vial)
      | None => None
      end
  | None => None
  end.

(** Lines 125-135: the organ credited with the amount of a vial. *)
Definition credited (doc : Document) (amount : number) (now : string) : Document :=
  let current := num_add (currentFundingUSD doc) amount in
  let percentage := num_mul (num_div current (targetFundingUSD doc)) (Fin 100) in
  {| _id := _id doc;
     organ := organ doc;
     symptomState :=
       if num_ge percentage (Fin 50) && isString (symptomState doc) "INFLAMED"
       then VStr "HEALING" else symptomState doc;
     currentFundingUSD := current;
     targetFundingUSD := targetFundingUSD doc;
     diagnosis := diagnosis doc;
     lastMetricValue := lastMetricValue doc;
     lastUpdated := Some now |}.

(** Lines 116-119: the vial marked as processed. *)
Definition processed (vial : Vial) (payload : Payload) (now : string) : Vial := {|
  vial_organId := vial_organId vial;
  transactionRef := transactionRef vial;
  amountUSD := amountUSD vial;
  vial_currency := vial_currency vial;
  donorEmail := donorEmail vial;
  donorName := donorName vial;
  vial_status := "SUCCESS";
  flutterwaveData := Some payload;
  processedAt := Some now
|}.

(** vialController.js, lines 87-153: the status code and the message of
    the answer, and the data base the call leaves. *)
Definition handleWebhook (w : WebhookWorld) (req : WebhookRequest) (db : DataBase)
  : Z * string * DataBase :=
  let failed := (500, "Webhook processing failed") in
  if negb (validSignature w req) then (401, "Invalid signature", db)
  else if negb (strictEquals (payload_status (body req)) "successful")
  then (200, "Payment not successful", db)
  else if dbThrows w 0%nat then (failed, db)
  else
    match findOne w db (firstTruthy (tx_ref (body req)) (txRef (body req))) with
    | None => (404, "Transaction not found", db)
    | Some (key, vial) =>
        if String.eqb (vial_status vial) "SUCCESS" then (200, "Already processed", db)
        else if dbThrows w 1%nat then (failed, db)
        else
          let db1 := {| vialCollection :=
                          <[key := processed vial (body req) (webhook_now w)]>
                            (vialCollection db);
                        organCollection := organCollection db |} in
          if dbThrows w 2%nat then (failed, db1)
          else
            match organCollection db1 !! vial_organId vial with
            | None => (200, "Webhook processed successfully", db1)
            | Some doc =>
                if dbThrows w 3%nat then (failed, db1)
                else
                  (200, "Webhook processed successfully",
                   {| vialCollection := vialCollection db1;
                      organCollection :=
                        <[vial_organId vial := credited doc (amountUSD vial) (webhook_now w)]>
                          (organCollection db1) |})
            end
    end.

(** A pledge of 60000 USD to the forest, not yet paid, and the data base
    that holds it. *)
Definition pledge : Vial := {|
  vial_organId := "65a4f0c2e1";
  transactionRef := "VIAL-65a4f0c2e1-1768471200000";
  amountUSD := Fin 60000;
  vial_currency := "USD";
  donorEmail := PStr "donor@example.org";
  donorName := PStr "A. Donor";
  vial_status := "PENDING";
  flutterwaveData := None;
  processedAt := None
|}.

Definition inflamedForest : Document := {|
  _id := "65a4f0c2e1";
  organ := forestOrgan;
  symptomState := VStr "INFLAMED";
  currentFundingUSD := Fin 0;
  targetFundingUSD := Fin 100000;
  diagnosis := VStr "";
  lastMetricValue := None;
  lastUpdated := None
|}.

Definition sampleBase : DataBase := {|
  vialCollection := {[ "VIAL-65a4f0c2e1-1768471200000" := pledge ]};
  organCollection := {[ "65a4f0c2e1" := inflamedForest ]}
|}.

(** The webhook of the payment of the pledge, with the right hash. *)
Definition paid : WebhookRequest := {|
  verif_hash := Some "s3cr3t";
  body := {| payload_status := PStr "successful";
             tx_ref := Some "VIAL-65a4f0c2e1-1768471200000";
             txRef := None |}
|}.

(** A world in which the data base operations listed in [throwing]
    throw. *)
Definition webhookWorld (throwing : list nat) : WebhookWorld := {|
  FLUTTERWAVE_WEBHOOK_HASH := Some "s3cr3t";
  dbThrows := fun n => existsb (Nat.eqb n) throwing;
  foundWithoutReference := None;
  webhook_now := "2026-01-15T10:05:00.000Z"
|}.

(** The funding and the state of the organ [id]. *)
Definition fundingOf (db : DataBase) (id : string) : option (number * value) :=
  match organCollection db !! id with
  | Some doc => Some (currentFundingUSD doc, symptomState doc)
  | None => None
  end.

(** The status of the vial [reference]. *)
Definition vialStatus (db : DataBase) (reference : string) : option string :=
  match vialCollection db !! reference with
  | Some vial => Some (vial_status vial)
  | None => None
  end.

(** The same webhook with a hash that is not the configured one. *)
Definition forged : WebhookRequest := {|
  verif_hash := Some "guess";
  body := body paid
|}.

(** The data base after the payment of the pledge was processed, and after
    a processing that broke on the save of the organ. *)
Definition afterPayment : DataBase := snd (handleWebhook (webhookWorld []) paid sampleBase).

Definition afterBrokenSave : DataBase :=
  snd (handleWebhook (webhookWorld [3%nat]) paid sampleBase).

(** The body of a request to initialize a payment; [None] is a currency
    left out, which the handler takes as USD. *)
Record PaymentBody : Type := {
  pay_organId : string;
  amount : number;
  currency : option string;
  email : prim;
  donor : prim
}.

(** What the handler reads from outside: whether Organ.findById and
    Vial.create throw, the _id given to the vial, the clock, and the link
    of the charge ([None] when the charge throws). *)
Record PaymentWorld : Type := {
  findThrows : bool;
  createThrows : bool;
  newVialId : string;
  payment_now : Z;
  paymentLink : option prim
}.

Section Payments.
Variable host : Host.

(** vialController.js, lines 14-81: the answer (the id of the vial, the
    link and the reference) and the data base the call leaves.  The
    collection refuses a second vial under a transactionRef. *)
Definition initializePayment (w : PaymentWorld) (body : PaymentBody) (db : DataBase)
  : Response (string * prim * string) * DataBase :=
  let failed := Failure 500 "Failed to initialize payment" in
  if findThrows w then (failed, db)
  else
    match organCollection db !! pay_organId body with
    | None => (Failure 404 "Organ not found", db)
    | Some _ =>
        let currency := match currency body with Some c => c | None => "USD" end in
        let txRef := "VIAL-" +:+ pay_organId body +:+ "-"
                       +:+ Number_toString host (ofZ (payment_now w)) in
        let vial := {| vial_organId := pay_organId body;
                       transactionRef := txRef;
                       amountUSD := if String.eqb currency "USD" then amount body
                                    else num_div (amount body) (Fin 1600);
                       vial_currency := currency;
                       donorEmail := email body;
                       donorName := donor body;
                       vial_status := "PENDING";
                       flutterwaveData := None;
                       processedAt := None |} in
        if createThrows w || bool_decide (is_Some (vialCollection db !! txRef))
        then (failed, db)
        else
          let db1 := {| vialCollection := <[txRef := vial]> (vialCollection db);
                        organCollection := organCollection db |} in
          match paymentLink w with
          | None => (failed, db1)
          | Some link => (Success 200 (newVialId w, link, txRef), db1)
          end
    end.
End Payments.

(** ** The verification of a restoration *)

(** [ToBoolean] of a parsed value: arrays and objects are truthy. *)
Definition truthyValue (v : value) : bool :=
  match v with
  | VPrim p => truthy p
  | _ => true
  end.

(** The class \w. *)
Definition isWordChar (c : ascii) : bool :=
  let n := N_of_ascii c in
  ((48 <=? n) && (n <=? 57) || (65 <=? n) && (n <=? 90) || (n =? 95)
   || (97 <=? n) && (n <=? 122))%N.

(** The longest prefix of word characters, and what follows it. *)
Fixpoint splitWord (s : string) : string * string :=
  match s with
  | String c rest =>
      if isWordChar c then let (word, tail) := splitWord rest in (String c word, tail)
      else ("", s)
  | EmptyString => ("", "")
  end.

(** A line terminator, which the dot of a regular expression does not
    match: LF, CR, or U+2028 or U+2029 in their three bytes. *)
Fixpoint hasLineTerminator (s : string) : bool :=
  match s with
  | EmptyString => false
  | String c rest =>
      (N_of_ascii c =? 10)%N || (N_of_ascii c =? 13)%N
      || match rest with
         | String c2 (String c3 _) =>
             (N_of_ascii c =? 226)%N && (N_of_ascii c2 =? 128)%N
             && ((N_of_ascii c3 =? 168)%N || (N_of_ascii c3 =? 169)%N)
         | _ => false
         end
      || hasLineTerminator rest
  end.

(** [imageBase64.match(/^data:image\/(\w+);base64,(.+)$/)]: the two groups.
    The word is the longest run of word characters, as no shorter one is
    followed by a semicolon. *)
Definition matchDataUrl (imageBase64 : string) : option (string * string) :=
  match dropPrefix "data:image/" imageBase64 with
  | Some rest =>
      let (word, tail) := splitWord rest in
      match dropPrefix ";base64," tail with
      | Some data =>
          if String.eqb word "" || String.eqb data "" || hasLineTerminator data then None
          else Some (word, data)
      | None => None
      end
  | None => None
  end.

(** What Organ.findById gives. *)
Inductive FindReply : Type :=
| Found (doc : Document)
| NotFound
| FindThrows.

(** The request body, as far as it decides the answer (ngoName and
    description only go into the prompt), and what the handler reads from
    outside: the organ, the inline data that Gemini is sent with the
    prompt and its answer, whether organ.save throws, and the clock. *)
Record VerifyBody : Type := {
  body_organId : prim;
  imageBase64 : prim
}.

Record InlineData : Type := {
  inline_data : string;
  mimeType : string
}.

Record VerifyWorld : Type := {
  findById : FindReply;
  vision : InlineData -> GeminiReply;
  saveThrows : bool;
  verify_now : string
}.

(** The data of the answer 200. *)
Record Verification : Type := {
  verified_organId : string;
  verified_organName : string;
  previousState : value;
  newState : value;
  verification : Diagnosis
}.

(** Lines 301-326: the image as Gemini is sent it; [None] is the answer
    400 of an image that is no data URL of an image, and [Throw] the
    TypeError of a body whose imageBase64 is no string. *)
Definition imageData (imageBase64 : prim) : completion (option InlineData) :=
  match imageBase64 with
  | PStr text =>
      if String.prefix "data:" text then
        match matchDataUrl text with
        | Some (word, data) =>
            Return (Some {| inline_data := data; mimeType := "image/" +:+ word |})
        | None => Return None
        end
      else Return (Some {| inline_data := text; mimeType := "image/jpeg" |})
  | _ => Throw
  end.

(** Lines 430-444: the organ after the verification, when it changes. *)
Definition verifiedOrgan (doc : Document) (verificationResult : Diagnosis) (now : string)
  : option Document :=
  let raised (state : string) (points : Q) : Document :=
    {| _id := _id doc;
       organ := {| name := name (organ doc);
                   type := type (organ doc);
                   healthScore :=
                     Math_min (Fin 100) (num_add (healthScore (organ doc)) (Fin points)) |};
       symptomState := VStr state;
       currentFundingUSD := currentFundingUSD doc;
       targetFundingUSD := targetFundingUSD doc;
       diagnosis := diagnosis doc;
       lastMetricValue := lastMetricValue doc;
       lastUpdated := Some now |} in
  let verified := truthyValue (getProp verificationResult "verified") in
  let recommendation := getProp verificationResult "recommendation" in
  if verified && isString recommendation "APPROVE" then Some (raised "HEALTHY" 20%Q)
  else if verified && isString recommendation "PARTIAL" then Some (raised "HEALING" 10%Q)
  else None.

(** The second file of organController.js, lines 280-464: the answer, and
    the document saved, if any. *)
Definition verifyRestorationImage (w : VerifyWorld) (body : VerifyBody)
  : Response Verification * option Document :=
  let failed := (Failure 500 "Image verification failed", None) in
  if negb (truthy (body_organId body)) || negb (truthy (imageBase64 body))
  then (Failure 400 "organId and imageBase64 are required", None)
  else
    match findById w with
    | FindThrows => failed
    | NotFound => (Failure 404 "Organ not found", None)
    | Found doc =>
        match imageData (imageBase64 body) with
        | Throw => failed
        | Return None => (Failure 400 "Invalid image format", None)
        | Return (Some image) =>
            match vision w image with
            | GeminiError => failed
            | GeminiText text =>
                match extractObject text with
                | None => (Failure 500 "Failed to parse verification result", None)
                | Some verificationResult =>
                    let answer (d : Document) :=
                      Success 200 {| verified_organId := _id d;
                                     verified_organName := name (organ d);
                                     previousState := symptomState d;
                                     newState := symptomState d;
                                     verification := verificationResult |} in
                    match verifiedOrgan doc verificationResult (verify_now w) with
                    | Some doc' =>
                        if saveThrows w then failed else (answer doc', Some doc')
                    | None => (answer doc, None)
                    end
                end
            end
        end
    end.

(** Every character of the text is a word character. *)
Fixpoint allWordChars (s : string) : bool :=
  match s with
  | EmptyString => true
  | String c rest => isWordChar c && allWordChars rest
  end.

(** A request to verify the reef, with a PNG as a data URL, and a world
    in which Gemini answers [text]. *)
Definition reefDocument : Document := {|
  _id := "65a4f0c2e3";
  organ := {| name := "Great Barrier Reef Veins"; type := "Veins"; healthScore := Fin 85 |};
  symptomState := VStr "INFLAMED";
  currentFundingUSD := Fin 0;
  targetFundingUSD := Fin 100000;
  diagnosis := VStr "";
  lastMetricValue := None;
  lastUpdated := None
|}.

Definition reefPicture : VerifyBody := {|
  body_organId := PStr "65a4f0c2e3";
  imageBase64 := PStr "data:image/png;base64,iVBORw0KGgo="
|}.

Definition verifyWorld (text : string) : VerifyWorld := {|
  findById := Found reefDocument;
  vision := fun _ => GeminiText text;
  saveThrows := false;
  verify_now := "2026-01-15T10:10:00.000Z"
|}.

Definition approval : string :=
  dq "Here is my assessment: {'verified': true, 'confidence': 90, 'analysis': 'Healthy coral.', 'recommendation': 'APPROVE'}".

(** The answer to the approved verification of the reef, and the document
    saved with it: 85 points and 20 more, capped at 100. *)
Definition approvedAnswer : Verification := {|
  verified_organId := "65a4f0c2e3";
  verified_organName := "Great Barrier Reef Veins";
  previousState := VStr "HEALTHY";
  newState := VStr "HEALTHY";
  verification :=
    [("verified", VPrim (PBool true)); ("confidence", VPrim (PNum (Fin 90)));
     ("analysis", VStr "Healthy coral."); ("recommendation", VStr "APPROVE")]
|}.

Definition approvedReef : Document := {|
  _id := "65a4f0c2e3";
  organ := {| name := "Great Barrier Reef Veins"; type := "Veins"; healthScore := Fin 100 |};
  symptomState := VStr "HEALTHY";
  currentFundingUSD := Fin 0;
  targetFundingUSD := Fin 100000;
  diagnosis := VStr "";
  lastMetricValue := None;
  lastUpdated := Some "2026-01-15T10:10:00.000Z"
|}.

(** A donor pledges 80000 naira to the forest at ten o'clock; the charge
    gives a link. *)
Definition nairaOrder : PaymentBody := {|
  pay_organId := "65a4f0c2e1";
  amount := Fin 80000;
  currency := Some "NGN";
  email := PStr "donor@example.org";
  donor := PStr "A. Donor"
|}.

Definition paymentWorld : PaymentWorld := {|
  findThrows := false;
  createThrows := false;
  newVialId := "65a4f0c2f0";
  payment_now := tenOClock;
  paymentLink := Some (PStr "https://checkout.example/pay/abc")
|}.

Definition organsOnly : DataBase := {|
  vialCollection := ∅;
  organCollection := {[ "65a4f0c2e1" := inflamedForest ]}
|}.

Definition afterOrder : DataBase :=
  snd (initializePayment RefHost.host paymentWorld nairaOrder organsOnly).

Definition nairaPaid : WebhookRequest := {|
  verif_hash := Some "s3cr3t";
  body := {| payload_status := PStr "successful";
             tx_ref := None;
             txRef := Some "VIAL-65a4f0c2e1-1768471200000" |}
|}.

(** ** Calls that overlap *)

(** [generateDiagnosis] is an async method of the one service that the
    module exports (line 505), and the handlers of the controller call it
    for every request they serve.  A call runs without interruption from
    its beginning to [await model.generateContent(prompt)] (line 298), and
    again from the answer to its end; the calls of the requests that the
    process serves in the meantime run between the two parts.  ([await
    result.response], line 299, stands between two statements that neither
    read nor write the service.) *)

(** How far a call gets before the answer of the Gemini client: to its
    end, or to the await of line 298. *)
Inductive Started : Type :=
| Served (result : completion Diagnosis) (s : State) (route : Route)
| Awaiting (s : State).

Section Overlap.
Variable host : Host.

(** Lines 225-298: the reset of a new day, the cache, the test of the
    quota, and the request sent to the Gemini client. *)
Definition startDiagnosis (s0 : State) (metrics : Metrics) (organType : string) (w : World)
  : Started :=
  let s := resetDailyCounterIfNeeded s0 w in
  let key := cacheKey host organType metrics in
  match cachedValid s key w with
  | Some cached => Served (Return (data cached)) s CacheHit
  | None =>
      if negb (shouldUseGemini s w) then
        let '(r, s', route) := ruleBasedCached host s key metrics organType w QuotaFallback in
        Served r s' route
      else Awaiting s
  end.

(** Lines 299-357, on the service as it is when the answer arrives;
    [cacheKey] and [now] are the constants of lines 229 and 237. *)
Definition resumeDiagnosis (s : State) (metrics : Metrics) (organType : string) (w : World)
  : completion Diagnosis * State * Route :=
  let key := cacheKey host organType metrics in
  let now := clockNow w in
  match gemini w with
  | GeminiText text =>
      let '(parsed, ok) := parseGeminiText organType text in
      let diagnosisData := validateStatus parsed in
      (Return diagnosisData,
       cacheSet (recordCall s now) key diagnosisData now,
       if ok then GeminiParsed else GeminiUnparsed)
  | GeminiError =>
      ruleBasedCached host s key metrics organType w GeminiFailed
  end.
End Overlap.

(** The service, and the calls that wait for the answer of the Gemini
    client, the oldest first. *)
Record Pool : Type := {
  pool_service : State;
  pool_awaiting : list Call
}.

(** What the process does next: it starts a call, or the answer of the
    Gemini client arrives for the [i]-th of the calls that wait. *)
Inductive Event : Type :=
| Enter (c : Call)
| Answer (i : nat).

(** A call that has come to its end. *)
Record Ended : Type := {
  ended_call : Call;
  ended_result : completion Diagnosis;
  ended_route : Route
}.

(** One event, the pool it left, and the call that ended with it. *)
Record Moment : Type := {
  moment_event : Event;
  moment_pool : Pool;
  moment_ended : option Ended
}.

Section Schedules.
Variable host : Host.

Definition handle (p : Pool) (e : Event) : Pool * option Ended :=
  match e with
  | Enter c =>
      match startDiagnosis host (pool_service p) (call_metrics c) (call_organType c)
              (call_world c) with
      | Served r s route =>
          ({| pool_service := s; pool_awaiting := pool_awaiting p |},
           Some {| ended_call := c; ended_result := r; ended_route := route |})
      | Awaiting s =>
          ({| pool_service := s; pool_awaiting := pool_awaiting p ++ [c] |}, None)
      end
  | Answer i =>
      match pool_awaiting p !! i with
      | Some c =>
          let '(r, s, route) :=
            resumeDiagnosis host (pool_service p) (call_metrics c) (call_organType c)
              (call_world c) in
          ({| pool_service := s; pool_awaiting := delete i (pool_awaiting p) |},
           Some {| ended_call := c; ended_result := r; ended_route := route |})
      | None => (p, None)
      end
  end.

(** The events [events], in order, from the pool [p]. *)
Fixpoint schedule (p : Pool) (events : list Event) : list Moment :=
  match events with
  | [] => []
  | e :: rest =>
      let '(p', ended) := handle p e in
      {| moment_event := e; moment_pool := p'; moment_ended := ended |} :: schedule p' rest
  end.

(** The pool the events leave. *)
Fixpoint poolAfter (p : Pool) (events : list Event) : Pool :=
  match events with
  | [] => p
  | e :: rest => poolAfter (fst (handle p e)) rest
  end.
End Schedules.

(** A service on which no call waits. *)
Definition idle (s : State) : Pool := {| pool_service := s; pool_awaiting := [] |}.

(** The calls one after another: each answer arrives before the next call
    starts. *)
Definition oneByOne (calls : list Call) : list Event :=
  flat_map (fun c => [Enter c; Answer 0%nat]) calls.

(** The calls that ended, in the order in which they ended. *)
Definition endedCalls (moments : list Moment) : list Ended :=
  omap moment_ended moments.

(** The times ([const now]) of the calls entered in the quota, in the
    order in which lines 327-328 entered them. *)
Definition enteredTimes (moments : list Moment) : list Z :=
  map (fun e => clockNow (call_world (ended_call e)))
      (filter (fun e => quotaRecorded (ended_route e) = true) (endedCalls moments)).

(** The number of calls entered in the quota. *)
Definition enteredCount (moments : list Moment) : Z :=
  Z.of_nat (length (enteredTimes moments)).

(** At most [k] calls wait for their answer at any moment. *)
Definition atMostAwaiting (k : Z) (moments : list Moment) : Prop :=
  Forall (fun m => Z.of_nat (length (pool_awaiting (moment_pool m))) <= k) moments.

(** The counter is not negative, and with the calls that wait it stays
    within the ceiling and [k - 1] more. *)
Definition quotaWithin (k : Z) (p : Pool) : Prop :=
  0 <= dailyCallCount (pool_service p)
  /\ dailyCallCount (pool_service p) + Z.of_nat (length (pool_awaiting p))
     <= maxDailyCalls (pool_service p) + k - 1.

(** The call reads the clock within less than [d] from [from]. *)
Definition readsWithin (from d : Z) (c : Call) : Prop :=
  from <= clockNow (call_world c) < from + d.

(** The event, if it starts a call, starts one that satisfies [P]. *)
Definition entering (P : Call -> Prop) (e : Event) : Prop :=
  match e with
  | Enter c => P c
  | Answer _ => True
  end.

(** ** Sample schedules *)

Definition nineOClock : Z := 1768467600000.

Definition answeredAt (t : Z) : World :=
  worldAt thursday t "2026-01-15T10:00:00.001Z" (GeminiText healthyAnswer).

(** Forty-nine calls of Thursday morning, one a minute from nine o'clock,
    each with a snapshot of its own. *)
Definition morningCalls : list Call :=
  map (fun k => lungsCall (100 + Z.of_nat k) (answeredAt (nineOClock + 60000 * Z.of_nat k)))
      (seq 0 49).

(** The service after them: 49 of its 50 calls are used. *)
Definition usedState : State := runState RefHost.host (constructor thursday) morningCalls.

(** Two requests at ten o'clock, one millisecond apart; the answers of the
    Gemini client arrive after both have started. *)
Definition overlapping : list Event :=
  [Enter (lungsCall 1500 answeredWorld);
   Enter (lungsCall 700 (answeredAt (tenOClock + 1)));
   Answer 0%nat;
   Answer 0%nat].

(** What a moment shows of the quota: the counter, lastGeminiCall, the
    number of calls that wait, and the route of the call that ended. *)
Definition quotaAt (m : Moment) : Z * Z * nat * option Route :=
  (dailyCallCount (pool_service (moment_pool m)),
   lastGeminiCall (pool_service (moment_pool m)),
   length (pool_awaiting (moment_pool m)),
   option_map ended_route (moment_ended m)).

(** The key under which the call looks up and stores its result. *)
Definition callKey (host : Host) (c : Call) : string :=
  cacheKey host (call_organType c) (call_metrics c).

(** The call of [c] again, in the surroundings [w]. *)
Definition again (c : Call) (w : World) : Call := {|
  call_metrics := call_metrics c;
  call_organType := call_organType c;
  call_world := w
|}.

Definition inflamedAnswer : string :=
  dq "{'diagnosis': 'Acute inflammation of the canopy.', 'status': 'INFLAMED'}".

(** One call twice, one millisecond apart, while the Gemini client throws
    and the rule-based engine cannot print the pH. *)
Definition throwingTwice : list Call :=
  [{| call_metrics := textualPH; call_organType := "Veins";
      call_world := failingWorld tenOClock |};
   {| call_metrics := textualPH; call_organType := "Veins";
      call_world := failingWorld (tenOClock + 1) |}].

(** One call twice, one millisecond apart; the Gemini client answers
    each after both have started, and not with the same words. *)
Definition twins : list Event :=
  [Enter (lungsCall 1500 answeredWorld);
   Enter (lungsCall 1500 (worldAt thursday (tenOClock + 1) "2026-01-15T10:00:00.001Z"
                            (GeminiText inflamedAnswer)));
   Answer 0%nat;
   Answer 0%nat].

(** The same two calls, and the call twice again: once after the first
    answer, once after the second. *)
Definition lateAnswer : list Event :=
  [Enter (lungsCall 1500 answeredWorld);
   Enter (lungsCall 1500 (worldAt thursday (tenOClock + 1) "2026-01-15T10:00:00.001Z"
                            (GeminiText inflamedAnswer)));
   Answer 0%nat;
   Enter (lungsCall 1500 (answeredAt (tenOClock + 2000)));
   Answer 0%nat;
   Enter (lungsCall 1500 (answeredAt (tenOClock + 3000)))].

(** What a moment shows of the call that ended with it. *)
Definition endedAt (m : Moment) : option (completion Diagnosis * Route) :=
  option_map (fun d => (ended_result d, ended_route d)) (moment_ended m).

(** A new service on which two requests have started. *)
Definition twoAwaiting : Pool :=
  poolAfter RefHost.host (idle (constructor thursday))
    [Enter (lungsCall 1500 answeredWorld);
     Enter (lungsCall 700 (answeredAt (tenOClock + 1)))].

(** ** Whole numbers *)

(** [Number.MAX_SAFE_INTEGER]: up to it every whole number is a number
    of the language, and sums that stay below it are computed exactly. *)
Definition maxSafeInteger : Z := 9007199254740991.

(** The number is the whole number [z]. *)
Definition wholeNumber (n : number) (z : Z) : Prop :=
  exists q, n = Fin q /\ (q == inject_Z z)%Q.

(** * Properties *)

Local Open Scope Q_scope.

Lemma Qlt_bool_iff (x y : Q) : Qlt_bool x y = true <-> x < y.
Proof.
  unfold Qlt_bool. rewrite negb_true_iff. split.
  - intros H. apply Qnot_le_lt. intros Hle. apply Qle_bool_iff in Hle. congruence.
  - intros H. destruct (Qle_bool y x) eqn:E; [|reflexivity].
    apply Qle_bool_iff in E. exfalso. exact (Qlt_not_le _ _ H E).
Qed.

Lemma Qlt_bool_false (x y : Q) : Qlt_bool x y = false <-> y <= x.
Proof.
  unfold Qlt_bool. rewrite negb_false_iff. apply Qle_bool_iff.
Qed.

Local Close Scope Q_scope.

(** Closes a goal that follows, by linear arithmetic on numerators and
    denominators, from the comparisons of rationals in the context. *)
Ltac q_lia :=
  unfold Qlt, Qle, Qeq, Qminus, Qplus, Qmult, Qopp in *;
  cbn [Qnum Qden inject_Z] in *; rewrite ?Pos2Z.inj_mul in *; lia.

(** ** Examples of the built-ins *)

Example JSON_parse_object :
  JSON_parse (dq "{ 'status' : 'HEALTHY', 'n': [1, -2.5e1, true, null], 'status': 'xA\n' }")
  = Some (VObj [("status", VStr ("xA" +:+ str1 "010"%char));
                ("n", VArr [VPrim (PNum (Fin 1)); VPrim (PNum (Fin (-25)));
                            VPrim (PBool true); VPrim PNull])]).
Proof. vm_compute. reflexivity. Qed.

Example JSON_parse_rejects :
  map JSON_parse [dq "{'a':1,}"; dq "{'a' 1}"; "{a:1}"; dq "{'a':01}"; dq "{'a':1} x"; "{"; ""]
  = [None; None; None; None; None; None; None].
Proof. vm_compute. reflexivity. Qed.

Example matchBraces_greedy :
  matchBraces "Here {it} is: {x} done" = Some "{it} is: {x}"
  /\ matchBraces "} no {" = None /\ matchBraces "plain" = None.
Proof. vm_compute. auto. Qed.

Example RefHost_prints :
  [RefHost.toString (Fin 1500); RefHost.toString (Fin (-79 # 10));
   RefHost.toFixed (Fin (8049 # 1000)) 3; RefHost.toFixed (Fin (125 # 10)) 2;
   RefHost.toLocaleString (Fin 7500); RefHost.toLocaleString (Fin 1234567)]
  = ["1500"; "-7.9"; "8.049"; "12.50"; "7,500"; "1,234,567"].
Proof. vm_compute. reflexivity. Qed.

Example lungs_1500 :
  generateRuleBasedDiagnosis RefHost.host (lungsMetrics 1500) "Lungs" "2026-01-15T10:00:01.000Z"
  = Return
      [("diagnosis", VStr "CRITICAL RESPIRATORY DISTRESS: 1,500 deforestation alerts detected in Amazon. Massive tissue damage observed. Area affected: 7,500 hectares. Immediate intervention required to prevent irreversible damage.");
       ("status", VStr "INFLAMED");
       ("severity", VStr "CRITICAL");
       ("source", VStr "Rule-based diagnostic system");
       ("timestamp", VStr "2026-01-15T10:00:01.000Z")].
Proof. vm_compute. reflexivity. Qed.

Example cacheKey_lungs :
  cacheKey RefHost.host "Lungs" [("alertCount", num 50); ("region", PStr "Amazon"); ("error", PUndefined)]
  = dq "Lungs-{'alertCount':50,'region':'Amazon'}".
Proof. vm_compute. reflexivity. Qed.

(** ** The quota governor *)

Section Quota.
Variable host : Host.

Lemma reset_frame (s : State) (w : World) :
  diagnosisCache (resetDailyCounterIfNeeded s w) = diagnosisCache s
  /\ cacheExpiry (resetDailyCounterIfNeeded s w) = cacheExpiry s
  /\ lastGeminiCall (resetDailyCounterIfNeeded s w) = lastGeminiCall s
  /\ minCallInterval (resetDailyCounterIfNeeded s w) = minCallInterval s
  /\ maxDailyCalls (resetDailyCounterIfNeeded s w) = maxDailyCalls s.
Proof.
  unfold resetDailyCounterIfNeeded.
  destruct (String.eqb (lastResetDate s) (today w)); repeat split.
Qed.

(** After the reset the counter is the old one or zero. *)
Lemma reset_counter (s : State) (w : World) :
  dailyCallCount (resetDailyCounterIfNeeded s w) = dailyCallCount s
  \/ dailyCallCount (resetDailyCounterIfNeeded s w) = 0.
Proof.
  unfold resetDailyCounterIfNeeded.
  destruct (String.eqb (lastResetDate s) (today w)); auto.
Qed.

Lemma ruleBasedCached_quota (s : State) key metrics organType w rt r s' rt' :
  ruleBasedCached host s key metrics organType w rt = (r, s', rt') ->
  rt' = rt
  /\ cacheExpiry s' = cacheExpiry s
  /\ lastGeminiCall s' = lastGeminiCall s
  /\ minCallInterval s' = minCallInterval s
  /\ dailyCallCount s' = dailyCallCount s
  /\ maxDailyCalls s' = maxDailyCalls s.
Proof.
  unfold ruleBasedCached.
  destruct (generateRuleBasedDiagnosis host metrics organType (isoNow w));
    intros [= <- <- <-]; repeat split.
Qed.

(** What one call does to the fields of the quota: the configuration is
    never written, the Gemini client is called only when the test of
    lines 240-242 let it, and the call is entered in the quota exactly
    on the two routes that reach lines 327-328. *)
Lemma generateDiagnosis_quota (s : State) metrics organType w r s' rt :
  generateDiagnosis host s metrics organType w = (r, s', rt) ->
  let s1 := resetDailyCounterIfNeeded s w in
  cacheExpiry s' = cacheExpiry s
  /\ minCallInterval s' = minCallInterval s
  /\ maxDailyCalls s' = maxDailyCalls s
  /\ (geminiInvoked rt = true -> shouldUseGemini s1 w = true)
  /\ (if quotaRecorded rt
      then lastGeminiCall s' = clockNow w /\ dailyCallCount s' = dailyCallCount s1 + 1
      else lastGeminiCall s' = lastGeminiCall s /\ dailyCallCount s' = dailyCallCount s1).
Proof.
  intros H s1. unfold generateDiagnosis in H. fold s1 in H.
  destruct (reset_frame s w) as (_ & He & Hl & Hm & Hx). fold s1 in He, Hl, Hm, Hx.
  destruct (cachedValid s1 (cacheKey host organType metrics) w).
  { injection H as <- <- <-. cbn. repeat split; intros; congruence. }
  destruct (shouldUseGemini s1 w) eqn:Hg; cbn [negb] in H.
  - destruct (gemini w).
    + destruct (parseGeminiText organType text) as [parsed ok].
      injection H as <- <- <-. cbn.
      destruct ok; cbn; repeat split; intros; congruence.
    + apply ruleBasedCached_quota in H as (-> & ? & ? & ? & ? & ?).
      cbn. repeat split; intros; congruence.
  - apply ruleBasedCached_quota in H as (-> & ? & ? & ? & ? & ?).
    cbn. repeat split; intros; congruence.
Qed.

Lemma shouldUseGemini_true (s : State) (w : World) :
  shouldUseGemini s w = true ->
  minCallInterval s <= clockNow w - lastGeminiCall s
  /\ dailyCallCount s < maxDailyCalls s.
Proof.
  unfold shouldUseGemini. rewrite andb_true_iff, Z.leb_le, Z.ltb_lt. auto.
Qed.

Lemma stepOf_eq (s : State) (c : Call) :
  generateDiagnosis host s (call_metrics c) (call_organType c) (call_world c)
  = (step_result (stepOf host s c), step_after (stepOf host s c), step_route (stepOf host s c))
  /\ step_before (stepOf host s c) = s
  /\ step_call (stepOf host s c) = c.
Proof.
  unfold stepOf.
  destruct (generateDiagnosis host s (call_metrics c) (call_organType c) (call_world c))
    as [[r s'] rt].
  repeat split.
Qed.

(** Calls one after another, each ended before the next starts.  Over
    such a run that starts with the counter within a non-negative ceiling
    (as the constructor leaves it: 0 of 50), on one day or across days,
    the daily counter never exceeds maxDailyCalls, and every call that
    invokes the Gemini client found the counter strictly below the
    ceiling when it tested the quota. *)
Lemma sequential_counter_within_ceiling (s : State) (calls : list Call) :
  0 <= maxDailyCalls s ->
  dailyCallCount s <= maxDailyCalls s ->
  Forall (fun st =>
            dailyCallCount (step_after st) <= maxDailyCalls s
            /\ maxDailyCalls (step_after st) = maxDailyCalls s
            /\ (geminiInvoked (step_route st) = true ->
                dailyCallCount (step_checked st) < maxDailyCalls s))
         (run host s calls).
Proof.
  revert s. induction calls as [|c rest IH]; intros s Hmax Hcount; cbn [run].
  - constructor.
  - destruct (stepOf_eq s c) as (Hgen & Hbefore & Hcall).
    apply generateDiagnosis_quota in Hgen as (_ & _ & Hx & Hinv & Hrec).
    set (st := stepOf host s c) in *.
    assert (Hchecked : dailyCallCount (step_checked st) <= maxDailyCalls s).
    { unfold step_checked. rewrite Hbefore, Hcall.
      destruct (reset_counter s (call_world c)) as [-> | ->]; lia. }
    assert (Hlimit : geminiInvoked (step_route st) = true ->
                     dailyCallCount (step_checked st) < maxDailyCalls s).
    { intros Hi. apply Hinv, shouldUseGemini_true in Hi as [_ Hi].
      unfold step_checked. rewrite Hbefore, Hcall.
      destruct (reset_frame s (call_world c)) as (_ & _ & _ & _ & Hm).
      rewrite <- Hm. exact Hi. }
    assert (Hafter : dailyCallCount (step_after st) <= maxDailyCalls s).
    { unfold step_checked in Hchecked, Hlimit. rewrite Hbefore, Hcall in Hchecked, Hlimit.
      destruct (step_route st); cbn in Hrec, Hlimit; destruct Hrec as [_ ->];
        try lia; specialize (Hlimit eq_refl); lia. }
    constructor; [auto|].
    rewrite <- Hx. apply IH; lia.
Qed.

Lemma spaced_tail (d a : Z) (l : list Z) : spaced d (a :: l) -> spaced d l.
Proof. destruct l; cbn; tauto. Qed.

Lemma recordedTimes_cons (st : Step) (steps : list Step) :
  recordedTimes (st :: steps)
  = if quotaRecorded (step_route st)
    then clockNow (call_world (step_call st)) :: recordedTimes steps
    else recordedTimes steps.
Proof.
  unfold recordedTimes. rewrite filter_cons.
  destruct (quotaRecorded (step_route st)); case_decide; try done.
Qed.

(** The recorded times of a run continue the time of the last recorded
    call before it. *)
Lemma run_spaced_from (s : State) (calls : list Call) :
  spaced (minCallInterval s) (lastGeminiCall s :: recordedTimes (run host s calls)).
Proof.
  revert s. induction calls as [|c rest IH]; intros s; cbn [run].
  - exact I.
  - destruct (stepOf_eq s c) as (Hgen & Hbefore & Hcall).
    apply generateDiagnosis_quota in Hgen as (_ & Hm & _ & Hinv & Hrec).
    set (st := stepOf host s c) in *.
    specialize (IH (step_after st)). rewrite Hm in IH.
    rewrite recordedTimes_cons, Hcall.
    destruct (quotaRecorded (step_route st)) eqn:Hq.
    + destruct Hrec as [Hlast _]. rewrite Hlast in IH.
      split; [|exact IH].
      assert (Hi : geminiInvoked (step_route st) = true)
        by (destruct (step_route st); done).
      apply Hinv, shouldUseGemini_true in Hi as [Hi _].
      destruct (reset_frame s (call_world c)) as (_ & _ & Hl & Hmi & _).
      rewrite Hl, Hmi in Hi. exact Hi.
    + destruct Hrec as [Hlast _]. rewrite Hlast in IH. exact IH.
Qed.

(** Calls one after another, each ended before the next starts.  In such
    a run two consecutive recorded Gemini calls are at least
    minCallInterval apart, and the Gemini client is never called when
    now - lastGeminiCall is below minCallInterval. *)
Lemma sequential_calls_are_spaced (s : State) (calls : list Call) :
  spaced (minCallInterval s) (recordedTimes (run host s calls))
  /\ Forall (fun st =>
               geminiInvoked (step_route st) = true ->
               ~ (clockNow (call_world (step_call st)) - lastGeminiCall (step_before st)
                  < minCallInterval s))
            (run host s calls).
Proof.
  split; [exact (spaced_tail _ _ _ (run_spaced_from s calls))|].
  revert s. induction calls as [|c rest IH]; intros s; cbn [run].
  - constructor.
  - destruct (stepOf_eq s c) as (Hgen & Hbefore & Hcall).
    apply generateDiagnosis_quota in Hgen as (_ & Hm & _ & Hinv & _).
    set (st := stepOf host s c) in *.
    constructor.
    + intros Hi. apply Hinv, shouldUseGemini_true in Hi as [Hi _].
      destruct (reset_frame s (call_world c)) as (_ & _ & Hl & Hmi & _).
      rewrite Hl, Hmi in Hi. rewrite Hbefore, Hcall. lia.
    + rewrite <- Hm. apply IH.
Qed.
End Quota.

Example run_routes :
  map step_route
    (run RefHost.host (constructor thursday)
       [lungsCall 1500 answeredWorld;
        lungsCall 1500 (failingWorld (tenOClock + 1));
        lungsCall 50 (failingWorld (tenOClock + 1));
        lungsCall 700 (failingWorld (tenOClock + 60000));
        lungsCall 800 (failingWorld (tenOClock + 60001))])
  = [GeminiParsed; CacheHit; QuotaFallback; GeminiFailed; GeminiFailed].
Proof. vm_compute. reflexivity. Qed.

Section QuotaRecording.
Variable host : Host.

(** C2, as the code has it.  A call that invokes the Gemini client
    enters it in the quota when the client answers (whether or not the
    answer parses), and leaves lastGeminiCall and dailyCallCount as they
    were when the client throws. *)
Theorem quota_recorded_only_when_gemini_answers
    (s : State) metrics organType w r s' rt :
  generateDiagnosis host s metrics organType w = (r, s', rt) ->
  geminiInvoked rt = true ->
  ((exists text, gemini w = GeminiText text)
   /\ lastGeminiCall s' = clockNow w
   /\ dailyCallCount s' = dailyCallCount (resetDailyCounterIfNeeded s w) + 1)
  \/ (gemini w = GeminiError
      /\ lastGeminiCall s' = lastGeminiCall s
      /\ dailyCallCount s' = dailyCallCount (resetDailyCounterIfNeeded s w)).
Proof.
  intros H Hi.
  pose proof (generateDiagnosis_quota host _ _ _ _ _ _ _ H) as (_ & _ & _ & _ & Hrec).
  unfold generateDiagnosis in H.
  destruct (cachedValid _ _ w); [injection H as <- <- <-; discriminate|].
  destruct (shouldUseGemini _ w); cbn [negb] in H.
  - destruct (gemini w) eqn:Hg.
    + left. destruct (parseGeminiText organType text) as [parsed ok].
      injection H as <- <- <-. split; [eauto|]. destruct ok; exact Hrec.
    + right. apply ruleBasedCached_quota in H as (-> & _). cbn in Hrec. auto.
  - apply ruleBasedCached_quota in H as (-> & _). discriminate.
Qed.
End QuotaRecording.

Lemma quota_recorded_only_when_gemini_answers_witness :
  ((exists text, gemini (failingWorld tenOClock) = GeminiText text)
   /\ lastGeminiCall (step_after (stepOf RefHost.host (constructor thursday)
                                    (lungsCall 700 (failingWorld tenOClock))))
      = clockNow (failingWorld tenOClock)
   /\ dailyCallCount (step_after (stepOf RefHost.host (constructor thursday)
                                    (lungsCall 700 (failingWorld tenOClock))))
      = dailyCallCount (resetDailyCounterIfNeeded (constructor thursday) (failingWorld tenOClock)) + 1)
  \/ (gemini (failingWorld tenOClock) = GeminiError
      /\ lastGeminiCall (step_after (stepOf RefHost.host (constructor thursday)
                                       (lungsCall 700 (failingWorld tenOClock))))
         = lastGeminiCall (constructor thursday)
      /\ dailyCallCount (step_after (stepOf RefHost.host (constructor thursday)
                                       (lungsCall 700 (failingWorld tenOClock))))
         = dailyCallCount (resetDailyCounterIfNeeded (constructor thursday) (failingWorld tenOClock))).
Proof.
  apply (quota_recorded_only_when_gemini_answers RefHost.host (constructor thursday)
           (lungsMetrics 700) "Lungs" (failingWorld tenOClock)
           (step_result (stepOf RefHost.host (constructor thursday)
                           (lungsCall 700 (failingWorld tenOClock))))
           _ GeminiFailed).
  - reflexivity.
  - reflexivity.
Defined.

(** The failing input of C2: the Gemini client throws at ten o'clock, and
    is called again one millisecond later, the quota showing no call. *)
Example failed_call_leaves_quota_untouched :
  let steps := run RefHost.host (constructor thursday)
                 [lungsCall 700 (failingWorld tenOClock);
                  lungsCall 800 (failingWorld (tenOClock + 1))] in
  map step_route steps = [GeminiFailed; GeminiFailed]
  /\ map (fun st => dailyCallCount (step_after st)) steps = [0; 0]
  /\ map (fun st => lastGeminiCall (step_after st)) steps = [0; 0].
Proof. vm_compute. auto. Qed.

(** ** The diagnosis cache *)

Section Cache.
Variable host : Host.

Lemma cachedValid_Some (s : State) (key : string) (w : World) (e : CacheEntry) :
  cachedValid s key w = Some e <->
  diagnosisCache s !! key = Some e
  /\ clockAtCacheCheck w - timestamp e < cacheExpiry s.
Proof.
  unfold cachedValid. destruct (diagnosisCache s !! key) as [c|].
  - destruct (Z.ltb_spec (clockAtCacheCheck w - timestamp c) (cacheExpiry s)).
    + split; [intros [= ->]; auto | intros [[= ->] _]; reflexivity].
    + split; [discriminate | intros [[= ->] ?]; lia].
  - split; [discriminate | intros [? _]; discriminate].
Qed.

Lemma ruleBasedCached_cache (s : State) key metrics organType w rt r s' rt' :
  ruleBasedCached host s key metrics organType w rt = (r, s', rt') ->
  match r with
  | Return d =>
      diagnosisCache s' = <[key := {| data := d; timestamp := clockNow w |}]> (diagnosisCache s)
  | Throw => diagnosisCache s' = diagnosisCache s
  end.
Proof.
  unfold ruleBasedCached.
  destruct (generateRuleBasedDiagnosis host metrics organType (isoNow w));
    intros [= <- <- <-]; reflexivity.
Qed.

(** What one call does to the cache: nothing when it is served from the
    cache or throws, and otherwise it stores what it returns, under its
    key, with the time [now]. *)
Lemma generateDiagnosis_cache (s : State) metrics organType w r s' rt :
  generateDiagnosis host s metrics organType w = (r, s', rt) ->
  let key := cacheKey host organType metrics in
  (exists e, cachedValid (resetDailyCounterIfNeeded s w) key w = Some e
             /\ r = Return (data e) /\ rt = CacheHit
             /\ s' = resetDailyCounterIfNeeded s w)
  \/ (cachedValid (resetDailyCounterIfNeeded s w) key w = None
      /\ rt <> CacheHit
      /\ match r with
         | Return d =>
             diagnosisCache s'
             = <[key := {| data := d; timestamp := clockNow w |}]> (diagnosisCache s)
         | Throw => diagnosisCache s' = diagnosisCache s
         end).
Proof.
  intros H key. unfold generateDiagnosis in H. fold key in H.
  destruct (reset_frame s w) as (Hc & _).
  destruct (cachedValid (resetDailyCounterIfNeeded s w) key w) as [e|] eqn:Hv.
  { left. injection H as <- <- <-. eauto. }
  right. split; [reflexivity|].
  destruct (shouldUseGemini _ w); cbn [negb] in H.
  - destruct (gemini w).
    + destruct (parseGeminiText organType text) as [parsed ok].
      injection H as <- <- <-. split; [destruct ok; discriminate|].
      cbn. rewrite Hc. reflexivity.
    + pose proof (ruleBasedCached_quota host _ _ _ _ _ _ _ _ _ H) as (-> & _).
      apply ruleBasedCached_cache in H. rewrite Hc in H. split; [discriminate|exact H].
  - pose proof (ruleBasedCached_quota host _ _ _ _ _ _ _ _ _ H) as (-> & _).
    apply ruleBasedCached_cache in H. rewrite Hc in H. split; [discriminate|exact H].
Qed.
End Cache.

(** ** Calls that overlap *)

Section OverlapFacts.
Variable host : Host.

(** A call is its two parts, the second on the state the first left,
    when nothing runs in between. *)
Lemma generateDiagnosis_start_resume (s : State) metrics organType w :
  generateDiagnosis host s metrics organType w
  = match startDiagnosis host s metrics organType w with
    | Served r s' route => (r, s', route)
    | Awaiting s' => resumeDiagnosis host s' metrics organType w
    end.
Proof.
  unfold generateDiagnosis, startDiagnosis, resumeDiagnosis.
  destruct (cachedValid _ _ w); [reflexivity|].
  destruct (shouldUseGemini _ w); cbn [negb]; [reflexivity|].
  destruct (ruleBasedCached host _ _ metrics organType w QuotaFallback) as [[r s'] route].
  reflexivity.
Qed.

Lemma ruleBasedCached_date (s : State) key metrics organType w rt r s' rt' :
  ruleBasedCached host s key metrics organType w rt = (r, s', rt') ->
  lastResetDate s' = lastResetDate s.
Proof.
  unfold ruleBasedCached.
  destruct (generateRuleBasedDiagnosis host metrics organType (isoNow w));
    intros [= <- <- <-]; reflexivity.
Qed.

(** What the first part of a call does to the quota: nothing but the
    reset of a new day, and it goes on to the Gemini client only when
    the test of lines 240-242 lets it. *)
Lemma startDiagnosis_quota (s : State) metrics organType w :
  let s1 := resetDailyCounterIfNeeded s w in
  match startDiagnosis host s metrics organType w with
  | Served r s' route =>
      quotaRecorded route = false
      /\ geminiInvoked route = false
      /\ cacheExpiry s' = cacheExpiry s
      /\ minCallInterval s' = minCallInterval s
      /\ maxDailyCalls s' = maxDailyCalls s
      /\ lastGeminiCall s' = lastGeminiCall s
      /\ dailyCallCount s' = dailyCallCount s1
      /\ lastResetDate s' = lastResetDate s1
  | Awaiting s' => s' = s1 /\ shouldUseGemini s1 w = true
  end.
Proof.
  intros s1. unfold startDiagnosis. fold s1.
  destruct (reset_frame s w) as (_ & He & Hl & Hm & Hx). fold s1 in He, Hl, Hm, Hx.
  destruct (cachedValid s1 _ w); [repeat split; assumption|].
  destruct (shouldUseGemini s1 w); cbn [negb]; [split; reflexivity|].
  destruct (ruleBasedCached host s1 _ metrics organType w QuotaFallback)
    as [[r s'] route] eqn:Hr.
  pose proof (ruleBasedCached_date _ _ _ _ _ _ _ _ _ Hr) as Hd.
  apply ruleBasedCached_quota in Hr as (-> & ? & ? & ? & ? & ?).
  repeat split; congruence.
Qed.

(** What the second part does: it enters the call in the quota when the
    Gemini client answered, over whatever the service holds by then. *)
Lemma resumeDiagnosis_quota (s : State) metrics organType w r s' route :
  resumeDiagnosis host s metrics organType w = (r, s', route) ->
  geminiInvoked route = true
  /\ cacheExpiry s' = cacheExpiry s
  /\ minCallInterval s' = minCallInterval s
  /\ maxDailyCalls s' = maxDailyCalls s
  /\ lastResetDate s' = lastResetDate s
  /\ (if quotaRecorded route
      then lastGeminiCall s' = clockNow w /\ dailyCallCount s' = dailyCallCount s + 1
      else lastGeminiCall s' = lastGeminiCall s /\ dailyCallCount s' = dailyCallCount s).
Proof.
  unfold resumeDiagnosis. destruct (gemini w).
  - destruct (parseGeminiText organType text) as [parsed ok].
    intros [= <- <- <-]. destruct ok; repeat split.
  - intros Hr. pose proof (ruleBasedCached_date _ _ _ _ _ _ _ _ _ Hr) as Hd.
    apply ruleBasedCached_quota in Hr as (-> & ? & ? & ? & ? & ?).
    repeat split; assumption.
Qed.

(** A call on an idle service, and its answer at once. *)
Lemma enter_then_answer (s : State) (c : Call) :
  let st := stepOf host s c in
  exists p1 e1 e2,
    handle host (idle s) (Enter c) = (p1, e1)
    /\ handle host p1 (Answer 0%nat) = (idle (step_after st), e2)
    /\ omap id [e1; e2]
       = [{| ended_call := c; ended_result := step_result st;
             ended_route := step_route st |}]
    /\ (length (pool_awaiting p1) <= 1)%nat.
Proof.
  intros st. destruct (stepOf_eq host s c) as (Hgen & _ & _). fold st in Hgen.
  rewrite generateDiagnosis_start_resume in Hgen.
  unfold handle. cbn [idle pool_service pool_awaiting].
  destruct (startDiagnosis host s (call_metrics c) (call_organType c) (call_world c))
    as [r s' route | s'].
  - injection Hgen as -> -> ->. eexists _, _, _. split; [reflexivity|].
    cbn [pool_awaiting]. split; [reflexivity|]. split; [reflexivity|]. cbn. lia.
  - eexists _, _, _. split; [reflexivity|]. cbn [pool_awaiting pool_service app].
    change ([c] !! 0%nat) with (Some c). cbv iota. cbn [pool_service pool_awaiting].
    rewrite Hgen. split; [reflexivity|]. split; [reflexivity|]. cbn. lia.
Qed.

(** The calls one after another are the schedule in which each answer
    arrives before the next call starts. *)
Lemma oneByOne_run (calls : list Call) (s : State) :
  poolAfter host (idle s) (oneByOne calls) = idle (runState host s calls)
  /\ endedCalls (schedule host (idle s) (oneByOne calls))
     = map (fun st => {| ended_call := step_call st;
                         ended_result := step_result st;
                         ended_route := step_route st |})
           (run host s calls).
Proof.
  revert s. induction calls as [|c rest IH]; intros s; [split; reflexivity|].
  unfold oneByOne. cbn [flat_map app]. fold (oneByOne rest).
  cbn [run runState map poolAfter schedule].
  destruct (enter_then_answer s c) as (p1 & e1 & e2 & H1 & H2 & He & _).
  destruct (stepOf_eq host s c) as (_ & _ & Hcall).
  rewrite H1. cbn [fst]. rewrite H2. cbn [fst].
  destruct (IH (step_after (stepOf host s c))) as [IH1 IH2].
  split; [exact IH1|].
  unfold endedCalls in *. rewrite Hcall.
  destruct e1 as [e1|], e2 as [e2|]; cbn in He; try discriminate He;
    injection He as ->; cbn [omap list_omap moment_ended]; rewrite IH2; reflexivity.
Qed.

(** In that schedule at most one call waits at any moment. *)
Lemma oneByOne_at_most_one (calls : list Call) (s : State) :
  atMostAwaiting 1 (schedule host (idle s) (oneByOne calls)).
Proof.
  revert s. induction calls as [|c rest IH]; intros s; [constructor|].
  unfold oneByOne. cbn [flat_map app]. fold (oneByOne rest). cbn [schedule].
  destruct (enter_then_answer s c) as (p1 & e1 & e2 & H1 & H2 & _ & Hlen).
  rewrite H1, H2. constructor; [cbn [moment_pool]; lia|].
  constructor; [cbn; lia|]. apply IH.
Qed.
End OverlapFacts.

Section OverlapQuota.
Variable host : Host.

(** What one event does to the quota and to the calls that wait. *)
Lemma handle_quota (p : Pool) (e : Event) (p' : Pool) (en : option Ended) :
  handle host p e = (p', en) ->
  let s := pool_service p in
  let s' := pool_service p' in
  cacheExpiry s' = cacheExpiry s
  /\ minCallInterval s' = minCallInterval s
  /\ maxDailyCalls s' = maxDailyCalls s
  /\ match e with
     | Enter c =>
         let s1 := resetDailyCounterIfNeeded s (call_world c) in
         lastGeminiCall s' = lastGeminiCall s
         /\ dailyCallCount s' = dailyCallCount s1
         /\ lastResetDate s' = lastResetDate s1
         /\ match en with
            | Some d =>
                pool_awaiting p' = pool_awaiting p
                /\ ended_call d = c
                /\ quotaRecorded (ended_route d) = false
                /\ geminiInvoked (ended_route d) = false
            | None =>
                pool_awaiting p' = pool_awaiting p ++ [c]
                /\ s' = s1
                /\ shouldUseGemini s1 (call_world c) = true
            end
     | Answer i =>
         match en with
         | Some d =>
             pool_awaiting p !! i = Some (ended_call d)
             /\ pool_awaiting p' = delete i (pool_awaiting p)
             /\ geminiInvoked (ended_route d) = true
             /\ lastResetDate s' = lastResetDate s
             /\ (if quotaRecorded (ended_route d)
                 then lastGeminiCall s' = clockNow (call_world (ended_call d))
                      /\ dailyCallCount s' = dailyCallCount s + 1
                 else lastGeminiCall s' = lastGeminiCall s
                      /\ dailyCallCount s' = dailyCallCount s)
         | None => p' = p
         end
     end.
Proof.
  intros H s s'. subst s s'. destruct e as [c|i]; cbn [handle] in H.
  - pose proof (startDiagnosis_quota host (pool_service p) (call_metrics c)
                  (call_organType c) (call_world c)) as Hs.
    cbv zeta in Hs.
    destruct (reset_frame (pool_service p) (call_world c)) as (_ & He & Hl & Hm & Hx).
    destruct (startDiagnosis host (pool_service p) (call_metrics c) (call_organType c)
                (call_world c)) as [r s' route | s'].
    + injection H as <- <-. cbn [pool_service pool_awaiting ended_call ended_route].
      destruct Hs as (? & ? & ? & ? & ? & ? & ? & ?). repeat split; assumption.
    + injection H as <- <-. cbn [pool_service pool_awaiting].
      destruct Hs as [-> Hg]. repeat split; assumption.
  - destruct (pool_awaiting p !! i) as [c|] eqn:Hi.
    + destruct (resumeDiagnosis host (pool_service p) (call_metrics c) (call_organType c)
                  (call_world c)) as [[r s'] route] eqn:Hr.
      injection H as <- <-. cbn [pool_service pool_awaiting ended_call ended_route].
      apply resumeDiagnosis_quota in Hr as (? & ? & ? & ? & ? & ?).
      repeat split; assumption.
    + injection H as <- <-. repeat split.
Qed.

(** One event keeps the counter, with the calls that wait, within the
    ceiling and [k - 1] more, as long as no more than [k] calls wait. *)
Lemma handle_within (k : Z) (p : Pool) (e : Event) (p' : Pool) (en : option Ended) :
  handle host p e = (p', en) ->
  quotaWithin k p ->
  Z.of_nat (length (pool_awaiting p')) <= k ->
  quotaWithin k p'.
Proof.
  intros H [H0 Hk] Hw. apply handle_quota in H as (_ & _ & Hx & H).
  unfold quotaWithin. rewrite Hx. destruct e as [c|i].
  - cbv zeta in H. destruct H as (_ & Hc & _ & H).
    destruct (reset_counter (pool_service p) (call_world c)) as [Hr|Hr].
    + destruct en as [d|].
      * destruct H as (-> & _). lia.
      * destruct H as (_ & _ & Hg). apply shouldUseGemini_true in Hg as [_ Hg].
        destruct (reset_frame (pool_service p) (call_world c)) as (_ & _ & _ & _ & Hm).
        lia.
    + destruct en as [d|].
      * destruct H as (-> & _). lia.
      * destruct H as (_ & _ & Hg). apply shouldUseGemini_true in Hg as [_ Hg].
        destruct (reset_frame (pool_service p) (call_world c)) as (_ & _ & _ & _ & Hm).
        lia.
  - destruct en as [d|]; [|subst p'; lia].
    destruct H as (Hi & Hd & _ & _ & Hrec).
    assert (Hlen : length (pool_awaiting p') = (length (pool_awaiting p) - 1)%nat)
      by (rewrite Hd; apply length_delete; eauto).
    assert (Hpos : (0 < length (pool_awaiting p))%nat)
      by (apply lookup_lt_Some in Hi; lia).
    destruct (quotaRecorded (ended_route d)); destruct Hrec as [_ Hrec]; lia.
Qed.

Lemma schedule_within (k : Z) (events : list Event) (p : Pool) :
  quotaWithin k p ->
  atMostAwaiting k (schedule host p events) ->
  Forall (fun m => quotaWithin k (moment_pool m)
                   /\ maxDailyCalls (pool_service (moment_pool m))
                      = maxDailyCalls (pool_service p))
         (schedule host p events)
  /\ quotaWithin k (poolAfter host p events)
  /\ maxDailyCalls (pool_service (poolAfter host p events)) = maxDailyCalls (pool_service p).
Proof.
  revert p. induction events as [|e rest IH]; intros p Hp Hk; cbn [schedule poolAfter].
  - split; [constructor|]. split; [exact Hp|reflexivity].
  - cbn [schedule] in Hk. destruct (handle host p e) as [p' en] eqn:Hh. cbn [fst].
    inversion Hk as [|? ? Hk1 Hk2]; subst. cbn [moment_pool] in Hk1.
    pose proof (handle_within k p e p' en Hh Hp Hk1) as Hp'.
    apply handle_quota in Hh as (_ & _ & Hx & _).
    destruct (IH p' Hp' Hk2) as (IH1 & IH2 & IH3).
    split; [|split; [exact IH2|congruence]].
    constructor; [cbn [moment_pool]; auto|].
    eapply Forall_impl; [exact IH1|]. cbn beta. intros m [? ?]. split; [assumption|congruence].
Qed.
End OverlapQuota.

(** C1.  The counter exceeds the ceiling when calls overlap.  The service
    has entered 49 of its 50 calls of the day.  Two requests start one
    millisecond apart, both before the Gemini client has answered: each
    finds the counter at 49, below the ceiling, and goes on to the client
    (line 298); each answer then adds one (lines 327-328), and the counter
    ends at 51 of 50. *)
Theorem overlapping_calls_exceed_the_ceiling :
  dailyCallCount usedState = 49
  /\ maxDailyCalls usedState = 50
  /\ map quotaAt (schedule RefHost.host (idle usedState) overlapping)
     = [(49, 1768470480000, 1%nat, None);
        (49, 1768470480000, 2%nat, None);
        (50, 1768471200000, 1%nat, Some GeminiParsed);
        (51, 1768471200001, 0%nat, Some GeminiParsed)]
  /\ maxDailyCalls (pool_service (poolAfter RefHost.host (idle usedState) overlapping))
     < dailyCallCount (pool_service (poolAfter RefHost.host (idle usedState) overlapping)).
Proof. repeat split; vm_compute; reflexivity. Qed.

(** C4.  Two calls are entered in the quota one millisecond apart when
    they overlap.  On a new service two requests start one millisecond
    apart, both before the Gemini client has answered: each finds
    lastGeminiCall at 0 and goes on to the client, and each answer enters
    its call with the time of its start (line 327). *)
Theorem overlapping_calls_are_entered_together :
  minCallInterval (constructor thursday) = 60000
  /\ map quotaAt (schedule RefHost.host (idle (constructor thursday)) overlapping)
     = [(0, 0, 1%nat, None);
        (0, 0, 2%nat, None);
        (1, 1768471200000, 1%nat, Some GeminiParsed);
        (2, 1768471200001, 0%nat, Some GeminiParsed)]
  /\ enteredTimes (schedule RefHost.host (idle (constructor thursday)) overlapping)
     = [1768471200000; 1768471200001]
  /\ ~ spaced (minCallInterval (constructor thursday))
         (enteredTimes (schedule RefHost.host (idle (constructor thursday)) overlapping)).
Proof.
  split; [reflexivity|]. split; [vm_compute; reflexivity|].
  assert (H : enteredTimes (schedule RefHost.host (idle (constructor thursday)) overlapping)
              = [1768471200000; 1768471200001]) by (vm_compute; reflexivity).
  split; [exact H|]. rewrite H. cbn. lia.
Qed.

Section OverlapCache.
Variable host : Host.

(** What the first part of a call does to the cache. *)
Lemma startDiagnosis_cache (s : State) metrics organType w :
  let s1 := resetDailyCounterIfNeeded s w in
  let key := cacheKey host organType metrics in
  match startDiagnosis host s metrics organType w with
  | Served r s' route =>
      (exists e, cachedValid s1 key w = Some e
                 /\ r = Return (data e) /\ route = CacheHit /\ s' = s1)
      \/ (cachedValid s1 key w = None
          /\ route = QuotaFallback
          /\ match r with
             | Return d =>
                 diagnosisCache s'
                 = <[key := {| data := d; timestamp := clockNow w |}]> (diagnosisCache s)
             | Throw => diagnosisCache s' = diagnosisCache s
             end)
  | Awaiting s' => cachedValid s1 key w = None /\ s' = s1
  end.
Proof.
  intros s1 key. unfold startDiagnosis. fold s1 key.
  destruct (reset_frame s w) as (Hc & _). fold s1 in Hc.
  destruct (cachedValid s1 key w) as [e|]; [left; eauto|].
  destruct (shouldUseGemini s1 w); cbn [negb]; [split; reflexivity|].
  destruct (ruleBasedCached host s1 key metrics organType w QuotaFallback)
    as [[r s'] route] eqn:Hr.
  right. split; [reflexivity|].
  pose proof (ruleBasedCached_quota host _ _ _ _ _ _ _ _ _ Hr) as (-> & _).
  apply ruleBasedCached_cache in Hr. rewrite Hc in Hr. split; [reflexivity|exact Hr].
Qed.

(** What the second part does to the cache: it stores what it returns,
    under the key and with the time of the call's start. *)
Lemma resumeDiagnosis_cache (s : State) metrics organType w r s' route :
  resumeDiagnosis host s metrics organType w = (r, s', route) ->
  match r with
  | Return d =>
      diagnosisCache s'
      = <[cacheKey host organType metrics := {| data := d; timestamp := clockNow w |}]>
          (diagnosisCache s)
  | Throw => diagnosisCache s' = diagnosisCache s
  end.
Proof.
  unfold resumeDiagnosis. destruct (gemini w).
  - destruct (parseGeminiText organType text) as [parsed ok].
    intros [= <- <- <-]. reflexivity.
  - apply ruleBasedCached_cache.
Qed.

(** An entry that is still valid survives an event, unless the answer
    arrives for a call with its key; and no call with its key starts to
    wait. *)
Lemma handle_cache (p : Pool) (e : Event) (p' : Pool) (en : option Ended)
    (key : string) (entry : CacheEntry) :
  handle host p e = (p', en) ->
  diagnosisCache (pool_service p) !! key = Some entry ->
  Forall (fun c => callKey host c <> key) (pool_awaiting p) ->
  entering (fun c => clockAtCacheCheck (call_world c) - timestamp entry
                     < cacheExpiry (pool_service p)) e ->
  diagnosisCache (pool_service p') !! key = Some entry
  /\ Forall (fun c => callKey host c <> key) (pool_awaiting p').
Proof.
  intros H Hentry Hw He. destruct e as [c|i]; cbn [handle] in H.
  - cbn [entering] in He.
    pose proof (startDiagnosis_cache (pool_service p) (call_metrics c) (call_organType c)
                  (call_world c)) as Hs.
    cbv zeta in Hs. fold (callKey host c) in Hs.
    destruct (reset_frame (pool_service p) (call_world c)) as (Hc & Hx & _).
    assert (Hvalid : callKey host c = key ->
                     cachedValid (resetDailyCounterIfNeeded (pool_service p) (call_world c))
                       (callKey host c) (call_world c) = Some entry).
    { intros ->. apply cachedValid_Some. rewrite Hc, Hx. auto. }
    destruct (startDiagnosis host (pool_service p) (call_metrics c) (call_organType c)
                (call_world c)) as [r s' route | s'].
    + injection H as <- <-. cbn [pool_service pool_awaiting]. split; [|exact Hw].
      destruct Hs as [(e & _ & _ & _ & ->) | (Hnone & _ & Hr)]; [congruence|].
      assert (Hk : callKey host c <> key) by (intros Hk; specialize (Hvalid Hk); congruence).
      destruct r; rewrite Hr; [rewrite lookup_insert_ne by exact Hk|]; exact Hentry.
    + injection H as <- <-. cbn [pool_service pool_awaiting].
      destruct Hs as [Hnone ->]. split; [congruence|].
      apply Forall_app. split; [exact Hw|]. constructor; [|constructor].
      intros Hk. specialize (Hvalid Hk). congruence.
  - destruct (pool_awaiting p !! i) as [c|] eqn:Hi.
    + destruct (resumeDiagnosis host (pool_service p) (call_metrics c) (call_organType c)
                  (call_world c)) as [[r s'] route] eqn:Hr.
      injection H as <- <-. cbn [pool_service pool_awaiting].
      split; [|apply Forall_delete; exact Hw].
      assert (Hk : callKey host c <> key)
        by (rewrite Forall_lookup in Hw; exact (Hw _ _ Hi)).
      apply resumeDiagnosis_cache in Hr. fold (callKey host c) in Hr.
      destruct r; rewrite Hr; [rewrite lookup_insert_ne by exact Hk|]; exact Hentry.
    + injection H as <- <-. auto.
Qed.

Lemma entry_survives_schedule (events : list Event) (p : Pool) (key : string)
    (entry : CacheEntry) (limit : Z) :
  diagnosisCache (pool_service p) !! key = Some entry ->
  Forall (fun c => callKey host c <> key) (pool_awaiting p) ->
  Forall (entering (fun c => clockAtCacheCheck (call_world c) <= limit)) events ->
  limit - timestamp entry < cacheExpiry (pool_service p) ->
  diagnosisCache (pool_service (poolAfter host p events)) !! key = Some entry
  /\ cacheExpiry (pool_service (poolAfter host p events)) = cacheExpiry (pool_service p).
Proof.
  revert p. induction events as [|e rest IH]; intros p Hentry Hw Hev Hlimit; cbn [poolAfter].
  - auto.
  - inversion Hev as [|? ? He Hrest]; subst.
    destruct (handle host p e) as [p' en] eqn:Hh. cbn [fst].
    destruct (handle_cache p e p' en key entry Hh Hentry Hw) as (Hentry' & Hw').
    { destruct e as [c|i]; cbn [entering] in He |- *; [lia|exact I]. }
    apply handle_quota in Hh as (Hx & _).
    destruct (IH p' Hentry' Hw' Hrest) as (IH1 & IH2); [rewrite Hx; exact Hlimit|].
    split; [exact IH1|congruence].
Qed.

(** A call that ended with a result left it in the cache, with the time
    at which it was cached. *)
Lemma ended_result_is_cached (p : Pool) (e : Event) (p' : Pool) (c : Call) (r : Diagnosis)
    (route : Route) :
  handle host p e
  = (p', Some {| ended_call := c; ended_result := Return r; ended_route := route |}) ->
  exists ts,
    diagnosisCache (pool_service p') !! callKey host c
    = Some {| data := r; timestamp := ts |}
    /\ (route = CacheHit \/ ts = clockNow (call_world c)).
Proof.
  intros H. destruct e as [c0|i]; cbn [handle] in H.
  - pose proof (startDiagnosis_cache (pool_service p) (call_metrics c0) (call_organType c0)
                  (call_world c0)) as Hs.
    cbv zeta in Hs. fold (callKey host c0) in Hs.
    destruct (startDiagnosis host (pool_service p) (call_metrics c0) (call_organType c0)
                (call_world c0)) as [r0 s' route0 | s']; [|discriminate H].
    injection H as Hp Hc0 Hr0 Hroute. subst p' c0 r0 route0. cbn [pool_service].
    destruct Hs as [(e & Hv & [= ->] & -> & ->) | (_ & _ & Hr)].
    + apply cachedValid_Some in Hv as [Hv _].
      destruct (reset_frame (pool_service p) (call_world c)) as (Hc & _).
      rewrite Hc in Hv |- *. exists (timestamp e). destruct e; cbn; auto.
    + exists (clockNow (call_world c)). rewrite Hr, lookup_insert_eq. auto.
  - destruct (pool_awaiting p !! i) as [c0|]; [|discriminate H].
    destruct (resumeDiagnosis host (pool_service p) (call_metrics c0) (call_organType c0)
                (call_world c0)) as [[r0 s'] route0] eqn:Hr.
    injection H as Hp Hc0 Hr0 Hroute. subst p' c0 r0 route0. cbn [pool_service].
    apply resumeDiagnosis_cache in Hr. fold (callKey host c) in Hr.
    exists (clockNow (call_world c)). rewrite Hr, lookup_insert_eq. auto.
Qed.
End OverlapCache.

Section CachedResult.
Variable host : Host.

(** A call that finds a valid entry under its key is served with it. *)
Lemma handle_hit (p : Pool) (c : Call) (entry : CacheEntry) :
  diagnosisCache (pool_service p) !! callKey host c = Some entry ->
  clockAtCacheCheck (call_world c) - timestamp entry < cacheExpiry (pool_service p) ->
  handle host p (Enter c)
  = ({| pool_service := resetDailyCounterIfNeeded (pool_service p) (call_world c);
        pool_awaiting := pool_awaiting p |},
     Some {| ended_call := c; ended_result := Return (data entry);
             ended_route := CacheHit |}).
Proof.
  intros He Ht. cbn [handle]. unfold startDiagnosis. fold (callKey host c).
  destruct (reset_frame (pool_service p) (call_world c)) as (Hc & Hx & _).
  assert (Hv : cachedValid (resetDailyCounterIfNeeded (pool_service p) (call_world c))
                 (callKey host c) (call_world c) = Some entry).
  { apply cachedValid_Some. rewrite Hc, Hx. auto. }
  rewrite Hv. reflexivity.
Qed.

(** C3, for a first call that returned.  A call that ends with a result
    leaves it in the cache, stamped with the time [ts] at which it was
    cached (the [now] of the call's start, unless the call was itself
    served from the cache).  When no other call with the same organ type
    and metrics is waiting for the Gemini client at that moment, every
    later call with the same organ type and metrics that checks the cache
    before [ts] + cacheExpiry returns the identical result from the cache,
    whatever calls start, wait or end in between: it does not go on to
    the Gemini client and leaves the quota as it found it (but for the
    reset of a new day). *)
Theorem cached_within_window (p : Pool) (e : Event) (c1 : Call) (r1 : Diagnosis)
    (rt1 : Route) :
  snd (handle host p e)
  = Some {| ended_call := c1; ended_result := Return r1; ended_route := rt1 |} ->
  let p1 := fst (handle host p e) in
  exists ts,
    diagnosisCache (pool_service p1) !! callKey host c1
    = Some {| data := r1; timestamp := ts |}
    /\ (rt1 = CacheHit \/ ts = clockNow (call_world c1))
    /\ forall (between : list Event) (w2 : World),
        Forall (fun c => callKey host c <> callKey host c1) (pool_awaiting p1) ->
        Forall (entering (fun c => clockAtCacheCheck (call_world c) <= clockAtCacheCheck w2))
               between ->
        clockAtCacheCheck w2 - ts < cacheExpiry (pool_service p) ->
        let p2 := poolAfter host p1 between in
        handle host p2 (Enter (again c1 w2))
        = ({| pool_service := resetDailyCounterIfNeeded (pool_service p2) w2;
              pool_awaiting := pool_awaiting p2 |},
           Some {| ended_call := again c1 w2; ended_result := Return r1;
                   ended_route := CacheHit |}).
Proof.
  intros H p1. destruct (handle host p e) as [p' en] eqn:Hh. cbn [snd] in H.
  cbn [fst] in p1. subst p1 en.
  pose proof (handle_quota host _ _ _ _ Hh) as (Hx & _). cbv zeta in Hx.
  destruct (ended_result_is_cached host _ _ _ _ _ _ Hh) as (ts & Hentry & Hts).
  exists ts. split; [exact Hentry|]. split; [exact Hts|].
  intros between w2 Hw Hev Hlimit p2.
  destruct (entry_survives_schedule host between p' _ _ (clockAtCacheCheck w2) Hentry Hw Hev)
    as (He2 & Hx2); [cbn [timestamp]; lia|].
  fold p2 in He2, Hx2.
  assert (Hkey : callKey host (again c1 w2) = callKey host c1) by reflexivity.
  rewrite (handle_hit p2 (again c1 w2) {| data := r1; timestamp := ts |}).
  - reflexivity.
  - rewrite Hkey. exact He2.
  - cbn [again call_world timestamp]. lia.
Qed.
End CachedResult.

Lemma cached_within_window_witness :
  exists ts,
    diagnosisCache (pool_service (fst (handle RefHost.host twoAwaiting (Answer 0%nat))))
      !! callKey RefHost.host (lungsCall 1500 answeredWorld)
    = Some {| data := [("diagnosis",
                        VStr "Tissue regeneration observed. Respiratory function stable.");
                       ("status", VStr "HEALTHY")];
              timestamp := ts |}
    /\ (GeminiParsed = CacheHit \/ ts = clockNow (call_world (lungsCall 1500 answeredWorld)))
    /\ forall (between : list Event) (w2 : World),
        Forall (fun c => callKey RefHost.host c
                         <> callKey RefHost.host (lungsCall 1500 answeredWorld))
               (pool_awaiting (fst (handle RefHost.host twoAwaiting (Answer 0%nat)))) ->
        Forall (entering (fun c => clockAtCacheCheck (call_world c) <= clockAtCacheCheck w2))
               between ->
        clockAtCacheCheck w2 - ts < cacheExpiry (pool_service twoAwaiting) ->
        let p2 := poolAfter RefHost.host (fst (handle RefHost.host twoAwaiting (Answer 0%nat)))
                    between in
        handle RefHost.host p2 (Enter (again (lungsCall 1500 answeredWorld) w2))
        = ({| pool_service := resetDailyCounterIfNeeded (pool_service p2) w2;
              pool_awaiting := pool_awaiting p2 |},
           Some {| ended_call := again (lungsCall 1500 answeredWorld) w2;
                   ended_result :=
                     Return [("diagnosis",
                              VStr "Tissue regeneration observed. Respiratory function stable.");
                             ("status", VStr "HEALTHY")];
                   ended_route := CacheHit |}).
Proof.
  apply (cached_within_window RefHost.host twoAwaiting (Answer 0%nat)
           (lungsCall 1500 answeredWorld)
           [("diagnosis", VStr "Tissue regeneration observed. Respiratory function stable.");
            ("status", VStr "HEALTHY")]
           GeminiParsed).
  reflexivity.
Defined.

(** The counterexample of C3: two calls with the same organ type and
    metrics, one millisecond apart.  One after the other, while the Gemini
    client throws and the pH is a text: both go to the client and both
    throw, so that nothing is cached.  Overlapping: both miss the cache
    before either has stored its result, both go to the client, both are
    entered in the quota, and they return what the client answered to
    each.  And while the second of them still waits, its answer is yet to
    replace the result of the first in the cache: the same call two
    seconds later is served the first result, and a second later the
    other. *)
Lemma identical_calls_reach_gemini_twice :
  map (fun st => (step_result st, step_route st))
      (run RefHost.host (constructor thursday) throwingTwice)
  = [(Throw, GeminiFailed); (Throw, GeminiFailed)]
  /\ map endedAt (schedule RefHost.host (idle (constructor thursday)) twins)
     = [None; None;
        Some (Return [("diagnosis",
                       VStr "Tissue regeneration observed. Respiratory function stable.");
                      ("status", VStr "HEALTHY")], GeminiParsed);
        Some (Return [("diagnosis", VStr "Acute inflammation of the canopy.");
                      ("status", VStr "INFLAMED")], GeminiParsed)]
  /\ dailyCallCount (pool_service (poolAfter RefHost.host (idle (constructor thursday)) twins))
     = 2
  /\ map endedAt (schedule RefHost.host (idle (constructor thursday)) lateAnswer)
     = [None; None;
        Some (Return [("diagnosis",
                       VStr "Tissue regeneration observed. Respiratory function stable.");
                      ("status", VStr "HEALTHY")], GeminiParsed);
        Some (Return [("diagnosis",
                       VStr "Tissue regeneration observed. Respiratory function stable.");
                      ("status", VStr "HEALTHY")], CacheHit);
        Some (Return [("diagnosis", VStr "Acute inflammation of the canopy.");
                      ("status", VStr "INFLAMED")], GeminiParsed);
        Some (Return [("diagnosis", VStr "Acute inflammation of the canopy.");
                      ("status", VStr "INFLAMED")], CacheHit)].
Proof. repeat split; vm_compute; reflexivity. Qed.

(** ** Properties of objects *)

Section ObjectFacts.
Context {A : Type}.
Implicit Types (o : object A) (k : string) (v : A).

Lemma lookupProp_replaceProp_same o k v :
  lookupProp o k <> None -> lookupProp (replaceProp o k v) k = Some v.
Proof.
  induction o as [|[k' v'] r IH]; cbn; [congruence|].
  destruct (String.eqb_spec k' k) as [->|Hne]; intros H; cbn.
  - rewrite String.eqb_refl. reflexivity.
  - destruct (String.eqb_spec k' k); [congruence|]. auto.
Qed.

Lemma lookupProp_replaceProp_other o k k' v :
  k' <> k -> lookupProp (replaceProp o k v) k' = lookupProp o k'.
Proof.
  intros Hne. induction o as [|[k0 v0] r IH]; cbn; [reflexivity|].
  destruct (String.eqb_spec k0 k) as [->|H0]; cbn.
  - destruct (String.eqb_spec k k'); [congruence|reflexivity].
  - rewrite IH. reflexivity.
Qed.

Lemma lookupProp_app o k v k' :
  lookupProp (o ++ [(k, v)]) k'
  = match lookupProp o k' with
    | Some x => Some x
    | None => if String.eqb k k' then Some v else None
    end.
Proof.
  induction o as [|[k0 v0] r IH]; cbn; [reflexivity|].
  destruct (String.eqb k0 k'); [reflexivity|exact IH].
Qed.

Lemma lookupProp_insertIndexed o n k v k' :
  lookupProp o k = None ->
  lookupProp (insertIndexed o n k v) k'
  = if String.eqb k k' then Some v else lookupProp o k'.
Proof.
  induction o as [|[k0 v0] r IH]; cbn; [reflexivity|].
  destruct (String.eqb_spec k0 k) as [->|H0]; [discriminate|]. intros Hr.
  destruct (arrayIndex k0) as [n'|]; [destruct (n' <? n)|]; cbn; try reflexivity.
  rewrite IH by exact Hr.
  destruct (String.eqb_spec k0 k') as [<-|H1]; [|reflexivity].
  destruct (String.eqb_spec k k0); [congruence|reflexivity].
Qed.

(** Reading back the property just written. *)
Lemma lookupProp_setProp_same o k v : lookupProp (setProp o k v) k = Some v.
Proof.
  unfold setProp, hasProp. destruct (lookupProp o k) eqn:Hk.
  - apply lookupProp_replaceProp_same. congruence.
  - destruct (arrayIndex k).
    + rewrite lookupProp_insertIndexed by exact Hk. rewrite String.eqb_refl. reflexivity.
    + rewrite lookupProp_app, Hk, String.eqb_refl. reflexivity.
Qed.

(** Writing a property leaves the others as they were. *)
Lemma lookupProp_setProp_other o k v k' :
  k' <> k -> lookupProp (setProp o k v) k' = lookupProp o k'.
Proof.
  intros Hne. unfold setProp, hasProp. destruct (lookupProp o k) eqn:Hk.
  - apply lookupProp_replaceProp_other. exact Hne.
  - destruct (arrayIndex k).
    + rewrite lookupProp_insertIndexed by exact Hk.
      destruct (String.eqb_spec k k'); [congruence|reflexivity].
    + rewrite lookupProp_app.
      destruct (String.eqb_spec k k'); [congruence|].
      destruct (lookupProp o k'); reflexivity.
Qed.

Lemma lookupProp_Some_keys o k v : lookupProp o k = Some v -> In k (keys o).
Proof.
  induction o as [|[k0 v0] r IH]; cbn; [discriminate|].
  destruct (String.eqb_spec k0 k); auto.
Qed.
End ObjectFacts.

Lemma getProp_setProp_same (d : Diagnosis) (k : string) (v : value) :
  getProp (setProp d k v) k = v.
Proof. unfold getProp. rewrite lookupProp_setProp_same. reflexivity. Qed.

Lemma getProp_setProp_other (d : Diagnosis) (k k' : string) (v : value) :
  k' <> k -> getProp (setProp d k v) k' = getProp d k'.
Proof. intros H. unfold getProp. rewrite lookupProp_setProp_other by exact H. reflexivity. Qed.

Lemma isString_true (v : value) (t : string) : isString v t = true <-> v = VStr t.
Proof.
  unfold isString, VStr. destruct v as [[| | | |u]| |]; try (split; discriminate).
  destruct (String.eqb_spec u t); split; congruence.
Qed.

(** Lines 322-324 leave a permitted status, and touch no other property. *)
Lemma validateStatus_permitted (d : Diagnosis) : statusPermitted (validateStatus d).
Proof.
  unfold validateStatus, statusPermitted.
  destruct (isString (getProp d "status") "INFLAMED") eqn:H1; cbn [orb];
    [left; apply isString_true; exact H1|].
  destruct (isString (getProp d "status") "HEALTHY") eqn:H2;
    [right; apply isString_true; exact H2|].
  left. apply getProp_setProp_same.
Qed.

Lemma validateStatus_has_status (d : Diagnosis) : In "status" (keys (validateStatus d)).
Proof.
  destruct (validateStatus_permitted d) as [H|H]; unfold getProp in H;
    destruct (lookupProp (validateStatus d) "status") eqn:E;
    try discriminate; eauto using lookupProp_Some_keys.
Qed.

Lemma append_nonempty (a b : string) : a <> "" -> a +:+ b <> "".
Proof. destruct a; [congruence|discriminate]. Qed.

(** ** The shape of a rule-based diagnosis *)

Section RuleBasedShape.
Variable host : Host.

Lemma toLocaleString_or_else (p : prim) (n : number) :
  exists t, toLocaleString host (or_else p (PNum n)) = Return t.
Proof.
  unfold or_else. destruct (truthy p) eqn:Hp; [|cbn; eauto].
  destruct p; try discriminate; cbn; eauto.
Qed.

Lemma localeOrNA_returns (p : prim) : exists t, localeOrNA host p = Return t.
Proof. unfold localeOrNA. destruct p; cbn; eauto. Qed.

Lemma toFixed_number (p : prim) (digits : Z) :
  isNumber p = true -> exists t, toFixed host p digits = Return t.
Proof. destruct p; try discriminate. cbn. eauto. Qed.

Lemma toFixed_not_number (p : prim) (digits : Z) :
  isNumber p = false -> toFixed host p digits = Throw.
Proof. destruct p; try discriminate; reflexivity. Qed.

(** Whatever the engine returns is the five-field object, with a
    permitted status and a text that starts with a fixed phrase. *)
Lemma generateRuleBasedDiagnosis_shape (metrics : Metrics) (organType iso : string)
    (d : Diagnosis) :
  generateRuleBasedDiagnosis host metrics organType iso = Return d ->
  exists text status severity,
    d = ruleBasedResult text status severity iso
    /\ (status = "INFLAMED" \/ status = "HEALTHY")
    /\ text <> "".
Proof.
  unfold generateRuleBasedDiagnosis, bind.
  repeat case_match; intros [= <-]; eexists _, _, _;
    (split; [reflexivity|split; [auto|apply append_nonempty; discriminate]]).
Qed.

(** The engine throws exactly when toFixed is called on something that
    is not a number. *)
Lemma generateRuleBasedDiagnosis_returns (metrics : Metrics) (organType iso : string) :
  ruleBasedReady metrics organType = true ->
  exists d, generateRuleBasedDiagnosis host metrics organType iso = Return d.
Proof.
  unfold ruleBasedReady, generateRuleBasedDiagnosis.
  destruct (String.eqb organType "Lungs").
  { intros _.
    destruct (toLocaleString_or_else (getPrim metrics "alertCount") (Fin 0)) as [n ->].
    destruct (localeOrNA_returns (getPrim metrics "totalAreaHa")) as [a ->].
    cbn [bind]. repeat case_match; eauto. }
  destruct (String.eqb organType "Veins").
  { intros H. destruct (toFixed_number _ 3 H) as [x ->].
    cbn [bind]. repeat case_match; eauto. }
  destruct (String.eqb organType "Skin").
  { intros H. destruct (toFixed_number _ 2 H) as [x ->].
    cbn [bind]. repeat case_match; eauto. }
  eauto.
Qed.

Lemma generateRuleBasedDiagnosis_throws (metrics : Metrics) (organType iso : string) :
  ruleBasedReady metrics organType = false ->
  generateRuleBasedDiagnosis host metrics organType iso = Throw.
Proof.
  unfold ruleBasedReady, generateRuleBasedDiagnosis.
  destruct (String.eqb organType "Lungs"); [discriminate|].
  destruct (String.eqb organType "Veins").
  { intros H. rewrite (toFixed_not_number _ 3 H). cbn [bind]. repeat case_match; reflexivity. }
  destruct (String.eqb organType "Skin"); [|discriminate].
  intros H. rewrite (toFixed_not_number _ 2 H). cbn [bind]. repeat case_match; reflexivity.
Qed.
End RuleBasedShape.

(** ** The thresholds of the Lungs *)

Section RuleBased.
Variable host : Host.

(** C8.  For the Lungs, the thresholds on the alert count (the number
    that metrics.alertCount, or 0 in its absence, stands for) are tried
    from the most severe down: above 1000 the result is CRITICAL and
    INFLAMED, above 500 HIGH and INFLAMED, above 200 MODERATE and INFLAMED,
    and HEALTHY otherwise.  The engine returns in each case. *)
Theorem lungs_thresholds (metrics : Metrics) (iso : string) (q : Q) :
  ToNumber host (or_else (getPrim metrics "alertCount") (PNum (Fin 0))) = Fin q ->
  exists d,
    generateRuleBasedDiagnosis host metrics "Lungs" iso = Return d
    /\ ((1000 < q)%Q ->
        getProp d "severity" = VStr "CRITICAL" /\ getProp d "status" = VStr "INFLAMED")
    /\ ((500 < q)%Q -> (q <= 1000)%Q ->
        getProp d "severity" = VStr "HIGH" /\ getProp d "status" = VStr "INFLAMED")
    /\ ((200 < q)%Q -> (q <= 500)%Q ->
        getProp d "severity" = VStr "MODERATE" /\ getProp d "status" = VStr "INFLAMED")
    /\ ((q <= 200)%Q -> getProp d "status" = VStr "HEALTHY").
Proof.
  intros Hq. unfold generateRuleBasedDiagnosis.
  change (String.eqb "Lungs" "Lungs") with true. cbv iota.
  destruct (toLocaleString_or_else host (getPrim metrics "alertCount") (Fin 0)) as [n ->].
  destruct (localeOrNA_returns host (getPrim metrics "totalAreaHa")) as [area ->].
  unfold js_gt. rewrite Hq. cbn [num_lt bind].
  destruct (Qlt_bool 1000 q) eqn:H1;
    [apply Qlt_bool_iff in H1 | apply Qlt_bool_false in H1].
  { eexists. split; [reflexivity|].
    repeat split; intros; try reflexivity; exfalso; q_lia. }
  destruct (Qlt_bool 500 q) eqn:H2;
    [apply Qlt_bool_iff in H2 | apply Qlt_bool_false in H2].
  { eexists. split; [reflexivity|].
    repeat split; intros; try reflexivity; exfalso; q_lia. }
  destruct (Qlt_bool 200 q) eqn:H3;
    [apply Qlt_bool_iff in H3 | apply Qlt_bool_false in H3].
  { eexists. split; [reflexivity|].
    repeat split; intros; try reflexivity; exfalso; q_lia. }
  eexists. split; [reflexivity|].
  repeat split; intros; try reflexivity; exfalso; q_lia.
Qed.
End RuleBased.

Lemma lungs_thresholds_witness :
  exists d,
    generateRuleBasedDiagnosis RefHost.host (lungsMetrics 1500) "Lungs" "2026-01-15T10:00:01.000Z"
    = Return d
    /\ ((1000 < 1500)%Q ->
        getProp d "severity" = VStr "CRITICAL" /\ getProp d "status" = VStr "INFLAMED")
    /\ ((500 < 1500)%Q -> (1500 <= 1000)%Q ->
        getProp d "severity" = VStr "HIGH" /\ getProp d "status" = VStr "INFLAMED")
    /\ ((200 < 1500)%Q -> (1500 <= 500)%Q ->
        getProp d "severity" = VStr "MODERATE" /\ getProp d "status" = VStr "INFLAMED")
    /\ ((1500 <= 200)%Q -> getProp d "status" = VStr "HEALTHY").
Proof.
  apply (lungs_thresholds RefHost.host (lungsMetrics 1500) "2026-01-15T10:00:01.000Z" 1500).
  reflexivity.
Defined.

(** The two counts the specification names, and a missing count. *)
Example lungs_1500_and_50 :
  map (fun m => match generateRuleBasedDiagnosis RefHost.host m "Lungs" "" with
                | Return d => (getProp d "status", getProp d "severity")
                | Throw => (VUndefined, VUndefined)
                end)
      [lungsMetrics 1500; lungsMetrics 50; [("region", PStr "Congo")]]
  = [(VStr "INFLAMED", VStr "CRITICAL"); (VStr "HEALTHY", VStr "LOW");
     (VStr "HEALTHY", VStr "LOW")].
Proof. vm_compute. reflexivity. Qed.

(** ** The answer of Gemini *)

Lemma fromFirstOpen_spec (text s : string) :
  fromFirstOpen text = Some s ->
  exists a r, text = a +:+ s /\ s = String "{" r.
Proof.
  induction text as [|c t IH]; cbn [fromFirstOpen]; [discriminate|].
  destruct (Ascii.eqb_spec c "{") as [->|Hc].
  - intros [= <-]. exists "", t. auto.
  - intros H. destruct (IH H) as (a & r & -> & ->). exists (String c a), r. auto.
Qed.

Lemma upToLastClose_spec (s t : string) :
  upToLastClose s = Some t -> t <> "" /\ exists b, s = t +:+ b.
Proof.
  revert t. induction s as [|c r IH]; cbn [upToLastClose]; [discriminate|]. intros t.
  destruct (upToLastClose r) as [t'|].
  - intros [= <-]. destruct (IH t' eq_refl) as (_ & b & ->).
    split; [discriminate|]. exists b. reflexivity.
  - destruct (Ascii.eqb c "}"); [|discriminate]. intros [= <-].
    split; [discriminate|]. exists r. reflexivity.
Qed.

(** The match is a part of the text that starts with an opening brace. *)
Lemma matchBraces_spec (text json : string) :
  matchBraces text = Some json ->
  exists a b r, text = a +:+ json +:+ b /\ json = String "{" r.
Proof.
  unfold matchBraces. destruct (fromFirstOpen text) as [s|] eqn:Hs; [|discriminate].
  intros Hj. apply fromFirstOpen_spec in Hs as (a & r & -> & ->).
  destruct (upToLastClose_spec _ _ Hj) as (Hne & b & Hb).
  exists a, b. destruct json as [|c j]; [congruence|].
  injection Hb as <- Hr. exists j. rewrite Hr. auto.
Qed.

(** What parses from an opening brace is an object. *)
Lemma parseValue_brace (fuel : nat) (r : string) (v : value) (rest : string) :
  parseValue fuel (String "{" r) = Some (v, rest) -> exists o, v = VObj o.
Proof.
  destruct fuel; cbn; [discriminate|].
  repeat case_match; intros [= <- <-]; eauto.
Qed.

Lemma JSON_parse_brace (r : string) (v : value) :
  JSON_parse (String "{" r) = Some v -> exists o, v = VObj o.
Proof.
  unfold JSON_parse. cbn [skipSpace]. change (isJSONSpace "{") with false. cbv iota.
  destruct (parseValue _ _) as [[v' rest]|] eqn:Hp; [|discriminate].
  apply parseValue_brace in Hp as [o ->].
  destruct (skipSpace rest); [|discriminate]. intros [= <-]. eauto.
Qed.

(** The inner try succeeds exactly when JSON.parse accepts the match. *)
Lemma extractObject_Some (text : string) (o : Diagnosis) :
  extractObject text = Some o <->
  exists json, matchBraces text = Some json /\ JSON_parse json = Some (VObj o).
Proof.
  unfold extractObject. split.
  - destruct (matchBraces text) as [json|]; [|discriminate].
    destruct (JSON_parse json) as [[| |o']|] eqn:Hp; try discriminate.
    intros [= <-]. eauto.
  - intros (json & -> & ->). reflexivity.
Qed.

Lemma extractObject_None (text : string) :
  extractObject text = None <->
  matchBraces text = None
  \/ exists json, matchBraces text = Some json /\ JSON_parse json = None.
Proof.
  unfold extractObject. split.
  - destruct (matchBraces text) as [json|] eqn:Hm; [|auto].
    destruct (JSON_parse json) as [v|] eqn:Hp; [|eauto].
    apply matchBraces_spec in Hm as (_ & _ & r & _ & ->).
    apply JSON_parse_brace in Hp as [o ->]. discriminate.
  - intros [-> | (json & -> & ->)]; reflexivity.
Qed.

(** A text without a well-formed JSON object makes the inner try fail. *)
Lemma extractObject_without_object (text : string) :
  ~ containsObject text -> extractObject text = None.
Proof.
  intros Hno. destruct (extractObject text) as [o|] eqn:He; [|reflexivity].
  exfalso. apply Hno. apply extractObject_Some in He as (json & Hm & Hp).
  apply matchBraces_spec in Hm as (a & b & _ & -> & _).
  exists a, json, b, o. auto.
Qed.

Section GeminiAnswer.
Variable host : Host.

(** The call on which the Gemini client answers [text]. *)
Lemma generateDiagnosis_answered (s : State) metrics organType w text :
  cachedValid (resetDailyCounterIfNeeded s w) (cacheKey host organType metrics) w = None ->
  shouldUseGemini (resetDailyCounterIfNeeded s w) w = true ->
  gemini w = GeminiText text ->
  generateDiagnosis host s metrics organType w
  = (Return (validateStatus (fst (parseGeminiText organType text))),
     cacheSet (recordCall (resetDailyCounterIfNeeded s w) (clockNow w))
       (cacheKey host organType metrics)
       (validateStatus (fst (parseGeminiText organType text))) (clockNow w),
     if snd (parseGeminiText organType text) then GeminiParsed else GeminiUnparsed).
Proof.
  intros Hv Hg Ht. unfold generateDiagnosis. rewrite Hv, Hg, Ht. cbn [negb].
  destruct (parseGeminiText organType text). reflexivity.
Qed.

(** C7, as the code has it.  When the Gemini client answers, the call
    returns and does not throw.  If the answer contains no well-formed
    JSON object (or, more generally, if the greedy match is missing or is
    rejected by JSON.parse), the result is the generic diagnosis with
    status INFLAMED.  If an object is extracted whose status is not one
    of the two permitted values, only its status is replaced by
    INFLAMED: its diagnosis is kept. *)
Theorem gemini_answer_handling (s : State) metrics organType w text :
  cachedValid (resetDailyCounterIfNeeded s w) (cacheKey host organType metrics) w = None ->
  shouldUseGemini (resetDailyCounterIfNeeded s w) w = true ->
  gemini w = GeminiText text ->
  exists d s' rt,
    generateDiagnosis host s metrics organType w = (Return d, s', rt)
    /\ getProp d "status" <> VUndefined
    /\ (~ containsObject text -> d = genericDiagnosis organType)
    /\ (extractObject text = None -> d = genericDiagnosis organType)
    /\ (forall parsed,
          extractObject text = Some parsed ->
          ~ statusPermitted parsed ->
          d = setProp parsed "status" (VStr "INFLAMED")
          /\ getProp d "status" = VStr "INFLAMED"
          /\ getProp d "diagnosis" = getProp parsed "diagnosis").
Proof.
  intros Hv Hg Ht. eexists _, _, _.
  split; [exact (generateDiagnosis_answered s metrics organType w text Hv Hg Ht)|].
  assert (Hnone : extractObject text = None ->
                  validateStatus (fst (parseGeminiText organType text))
                  = genericDiagnosis organType).
  { intros He. unfold parseGeminiText. rewrite He. reflexivity. }
  split; [|split; [|split]].
  - destruct (validateStatus_permitted (fst (parseGeminiText organType text))) as [-> | ->];
      discriminate.
  - intros Hno. apply Hnone, extractObject_without_object, Hno.
  - exact Hnone.
  - intros parsed He Hbad. unfold parseGeminiText. rewrite He. cbn [fst].
    assert (Hset : validateStatus parsed = setProp parsed "status" (VStr "INFLAMED")).
    { unfold validateStatus.
      destruct (isString (getProp parsed "status") "INFLAMED") eqn:H1;
        [exfalso; apply Hbad; left; apply isString_true; exact H1|].
      destruct (isString (getProp parsed "status") "HEALTHY") eqn:H2;
        [exfalso; apply Hbad; right; apply isString_true; exact H2|].
      reflexivity. }
    rewrite Hset. split; [reflexivity|].
    split; [apply getProp_setProp_same|apply getProp_setProp_other; discriminate].
Qed.
End GeminiAnswer.

Lemma gemini_answer_handling_witness :
  exists d s' rt,
    generateDiagnosis RefHost.host (constructor thursday) (lungsMetrics 1500) "Lungs"
      (worldAt thursday tenOClock "2026-01-15T10:00:00.000Z" (GeminiText unknownStatusAnswer))
    = (Return d, s', rt)
    /\ getProp d "status" <> VUndefined
    /\ (~ containsObject unknownStatusAnswer -> d = genericDiagnosis "Lungs")
    /\ (extractObject unknownStatusAnswer = None -> d = genericDiagnosis "Lungs")
    /\ (forall parsed,
          extractObject unknownStatusAnswer = Some parsed ->
          ~ statusPermitted parsed ->
          d = setProp parsed "status" (VStr "INFLAMED")
          /\ getProp d "status" = VStr "INFLAMED"
          /\ getProp d "diagnosis" = getProp parsed "diagnosis").
Proof.
  apply (gemini_answer_handling RefHost.host (constructor thursday) (lungsMetrics 1500) "Lungs"
           (worldAt thursday tenOClock "2026-01-15T10:00:00.000Z"
              (GeminiText unknownStatusAnswer)) unknownStatusAnswer);
    vm_compute; reflexivity.
Defined.

(** An answer without any brace is replaced by the generic diagnosis. *)
Example answer_without_object :
  returned (generateDiagnosis RefHost.host (constructor thursday) (lungsMetrics 1500) "Lungs"
              (worldAt thursday tenOClock "2026-01-15T10:00:00.000Z"
                 (GeminiText "I am unable to assess this organ.")))
  = [("diagnosis",
      VStr "Environmental stress detected in Lungs. Immediate intervention required.");
     ("status", VStr "INFLAMED")].
Proof. vm_compute. reflexivity. Qed.

(** The counterexample of C7: the extracted object has the status UNKNOWN,
    and the result keeps its diagnosis instead of the generic one. *)
Lemma unknown_status_keeps_the_diagnosis :
  extractObject unknownStatusAnswer
  = Some [("diagnosis", VStr "Mild irritation of the canopy."); ("status", VStr "UNKNOWN")]
  /\ returned (generateDiagnosis RefHost.host (constructor thursday) (lungsMetrics 1500) "Lungs"
                 (worldAt thursday tenOClock "2026-01-15T10:00:00.000Z"
                    (GeminiText unknownStatusAnswer)))
     = [("diagnosis", VStr "Mild irritation of the canopy."); ("status", VStr "INFLAMED")]
  /\ returned (generateDiagnosis RefHost.host (constructor thursday) (lungsMetrics 1500) "Lungs"
                 (worldAt thursday tenOClock "2026-01-15T10:00:00.000Z"
                    (GeminiText unknownStatusAnswer)))
     <> genericDiagnosis "Lungs".
Proof. vm_compute. repeat split. discriminate. Qed.

(** ** The result of generateDiagnosis *)

Section Result.
Variable host : Host.

Lemma cachePermitted_reset (s : State) (w : World) :
  cachePermitted s -> cachePermitted (resetDailyCounterIfNeeded s w).
Proof.
  unfold cachePermitted. destruct (reset_frame s w) as (-> & _). auto.
Qed.

Lemma cachePermitted_insert (s s' : State) (key : string) (d : Diagnosis) (now : Z) :
  cachePermitted s ->
  statusPermitted d ->
  diagnosisCache s' = <[key := {| data := d; timestamp := now |}]> (diagnosisCache s) ->
  cachePermitted s'.
Proof.
  intros Hs Hd Hc k e. rewrite Hc.
  destruct (decide (key = k)) as [->|Hk].
  - rewrite lookup_insert_eq. intros [= <-]. exact Hd.
  - rewrite lookup_insert_ne by exact Hk. apply Hs.
Qed.

Lemma ruleBasedResult_permitted (text status severity iso : string) :
  status = "INFLAMED" \/ status = "HEALTHY" ->
  text <> "" ->
  statusPermitted (ruleBasedResult text status severity iso)
  /\ nonEmptyText (getProp (ruleBasedResult text status severity iso) "diagnosis")
  /\ keys (ruleBasedResult text status severity iso) = ruleBasedFields.
Proof.
  intros Hs Ht. split; [|split; [exists text; auto|reflexivity]].
  destruct Hs as [-> | ->]; [left|right]; reflexivity.
Qed.

(** The rule-based diagnosis, once cached. *)
Lemma ruleBasedCached_result (s : State) key metrics organType w rt :
  ruleBasedReady metrics organType = true ->
  exists d s',
    ruleBasedCached host s key metrics organType w rt = (Return d, s', rt)
    /\ diagnosisCache s'
       = <[key := {| data := d; timestamp := clockNow w |}]> (diagnosisCache s)
    /\ statusPermitted d
    /\ nonEmptyText (getProp d "diagnosis")
    /\ keys d = ruleBasedFields.
Proof.
  intros Hready. unfold ruleBasedCached.
  destruct (generateRuleBasedDiagnosis_returns host metrics organType (isoNow w) Hready)
    as [d Hd].
  rewrite Hd. apply generateRuleBasedDiagnosis_shape in Hd as (t & st & sv & -> & Hs & Ht).
  destruct (ruleBasedResult_permitted t st sv (isoNow w) Hs Ht) as (? & ? & ?).
  eexists _, _. repeat split; auto.
Qed.

Lemma genericDiagnosis_text (organType : string) :
  nonEmptyText (getProp (genericDiagnosis organType) "diagnosis").
Proof. eexists. split; [reflexivity|discriminate]. Qed.

(** C5, as the code has it.  When every cached diagnosis has a permitted
    status, and the fields on which the rule-based engine calls toFixed
    hold numbers, generateDiagnosis returns (it does not throw) a result
    whose status is INFLAMED or HEALTHY, and the cache keeps that
    property.  The diagnosis of the result is a non-empty text when it
    comes from the rule-based engine or from the fallback of the parse;
    the diagnosis of an object parsed from the answer is not checked. *)
Theorem generateDiagnosis_result (s : State) metrics organType w :
  cachePermitted s ->
  ruleBasedReady metrics organType = true ->
  exists d s' rt,
    generateDiagnosis host s metrics organType w = (Return d, s', rt)
    /\ statusPermitted d
    /\ cachePermitted s'
    /\ (rt = QuotaFallback \/ rt = GeminiFailed \/ rt = GeminiUnparsed ->
        nonEmptyText (getProp d "diagnosis")).
Proof.
  intros Hcache Hready. apply (cachePermitted_reset s w) in Hcache.
  unfold generateDiagnosis.
  set (s1 := resetDailyCounterIfNeeded s w) in *.
  set (key := cacheKey host organType metrics).
  destruct (cachedValid s1 key w) as [e|] eqn:Hv.
  { apply cachedValid_Some in Hv as [He _]. eexists _, _, _.
    split; [reflexivity|]. split; [exact (Hcache _ _ He)|]. split; [exact Hcache|].
    intros [H|[H|H]]; discriminate. }
  destruct (shouldUseGemini s1 w); cbn [negb].
  - destruct (gemini w).
    + destruct (parseGeminiText organType text) as [parsed ok] eqn:Hp.
      eexists _, _, _. split; [reflexivity|].
      split; [apply validateStatus_permitted|].
      split.
      * eapply (cachePermitted_insert (recordCall s1 (clockNow w)));
          [exact Hcache|apply validateStatus_permitted|reflexivity].
      * unfold parseGeminiText in Hp. destruct (extractObject text).
        { injection Hp as <- <-. intros [H|[H|H]]; discriminate. }
        injection Hp as <- <-. intros _. apply genericDiagnosis_text.
    + destruct (ruleBasedCached_result s1 key metrics organType w GeminiFailed Hready)
        as (d & s' & -> & Hc & Hs & Ht & _).
      eexists _, _, _. split; [reflexivity|]. split; [exact Hs|].
      split; [exact (cachePermitted_insert _ _ _ _ _ Hcache Hs Hc)|auto].
  - destruct (ruleBasedCached_result s1 key metrics organType w QuotaFallback Hready)
      as (d & s' & -> & Hc & Hs & Ht & _).
    eexists _, _, _. split; [reflexivity|]. split; [exact Hs|].
    split; [exact (cachePermitted_insert _ _ _ _ _ Hcache Hs Hc)|auto].
Qed.

(** C9, as the code has it.  Every result of the rule-based engine
    carries exactly the fields diagnosis, status, severity, source and
    timestamp.  On the route of the Gemini client the result of the
    fallback of the parse carries exactly diagnosis and status, and an
    object parsed from the answer carries a status and whatever else the
    answer holds. *)
Theorem result_fields_by_route (s : State) metrics organType w iso :
  (forall d, generateRuleBasedDiagnosis host metrics organType iso = Return d ->
             keys d = ruleBasedFields)
  /\ (forall d s' rt,
        generateDiagnosis host s metrics organType w = (Return d, s', rt) ->
        match rt with
        | QuotaFallback | GeminiFailed => keys d = ruleBasedFields
        | GeminiUnparsed => keys d = ["diagnosis"; "status"]
        | GeminiParsed => In "status" (keys d)
        | CacheHit => True
        end).
Proof.
  assert (Hrule : forall i d, generateRuleBasedDiagnosis host metrics organType i = Return d ->
                              keys d = ruleBasedFields).
  { intros i d Hd. apply generateRuleBasedDiagnosis_shape in Hd as (t & st & sv & -> & _).
    reflexivity. }
  split; [apply Hrule|]. intros d s' rt. unfold generateDiagnosis, ruleBasedCached.
  destruct (cachedValid _ _ w); [intros [= <- <- <-]; exact I|].
  destruct (shouldUseGemini _ w); cbn [negb].
  - destruct (gemini w).
    + unfold parseGeminiText. destruct (extractObject text); intros [= <- <- <-].
      * apply validateStatus_has_status.
      * reflexivity.
    + destruct (generateRuleBasedDiagnosis host metrics organType (isoNow w)) eqn:Hd;
        intros [= <- <- <-]. eauto.
  - destruct (generateRuleBasedDiagnosis host metrics organType (isoNow w)) eqn:Hd;
      intros [= <- <- <-]. eauto.
Qed.
End Result.

Lemma generateDiagnosis_result_witness :
  exists d s' rt,
    generateDiagnosis RefHost.host (constructor thursday) (lungsMetrics 1500) "Lungs" unparsedWorld
    = (Return d, s', rt)
    /\ statusPermitted d
    /\ cachePermitted s'
    /\ (rt = QuotaFallback \/ rt = GeminiFailed \/ rt = GeminiUnparsed ->
        nonEmptyText (getProp d "diagnosis")).
Proof.
  apply (generateDiagnosis_result RefHost.host (constructor thursday) (lungsMetrics 1500) "Lungs"
           unparsedWorld).
  - intros k e. cbn. rewrite lookup_empty. discriminate.
  - reflexivity.
Defined.

(** The counterexample of C5: the answer is an object with a status and no
    diagnosis, and it is returned as it is.  Besides, a Veins snapshot
    whose pH is a text makes the rule-based engine, and the call, throw. *)
Lemma bare_status_answer_has_no_diagnosis :
  generateDiagnosis RefHost.host (constructor thursday) (lungsMetrics 1500) "Lungs" bareStatusWorld
  = (Return [("status", VStr "HEALTHY")],
     cacheSet (recordCall (constructor thursday) tenOClock)
       (cacheKey RefHost.host "Lungs" (lungsMetrics 1500))
       [("status", VStr "HEALTHY")] tenOClock,
     GeminiParsed)
  /\ ~ nonEmptyText (getProp [("status", VStr "HEALTHY")] "diagnosis")
  /\ fst (fst (generateDiagnosis RefHost.host (constructor thursday) textualPH "Veins"
                 (failingWorld tenOClock)))
     = Throw.
Proof.
  split; [reflexivity|]. split; [|vm_compute; reflexivity].
  intros (t & Ht & _). discriminate.
Qed.

Lemma result_fields_by_route_witness :
  (forall d, generateRuleBasedDiagnosis RefHost.host (lungsMetrics 1500) "Lungs"
               "2026-01-15T10:00:00.000Z" = Return d ->
             keys d = ruleBasedFields)
  /\ (forall d s' rt,
        generateDiagnosis RefHost.host (constructor thursday) (lungsMetrics 1500) "Lungs"
          unparsedWorld = (Return d, s', rt) ->
        match rt with
        | QuotaFallback | GeminiFailed => keys d = ruleBasedFields
        | GeminiUnparsed => keys d = ["diagnosis"; "status"]
        | GeminiParsed => In "status" (keys d)
        | CacheHit => True
        end).
Proof.
  exact (result_fields_by_route RefHost.host (constructor thursday) (lungsMetrics 1500) "Lungs"
           unparsedWorld "2026-01-15T10:00:00.000Z").
Defined.

(** The counterexample of C9: for the same snapshot the rule-based engine
    returns an object with a severity, a source and a timestamp, and the
    route of the Gemini client returns one without them. *)
Lemma rule_based_and_gemini_results_differ_in_fields :
  keys (returned (generateDiagnosis RefHost.host (constructor thursday) (lungsMetrics 1500)
                    "Lungs" (failingWorld tenOClock)))
  = ["diagnosis"; "status"; "severity"; "source"; "timestamp"]
  /\ keys (returned (generateDiagnosis RefHost.host (constructor thursday) (lungsMetrics 1500)
                       "Lungs" answeredWorld))
     = ["diagnosis"; "status"]
  /\ keys (returned (generateDiagnosis RefHost.host (constructor thursday) (lungsMetrics 1500)
                       "Lungs" unparsedWorld))
     = ["diagnosis"; "status"]
  /\ ~ (forall k,
         In k (keys (returned (generateDiagnosis RefHost.host (constructor thursday)
                                 (lungsMetrics 1500) "Lungs" (failingWorld tenOClock))))
         <-> In k (keys (returned (generateDiagnosis RefHost.host (constructor thursday)
                                     (lungsMetrics 1500) "Lungs" answeredWorld)))).
Proof.
  split; [vm_compute; reflexivity|]. split; [vm_compute; reflexivity|].
  split; [vm_compute; reflexivity|].
  intros H. specialize (H "severity"). vm_compute in H.
  destruct H as [H _].
  destruct H as [H|[H|[]]]; [auto|discriminate H|discriminate H].
Qed.

(** ** The key of the cache *)

Lemma append_String (x : ascii) (a b : string) : String x a +:+ b = String x (a +:+ b).
Proof. reflexivity. Qed.

Lemma append_empty (b : string) : "" +:+ b = b.
Proof. reflexivity. Qed.

(** Appending to a string that starts with known characters. *)
Ltac push_append := rewrite ?append_String, ?append_empty in *.

Lemma append_assoc (a b c : string) : (a +:+ b) +:+ c = a +:+ (b +:+ c).
Proof. induction a as [|x a IH]; push_append; [reflexivity|]. f_equal. exact IH. Qed.

Lemma append_inv_head (a b c : string) : a +:+ b = a +:+ c -> b = c.
Proof. apply String.app_inj. Qed.

Lemma prefix_of_append (a b u v : string) :
  a +:+ u = b +:+ v -> String.prefix a b = true \/ String.prefix b a = true.
Proof.
  revert b. induction a as [|x a IH]; intros [|y b]; cbn [String.prefix]; auto.
  push_append. intros [= -> H]. destruct (ascii_dec y y); [|congruence]. auto.
Qed.

Lemma In_allAscii (c : ascii) : In c allAscii.
Proof.
  unfold allAscii. rewrite <- (ascii_nat_embedding c).
  apply in_map, in_seq. pose proof (nat_ascii_bounded c). lia.
Qed.

Lemma everyAscii_spec (p : ascii -> bool) : everyAscii p = true -> forall c, p c = true.
Proof.
  unfold everyAscii. rewrite forallb_forall. intros H c. apply H, In_allAscii.
Qed.

Lemma escapePrefixFree_holds :
  everyAscii (fun c1 => everyAscii (fun c2 => escapePrefixFree c1 c2)) = true.
Proof. vm_compute. reflexivity. Qed.

Lemma escapeHidesQuote_holds : everyAscii escapeHidesQuote = true.
Proof. vm_compute. reflexivity. Qed.

Lemma escapeChar_prefix (c1 c2 : ascii) :
  String.prefix (escapeChar c1) (escapeChar c2) = true -> c1 = c2.
Proof.
  intros Hp.
  pose proof (everyAscii_spec _ (everyAscii_spec _ escapePrefixFree_holds c1) c2) as H.
  unfold escapePrefixFree in H. rewrite Hp in H. apply Ascii.eqb_eq. exact H.
Qed.

Lemma escapeChar_head (c : ascii) :
  exists h t, escapeChar c = String h t /\ h <> dquote.
Proof.
  pose proof (everyAscii_spec _ escapeHidesQuote_holds c) as H. unfold escapeHidesQuote in H.
  destruct (escapeChar c) as [|h t]; [discriminate|].
  exists h, t. split; [reflexivity|].
  intros ->. rewrite Ascii.eqb_refl in H. discriminate.
Qed.

Lemma escapeChar_append_inj (c1 c2 : ascii) (u v : string) :
  escapeChar c1 +:+ u = escapeChar c2 +:+ v -> c1 = c2 /\ u = v.
Proof.
  intros H. assert (Hc : c1 = c2).
  { destruct (prefix_of_append _ _ _ _ H) as [Hp|Hp];
      [|symmetry]; apply escapeChar_prefix; exact Hp. }
  subst c2. split; [reflexivity|]. exact (append_inv_head _ _ _ H).
Qed.

(** The end of a quoted name can be told from the text: two names whose
    quotations begin the same text are the same name. *)
Lemma escapeString_closing_quote (k1 k2 x y : string) :
  escapeString k1 +:+ String dquote x = escapeString k2 +:+ String dquote y -> k1 = k2.
Proof.
  revert k2. induction k1 as [|c1 k1 IH]; intros [|c2 k2]; cbn [escapeString].
  - reflexivity.
  - rewrite append_assoc. destruct (escapeChar_head c2) as (h & t & -> & Hh).
    push_append. intros [= Hq]. congruence.
  - rewrite append_assoc. destruct (escapeChar_head c1) as (h & t & -> & Hh).
    push_append. intros [= Hq]. congruence.
  - rewrite !append_assoc. intros H.
    apply escapeChar_append_inj in H as [-> H]. f_equal. exact (IH _ H).
Qed.

Lemma quoteJSON_append_inj (k1 k2 x y : string) :
  quoteJSON k1 +:+ x = quoteJSON k2 +:+ y -> k1 = k2.
Proof.
  unfold quoteJSON, str1. push_append. rewrite !append_assoc. push_append. intros [= H].
  exact (escapeString_closing_quote _ _ _ _ H).
Qed.

Lemma join_cons (sep x y : string) (l : list string) :
  join sep (x :: y :: l) = x +:+ sep +:+ join sep (y :: l).
Proof. reflexivity. Qed.

(** The members before a given one make a common beginning of the text. *)
Lemma join_app (sep : string) (pre : list string) (x : string) (l : list string) :
  join sep (pre ++ x :: l)
  = fold_right (fun p acc => p +:+ sep +:+ acc) (join sep (x :: l)) pre.
Proof.
  induction pre as [|p pre IH]; [reflexivity|].
  cbn [app fold_right]. rewrite <- IH.
  destruct (pre ++ x :: l) eqn:E; [destruct pre; discriminate|]. apply join_cons.
Qed.

Lemma fold_prefix_inj (sep : string) (pre : list string) (a b : string) :
  fold_right (fun p acc => p +:+ sep +:+ acc) a pre
  = fold_right (fun p acc => p +:+ sep +:+ acc) b pre ->
  a = b.
Proof.
  induction pre as [|p pre IH]; cbn [fold_right]; [auto|]. intros H.
  apply append_inv_head, append_inv_head in H. auto.
Qed.

Section CacheKey.
Variable host : Host.

Lemma stringifyMembers_app (m1 m2 : Metrics) :
  stringifyMembers host (m1 ++ m2) = stringifyMembers host m1 ++ stringifyMembers host m2.
Proof.
  induction m1 as [|[k v] r IH]; cbn; [reflexivity|].
  destruct (stringifyPrim host v); cbn; rewrite IH; reflexivity.
Qed.

Lemma stringifyMembers_defined (m : Metrics) :
  stringifyMembers host (definedFields m) = stringifyMembers host m.
Proof.
  induction m as [|[k v] r IH]; [reflexivity|].
  change (definedFields ((k, v) :: r))
    with (if isDefined v then (k, v) :: definedFields r else definedFields r).
  destruct v; cbn [isDefined stringifyMembers]; rewrite IH; reflexivity.
Qed.

Lemma stringifyPrim_defined (v : prim) :
  isDefined v = true -> exists t, stringifyPrim host v = Some t.
Proof. destruct v as [| | | [] |]; cbn; try discriminate; eauto. Qed.

(** C6, as the code has it.  The key is the organ type followed by the
    JSON text of the snapshot, which lists the fields that hold a value
    in the order of the object: two snapshots with the same such fields
    in the same order have the same key, and exchanging two neighbouring
    fields of different names that hold a value changes the key. *)
Theorem cacheKey_follows_field_order (organType : string) :
  (forall m1 m2 : Metrics,
      definedFields m1 = definedFields m2 ->
      cacheKey host organType m1 = cacheKey host organType m2)
  /\ (forall (before after : Metrics) (k1 k2 : string) (v1 v2 : prim),
        k1 <> k2 ->
        isDefined v1 = true ->
        isDefined v2 = true ->
        cacheKey host organType (before ++ (k1, v1) :: (k2, v2) :: after)
        <> cacheKey host organType (before ++ (k2, v2) :: (k1, v1) :: after)).
Proof.
  split.
  - intros m1 m2 H. unfold cacheKey, JSON_stringify.
    rewrite <- (stringifyMembers_defined m1), <- (stringifyMembers_defined m2), H.
    reflexivity.
  - intros before after k1 k2 v1 v2 Hk H1 H2 Heq. apply Hk.
    destruct (stringifyPrim_defined v1 H1) as [t1 Ht1].
    destruct (stringifyPrim_defined v2 H2) as [t2 Ht2].
    unfold cacheKey, JSON_stringify in Heq.
    do 3 apply append_inv_head in Heq.
    rewrite !stringifyMembers_app in Heq. cbn [stringifyMembers] in Heq.
    rewrite Ht1, Ht2 in Heq. rewrite !join_app, !join_cons in Heq.
    assert (Hfold : forall (pre : list string) (a b : string),
               fold_right (fun p acc => p +:+ "," +:+ acc) a pre +:+ "}"
               = fold_right (fun p acc => p +:+ "," +:+ acc) (a +:+ "}") pre).
    { intros pre a b. induction pre as [|p pre IH]; cbn [fold_right]; [reflexivity|].
      rewrite <- IH, !append_assoc. reflexivity. }
    rewrite !(Hfold _ _ "") in Heq. apply fold_prefix_inj in Heq.
    rewrite !append_assoc in Heq.
    exact (quoteJSON_append_inj _ _ _ _ Heq).
Qed.
End CacheKey.

Lemma cacheKey_follows_field_order_witness :
  cacheKey RefHost.host "Veins" [("pH", num 8); ("error", PUndefined); ("location", PStr "Reef")]
  = cacheKey RefHost.host "Veins" [("pH", num 8); ("location", PStr "Reef")]
  /\ cacheKey RefHost.host "Veins" ([] ++ [("pH", num 8); ("location", PStr "Reef")])
     <> cacheKey RefHost.host "Veins" ([] ++ [("location", PStr "Reef"); ("pH", num 8)]).
Proof.
  destruct (cacheKey_follows_field_order RefHost.host "Veins") as [Hsame Hswap].
  split.
  - apply Hsame. reflexivity.
  - apply Hswap; [discriminate|reflexivity|reflexivity].
Defined.

(** The counterexample of C6: the same two fields, written into the object
    in the two orders, give two keys; the second snapshot is not found in
    the cache that holds the first. *)
Lemma reordered_fields_change_the_key :
  Permutation reefFirstPH reefFirstLocation
  /\ cacheKey RefHost.host "Veins" reefFirstPH
     = dq "Veins-{'pH':8,'location':'Great Barrier Reef'}"
  /\ cacheKey RefHost.host "Veins" reefFirstLocation
     = dq "Veins-{'location':'Great Barrier Reef','pH':8}"
  /\ cacheKey RefHost.host "Veins" reefFirstPH <> cacheKey RefHost.host "Veins" reefFirstLocation
  /\ map step_route
       (run RefHost.host (constructor thursday)
          [{| call_metrics := reefFirstPH; call_organType := "Veins";
              call_world := answeredWorld |};
           {| call_metrics := reefFirstLocation; call_organType := "Veins";
              call_world := failingWorld (tenOClock + 1) |}])
     = [GeminiParsed; QuotaFallback].
Proof.
  split; [apply perm_swap|].
  split; [vm_compute; reflexivity|]. split; [vm_compute; reflexivity|].
  split; [vm_compute; discriminate|vm_compute; reflexivity].
Qed.

(** ** Rounding down, and the calls that return *)

Lemma Qfloor_unit (y : Q) : (0 <= y)%Q -> (y < 1)%Q -> Qfloor y = 0%Z.
Proof.
  intros H0 H1.
  pose proof (Qfloor_resp_le _ _ H0) as Hlow. change (Qfloor 0) with 0%Z in Hlow.
  pose proof (Qfloor_le y) as Hf.
  assert (Hz : (inject_Z (Qfloor y) < 1)%Q) by (eapply Qle_lt_trans; eauto).
  unfold Qlt in Hz. cbn in Hz. lia.
Qed.

Section Returns.
Variable host : Host.

Lemma generateDiagnosis_returns (s : State) metrics organType w :
  ruleBasedReady metrics organType = true ->
  exists d s' rt, generateDiagnosis host s metrics organType w = (Return d, s', rt).
Proof.
  intros Hready. unfold generateDiagnosis.
  destruct (cachedValid _ _ w); [eauto|].
  destruct (shouldUseGemini _ w); cbn [negb].
  - destruct (gemini w).
    + destruct (parseGeminiText organType text). eauto.
    + destruct (ruleBasedCached_result host (resetDailyCounterIfNeeded s w)
                  (cacheKey host organType metrics) metrics organType w GeminiFailed Hready)
        as (d & s' & -> & _). eauto.
  - destruct (ruleBasedCached_result host (resetDailyCounterIfNeeded s w)
                (cacheKey host organType metrics) metrics organType w QuotaFallback Hready)
      as (d & s' & -> & _). eauto.
Qed.

End Returns.


(** * Further properties of the service *)

(** ** The day and the quota *)

Section DayAndQuota.
Variable host : Host.

Lemma reset_new_day (s : State) (w : World) :
  lastResetDate s <> today w ->
  dailyCallCount (resetDailyCounterIfNeeded s w) = 0
  /\ lastResetDate (resetDailyCounterIfNeeded s w) = today w.
Proof.
  intros Hd. unfold resetDailyCounterIfNeeded.
  destruct (String.eqb_spec (lastResetDate s) (today w)); [contradiction|]. auto.
Qed.

Lemma reset_same_day (s : State) (w : World) :
  lastResetDate s = today w -> resetDailyCounterIfNeeded s w = s.
Proof.
  intros Hd. unfold resetDailyCounterIfNeeded. rewrite Hd, String.eqb_refl. reflexivity.
Qed.



(** The routes other than the cache hit are taken by the test of lines
    240-242 alone. *)
Lemma generateDiagnosis_miss_route (s : State) metrics organType w r s' rt :
  generateDiagnosis host s metrics organType w = (r, s', rt) ->
  rt <> CacheHit ->
  geminiInvoked rt = shouldUseGemini (resetDailyCounterIfNeeded s w) w.
Proof.
  unfold generateDiagnosis, ruleBasedCached.
  destruct (cachedValid _ _ w); [intros [= <- <- <-]; congruence|].
  destruct (shouldUseGemini _ w); cbn [negb].
  - destruct (gemini w).
    + destruct (parseGeminiText organType text) as [parsed ok].
      intros [= <- <- <-]. destruct ok; reflexivity.
    + destruct (generateRuleBasedDiagnosis host metrics organType (isoNow w));
        intros [= <- <- <-]; reflexivity.
  - destruct (generateRuleBasedDiagnosis host metrics organType (isoNow w));
      intros [= <- <- <-]; reflexivity.
Qed.




Lemma enteredTimes_cons (m : Moment) (moments : list Moment) :
  enteredTimes (m :: moments)
  = match moment_ended m with
    | Some d =>
        if quotaRecorded (ended_route d)
        then clockNow (call_world (ended_call d)) :: enteredTimes moments
        else enteredTimes moments
    | None => enteredTimes moments
    end.
Proof.
  unfold enteredTimes, endedCalls. cbn [omap list_omap].
  destruct (moment_ended m) as [d|]; [|reflexivity].
  rewrite filter_cons. destruct (quotaRecorded (ended_route d)); case_decide; done.
Qed.

Lemma enteredCount_cons (m : Moment) (moments : list Moment) :
  enteredCount (m :: moments)
  = match moment_ended m with
    | Some d => if quotaRecorded (ended_route d) then 1 else 0
    | None => 0
    end + enteredCount moments.
Proof.
  unfold enteredCount. rewrite enteredTimes_cons.
  destruct (moment_ended m) as [d|]; [|lia].
  destruct (quotaRecorded (ended_route d)); cbn [length]; lia.
Qed.

(** On the day the service has in lastResetDate, the counter counts the
    calls that lines 327-328 entered. *)
Lemma schedule_same_day (events : list Event) (p : Pool) :
  Forall (entering (fun c => today (call_world c) = lastResetDate (pool_service p))) events ->
  dailyCallCount (pool_service (poolAfter host p events))
  = dailyCallCount (pool_service p) + enteredCount (schedule host p events).
Proof.
  revert p. induction events as [|e rest IH]; intros p Hday; cbn [schedule poolAfter].
  - unfold enteredCount. cbn. lia.
  - inversion Hday as [|? ? He Hrest]; subst.
    destruct (handle host p e) as [p' en] eqn:Hh. cbn [fst].
    rewrite enteredCount_cons. cbn [moment_ended].
    apply handle_quota in Hh as (_ & _ & _ & H).
    destruct e as [c|i].
    + cbn [entering] in He. cbv zeta in H. destruct H as (_ & Hc & Hd & H).
      rewrite (reset_same_day (pool_service p) (call_world c)) in Hc, Hd
        by (symmetry; exact He).
      rewrite IH by (rewrite Hd; exact Hrest).
      destruct en as [d|]; [|lia]. destruct H as (_ & _ & -> & _). lia.
    + destruct en as [d|]; [|subst p'; rewrite IH by exact Hrest; lia].
      destruct H as (_ & _ & _ & Hd & Hrec).
      rewrite IH by (rewrite Hd; exact Hrest).
      destruct (quotaRecorded (ended_route d)); destruct Hrec as [_ ->]; lia.
Qed.

(** A call that goes on to the Gemini client passed the test of lines
    238-242 on the service as it was when the call started. *)
Lemma awaiting_passed_the_test (events : list Event) (p : Pool) :
  Forall (fun m =>
            forall c, moment_event m = Enter c -> moment_ended m = None ->
              dailyCallCount (pool_service (moment_pool m))
              < maxDailyCalls (pool_service (moment_pool m))
              /\ minCallInterval (pool_service (moment_pool m))
                 <= clockNow (call_world c) - lastGeminiCall (pool_service (moment_pool m)))
         (schedule host p events).
Proof.
  revert p. induction events as [|e rest IH]; intros p; cbn [schedule]; [constructor|].
  destruct (handle host p e) as [p' en] eqn:Hh. constructor; [|apply IH].
  cbn [moment_event moment_ended moment_pool]. intros c -> ->.
  apply handle_quota in Hh as (_ & _ & _ & H). cbv zeta in H.
  destruct H as (_ & _ & _ & _ & Hs & Hg). rewrite Hs.
  apply shouldUseGemini_true in Hg. tauto.
Qed.

(** Once a call of the window is entered, the calls entered after it are
    among those that wait already. *)
Lemma entered_after_the_first (from d : Z) (events : list Event) (p : Pool) :
  minCallInterval (pool_service p) = d ->
  from <= lastGeminiCall (pool_service p) ->
  Forall (readsWithin from d) (pool_awaiting p) ->
  Forall (entering (readsWithin from d)) events ->
  enteredCount (schedule host p events) <= Z.of_nat (length (pool_awaiting p)).
Proof.
  revert p. induction events as [|e rest IH]; intros p Hd Hl Hw Hev; cbn [schedule].
  - unfold enteredCount. cbn. lia.
  - inversion Hev as [|? ? He Hrest]; subst.
    destruct (handle host p e) as [p' en] eqn:Hh.
    rewrite enteredCount_cons. cbn [moment_ended].
    apply handle_quota in Hh as (_ & Hm & _ & H).
    destruct e as [c|i].
    + cbn [entering] in He. cbv zeta in H. destruct H as (Hl' & _ & _ & H).
      destruct en as [x|].
      * destruct H as (Ha & _ & -> & _).
        specialize (IH p'). rewrite Ha, Hl', Hm in IH. specialize (IH eq_refl Hl Hw Hrest). lia.
      * exfalso. destruct H as (_ & _ & Hg). apply shouldUseGemini_true in Hg as [Hg _].
        destruct (reset_frame (pool_service p) (call_world c)) as (_ & _ & Hl1 & Hm1 & _).
        rewrite Hl1, Hm1 in Hg. unfold readsWithin in He. lia.
    + destruct en as [x|]; [|subst p'; specialize (IH p eq_refl Hl Hw Hrest); lia].
      destruct H as (Hi & Ha & _ & _ & Hrec).
      assert (Hlen : length (pool_awaiting p') = (length (pool_awaiting p) - 1)%nat)
        by (rewrite Ha; apply length_delete; eauto).
      assert (Hpos : (0 < length (pool_awaiting p))%nat)
        by (apply lookup_lt_Some in Hi; lia).
      assert (Hx : readsWithin from (minCallInterval (pool_service p)) (ended_call x)).
      { rewrite Forall_lookup in Hw. exact (Hw _ _ Hi). }
      assert (Hw' : Forall (readsWithin from (minCallInterval (pool_service p)))
                      (pool_awaiting p'))
        by (rewrite Ha; apply Forall_delete; exact Hw).
      assert (Hl' : from <= lastGeminiCall (pool_service p')).
      { destruct (quotaRecorded (ended_route x)); destruct Hrec as [-> _];
          [unfold readsWithin in Hx; lia|exact Hl]. }
      specialize (IH p' Hm Hl' Hw' Hrest).
      destruct (quotaRecorded (ended_route x)); lia.
Qed.

(** Of the calls of a window shorter than minCallInterval, no more are
    entered than wait at once. *)
Lemma entered_in_a_window (from d k : Z) (events : list Event) (p : Pool) :
  minCallInterval (pool_service p) = d ->
  Forall (readsWithin from d) (pool_awaiting p) ->
  Forall (entering (readsWithin from d)) events ->
  Z.of_nat (length (pool_awaiting p)) <= k ->
  atMostAwaiting k (schedule host p events) ->
  enteredCount (schedule host p events) <= k.
Proof.
  revert p. induction events as [|e rest IH]; intros p Hd Hw Hev Hk Hmost.
  - unfold enteredCount. cbn. lia.
  - inversion Hev as [|? ? He Hrest]; subst.
    pose proof (entered_after_the_first from (minCallInterval (pool_service p)) rest) as Hafter.
    cbn [schedule] in Hmost |- *.
    destruct (handle host p e) as [p' en] eqn:Hh.
    inversion Hmost as [|? ? Hk' Hmost']; subst. cbn [moment_pool] in Hk'.
    rewrite enteredCount_cons. cbn [moment_ended].
    apply handle_quota in Hh as (_ & Hm & _ & H).
    destruct e as [c|i].
    + cbn [entering] in He. cbv zeta in H. destruct H as (_ & _ & _ & H).
      destruct en as [x|].
      * destruct H as (Ha & _ & -> & _).
        specialize (IH p'). rewrite Ha in IH.
        specialize (IH Hm Hw Hrest Hk Hmost'). lia.
      * destruct H as (Ha & _ & _).
        assert (Hw' : Forall (readsWithin from (minCallInterval (pool_service p)))
                        (pool_awaiting p'))
          by (rewrite Ha; apply Forall_app; split;
              [exact Hw|constructor; [exact He|constructor]]).
        specialize (IH p' Hm Hw' Hrest Hk' Hmost'). lia.
    + destruct en as [x|]; [|subst p'; specialize (IH p eq_refl Hw Hrest Hk Hmost'); lia].
      destruct H as (Hi & Ha & _ & _ & Hrec).
      assert (Hlen : length (pool_awaiting p') = (length (pool_awaiting p) - 1)%nat)
        by (rewrite Ha; apply length_delete; eauto).
      assert (Hpos : (0 < length (pool_awaiting p))%nat)
        by (apply lookup_lt_Some in Hi; lia).
      assert (Hx : readsWithin from (minCallInterval (pool_service p)) (ended_call x)).
      { rewrite Forall_lookup in Hw. exact (Hw _ _ Hi). }
      assert (Hw' : Forall (readsWithin from (minCallInterval (pool_service p)))
                      (pool_awaiting p'))
        by (rewrite Ha; apply Forall_delete; exact Hw).
      destruct (quotaRecorded (ended_route x)).
      * destruct Hrec as [Hl' _].
        assert (Hfrom : from <= lastGeminiCall (pool_service p'))
          by (unfold readsWithin in Hx; lia).
        specialize (Hafter p' Hm Hfrom Hw' Hrest). lia.
      * assert (Hk2 : Z.of_nat (length (pool_awaiting p')) <= k) by lia.
        specialize (IH p' Hm Hw' Hrest Hk2 Hmost'). lia.
Qed.

(** X3.  Within one day the counter counts the calls that were entered
    in the quota, however the calls overlap: after a schedule it is the
    initial counter plus the number of calls entered.  When at most [k]
    calls wait for the Gemini client at once, a schedule that starts
    within the ceiling enters at most maxDailyCalls - dailyCallCount
    + k - 1 calls: what the ceiling leaves when each call ends before the
    next starts (k = 1), and up to k - 1 more when calls overlap. *)
Theorem entered_calls_of_a_day (s : State) (events : list Event) (k : Z) :
  1 <= k ->
  0 <= dailyCallCount s <= maxDailyCalls s ->
  Forall (entering (fun c => today (call_world c) = lastResetDate s)) events ->
  atMostAwaiting k (schedule host (idle s) events) ->
  dailyCallCount (pool_service (poolAfter host (idle s) events))
  = dailyCallCount s + enteredCount (schedule host (idle s) events)
  /\ enteredCount (schedule host (idle s) events)
     <= maxDailyCalls s - dailyCallCount s + k - 1.
Proof.
  intros Hk Hin Hday Hmost.
  pose proof (schedule_same_day events (idle s) Hday) as Hcount.
  assert (Hstart : quotaWithin k (idle s)) by (unfold quotaWithin; cbn; lia).
  destruct (schedule_within host k events (idle s) Hstart Hmost) as (_ & [_ Hend] & Hx).
  cbn [idle pool_service] in Hcount, Hx. rewrite Hx in Hend.
  split; [exact Hcount|]. lia.
Qed.

(** X4.  When all the calls of a schedule read the clock within less than
    minCallInterval of one another (a sweep over the organs, or requests
    that arrive together), no more of them are entered in the quota than
    wait for the Gemini client at once: one when each call ends before
    the next starts, and [k] when up to [k] calls overlap. *)
Theorem entered_calls_per_interval (s : State) (events : list Event) (from k : Z) :
  0 <= k ->
  Forall (entering (readsWithin from (minCallInterval s))) events ->
  atMostAwaiting k (schedule host (idle s) events) ->
  enteredCount (schedule host (idle s) events) <= k.
Proof.
  intros Hk Hwin Hmost.
  apply (entered_in_a_window from (minCallInterval s) k events (idle s));
    [reflexivity|constructor|exact Hwin|cbn; lia|exact Hmost].
Qed.

(** X30.  The counter when calls overlap.  From a service whose counter
    lies between zero and the ceiling, when at most [k] calls wait for the
    Gemini client at once, the counter never exceeds maxDailyCalls + k - 1,
    on one day or across days: the ceiling itself when each call ends
    before the next starts.  And every call that goes on to the Gemini
    client found, when it started, the counter below the ceiling and
    lastGeminiCall at least minCallInterval back. *)
Theorem counter_with_overlapping_calls (s : State) (events : list Event) (k : Z) :
  1 <= k ->
  0 <= dailyCallCount s <= maxDailyCalls s ->
  atMostAwaiting k (schedule host (idle s) events) ->
  Forall (fun m =>
            dailyCallCount (pool_service (moment_pool m)) <= maxDailyCalls s + k - 1
            /\ maxDailyCalls (pool_service (moment_pool m)) = maxDailyCalls s
            /\ forall c, moment_event m = Enter c -> moment_ended m = None ->
                 dailyCallCount (pool_service (moment_pool m)) < maxDailyCalls s
                 /\ minCallInterval (pool_service (moment_pool m))
                    <= clockNow (call_world c) - lastGeminiCall (pool_service (moment_pool m)))
         (schedule host (idle s) events).
Proof.
  intros Hk Hin Hmost.
  assert (Hstart : quotaWithin k (idle s)) by (unfold quotaWithin; cbn; lia).
  destruct (schedule_within host k events (idle s) Hstart Hmost) as (Hall & _).
  pose proof (awaiting_passed_the_test events (idle s)) as Htest.
  rewrite Forall_forall in Hall, Htest. apply Forall_forall. intros m Hm.
  destruct (Hall m Hm) as ([_ Hb] & Hx). cbn [idle pool_service] in Hx.
  split; [rewrite Hx in Hb; lia|]. split; [exact Hx|].
  intros c He Hn. destruct (Htest m Hm c He Hn) as [H1 H2]. rewrite Hx in H1. auto.
Qed.
End DayAndQuota.



(** The calls that wait are counted on the list of the moments. *)
Lemma atMostAwaiting_check (k : Z) (moments : list Moment) :
  forallb (fun m => Z.of_nat (length (pool_awaiting (moment_pool m))) <=? k) moments = true ->
  atMostAwaiting k moments.
Proof.
  intros H. apply Forall_forall. intros m Hm.
  rewrite forallb_forall in H. apply Z.leb_le. apply H.
  apply list_elem_of_In. exact Hm.
Qed.

Lemma entered_calls_of_a_day_witness :
  dailyCallCount (pool_service (poolAfter RefHost.host (idle usedState) overlapping))
  = dailyCallCount usedState + enteredCount (schedule RefHost.host (idle usedState) overlapping)
  /\ enteredCount (schedule RefHost.host (idle usedState) overlapping)
     <= maxDailyCalls usedState - dailyCallCount usedState + 2 - 1.
Proof.
  apply (entered_calls_of_a_day RefHost.host usedState overlapping 2).
  - lia.
  - vm_compute. split; discriminate.
  - repeat constructor; vm_compute; reflexivity.
  - apply atMostAwaiting_check. vm_compute. reflexivity.
Defined.

Lemma entered_calls_per_interval_witness :
  enteredCount (schedule RefHost.host (idle (constructor thursday)) overlapping) <= 2.
Proof.
  apply (entered_calls_per_interval RefHost.host (constructor thursday) overlapping tenOClock 2).
  - lia.
  - repeat constructor; vm_compute; discriminate.
  - apply atMostAwaiting_check. vm_compute. reflexivity.
Defined.

Lemma counter_with_overlapping_calls_witness :
  Forall (fun m =>
            dailyCallCount (pool_service (moment_pool m)) <= maxDailyCalls usedState + 2 - 1
            /\ maxDailyCalls (pool_service (moment_pool m)) = maxDailyCalls usedState
            /\ forall c, moment_event m = Enter c -> moment_ended m = None ->
                 dailyCallCount (pool_service (moment_pool m)) < maxDailyCalls usedState
                 /\ minCallInterval (pool_service (moment_pool m))
                    <= clockNow (call_world c) - lastGeminiCall (pool_service (moment_pool m)))
         (schedule RefHost.host (idle usedState) overlapping).
Proof.
  apply (counter_with_overlapping_calls RefHost.host usedState overlapping 2).
  - lia.
  - vm_compute. split; discriminate.
  - apply atMostAwaiting_check. vm_compute. reflexivity.
Defined.

Example sweep_routes :
  map step_route (run RefHost.host (constructor thursday) sweepCalls)
  = [GeminiParsed; QuotaFallback; QuotaFallback].
Proof. vm_compute. reflexivity. Qed.

Example entered_in_the_overlap :
  enteredCount (schedule RefHost.host (idle usedState) overlapping) = 2
  /\ enteredCount (schedule RefHost.host (idle (constructor thursday)) (oneByOne sweepCalls))
     = 1.
Proof. split; vm_compute; reflexivity. Qed.

(** ** The cache: expiry and growth *)

Section CacheGrowth.
Variable host : Host.

(** X5.  An entry whose age has reached cacheExpiry is not served: the
    call computes a diagnosis again and, when it returns one, puts it in
    the place of the old entry with the time [now]. *)
Theorem stale_entry_is_replaced (s : State) metrics organType w (e : CacheEntry) d s' rt :
  diagnosisCache s !! cacheKey host organType metrics = Some e ->
  cacheExpiry s <= clockAtCacheCheck w - timestamp e ->
  generateDiagnosis host s metrics organType w = (Return d, s', rt) ->
  rt <> CacheHit
  /\ diagnosisCache s' !! cacheKey host organType metrics
     = Some {| data := d; timestamp := clockNow w |}.
Proof.
  intros He Hold H.
  apply generateDiagnosis_cache in H as [(e' & Hv & _) | (_ & Hrt & Hc)].
  - exfalso. apply cachedValid_Some in Hv as [He' Ht].
    destruct (reset_frame s w) as (Hc & Hx & _). rewrite Hc in He'. rewrite Hx in Ht.
    assert (e' = e) by congruence. subst e'. lia.
  - split; [exact Hrt|]. rewrite Hc. apply lookup_insert_eq.
Qed.

(** What a call does to the set of keys: it adds at most its own. *)
Lemma generateDiagnosis_keys (s : State) metrics organType w r s' rt :
  generateDiagnosis host s metrics organType w = (r, s', rt) ->
  diagnosisCache s' = diagnosisCache s
  \/ exists e, diagnosisCache s'
               = <[cacheKey host organType metrics := e]> (diagnosisCache s).
Proof.
  intros H. destruct (reset_frame s w) as (Hc & _).
  apply generateDiagnosis_cache in H as [(e & _ & _ & _ & ->) | (_ & _ & H)].
  - left. exact Hc.
  - destruct r; [right; eauto|left; exact H].
Qed.

(** X6.  Nothing is ever removed from the cache: over any run every key
    that has an entry keeps one, and the cache grows by at most one entry
    a call. *)
Theorem cache_never_evicts (s : State) (calls : list Call) :
  (forall k, is_Some (diagnosisCache s !! k) ->
             is_Some (diagnosisCache (runState host s calls) !! k))
  /\ (size (diagnosisCache s) <= size (diagnosisCache (runState host s calls))
      <= size (diagnosisCache s) + length calls)%nat.
Proof.
  revert s. induction calls as [|c rest IH]; intros s; cbn [runState length].
  - split; [auto|lia].
  - destruct (stepOf_eq host s c) as (Hgen & _).
    destruct (IH (step_after (stepOf host s c))) as [IHk IHs].
    apply generateDiagnosis_keys in Hgen as [Hc | [e Hc]]; rewrite Hc in IHk, IHs.
    + split; [exact IHk|lia].
    + split.
      * intros k Hk. apply IHk. rewrite lookup_insert_is_Some'. auto.
      * rewrite map_size_insert in IHs.
        destruct (diagnosisCache s !! cacheKey host (call_organType c) (call_metrics c));
          unfold id in IHs; lia.
Qed.
End CacheGrowth.

Lemma stale_entry_is_replaced_witness :
  GeminiParsed <> CacheHit
  /\ diagnosisCache (step_after (stepOf RefHost.host afterFirstCall
                                   (lungsCall 1500 hourLaterWorld)))
       !! cacheKey RefHost.host "Lungs" (lungsMetrics 1500)
     = Some {| data := [("diagnosis", VStr "Mild irritation of the canopy.");
                        ("status", VStr "INFLAMED")];
               timestamp := clockNow hourLaterWorld |}.
Proof.
  apply (stale_entry_is_replaced RefHost.host afterFirstCall (lungsMetrics 1500) "Lungs"
           hourLaterWorld
           {| data := [("diagnosis",
                        VStr "Tissue regeneration observed. Respiratory function stable.");
                       ("status", VStr "HEALTHY")];
              timestamp := tenOClock |}).
  - vm_compute. reflexivity.
  - vm_compute. discriminate.
  - reflexivity.
Defined.

(** ** The thresholds of the Veins and of the Skin *)

Section MoreThresholds.
Variable host : Host.

(** X7.  For the Veins, with pH the number that metrics.pH (or 8.1 in its
    absence) holds: below 7.9 the result is CRITICAL and INFLAMED, below
    8.0 HIGH and INFLAMED, below 8.1 MODERATE and INFLAMED, and from 8.1 on
    HEALTHY.  The engine returns in each case. *)
Theorem veins_thresholds (metrics : Metrics) (iso : string) (q : Q) :
  or_else (getPrim metrics "pH") (PNum (Fin (81 # 10))) = PNum (Fin q) ->
  exists d,
    generateRuleBasedDiagnosis host metrics "Veins" iso = Return d
    /\ ((q < 79 # 10)%Q ->
        getProp d "severity" = VStr "CRITICAL" /\ getProp d "status" = VStr "INFLAMED")
    /\ ((79 # 10 <= q)%Q -> (q < 8)%Q ->
        getProp d "severity" = VStr "HIGH" /\ getProp d "status" = VStr "INFLAMED")
    /\ ((8 <= q)%Q -> (q < 81 # 10)%Q ->
        getProp d "severity" = VStr "MODERATE" /\ getProp d "status" = VStr "INFLAMED")
    /\ ((81 # 10 <= q)%Q ->
        getProp d "severity" = VStr "LOW" /\ getProp d "status" = VStr "HEALTHY").
Proof.
  intros Hq. unfold generateRuleBasedDiagnosis.
  change (String.eqb "Veins" "Lungs") with false.
  change (String.eqb "Veins" "Veins") with true. cbv iota.
  rewrite Hq. unfold js_lt. cbn [ToNumber num_lt toFixed bind].
  destruct (Qlt_bool q (79 # 10)) eqn:H1;
    [apply Qlt_bool_iff in H1 | apply Qlt_bool_false in H1].
  { eexists. split; [reflexivity|].
    repeat split; intros; try reflexivity; exfalso; q_lia. }
  destruct (Qlt_bool q 8) eqn:H2;
    [apply Qlt_bool_iff in H2 | apply Qlt_bool_false in H2].
  { eexists. split; [reflexivity|].
    repeat split; intros; try reflexivity; exfalso; q_lia. }
  destruct (Qlt_bool q (81 # 10)) eqn:H3;
    [apply Qlt_bool_iff in H3 | apply Qlt_bool_false in H3].
  { eexists. split; [reflexivity|].
    repeat split; intros; try reflexivity; exfalso; q_lia. }
  eexists. split; [reflexivity|].
  repeat split; intros; try reflexivity; exfalso; q_lia.
Qed.

(** X8.  For the Skin, with aqi the number that metrics.aqi (or 1) stands
    for and pm25 the number that metrics.pm25 (or 0) holds: the result is
    CRITICAL as soon as aqi >= 4 or pm25 > 35, else HIGH as soon as
    aqi >= 3 or pm25 > 25, else MODERATE as soon as aqi >= 2 or pm25 > 12
    (INFLAMED in the three cases), and HEALTHY otherwise: either reading
    alone is enough to raise the severity. *)
Theorem skin_thresholds (metrics : Metrics) (iso : string) (a p : Q) :
  ToNumber host (or_else (getPrim metrics "aqi") (PNum (Fin 1))) = Fin a ->
  or_else (getPrim metrics "pm25") (PNum (Fin 0)) = PNum (Fin p) ->
  exists d,
    generateRuleBasedDiagnosis host metrics "Skin" iso = Return d
    /\ ((4 <= a)%Q \/ (35 < p)%Q ->
        getProp d "severity" = VStr "CRITICAL" /\ getProp d "status" = VStr "INFLAMED")
    /\ ((a < 4)%Q -> (p <= 35)%Q -> (3 <= a)%Q \/ (25 < p)%Q ->
        getProp d "severity" = VStr "HIGH" /\ getProp d "status" = VStr "INFLAMED")
    /\ ((a < 3)%Q -> (p <= 25)%Q -> (2 <= a)%Q \/ (12 < p)%Q ->
        getProp d "severity" = VStr "MODERATE" /\ getProp d "status" = VStr "INFLAMED")
    /\ ((a < 2)%Q -> (p <= 12)%Q ->
        getProp d "severity" = VStr "LOW" /\ getProp d "status" = VStr "HEALTHY").
Proof.
  intros Ha Hp. unfold generateRuleBasedDiagnosis.
  change (String.eqb "Skin" "Lungs") with false.
  change (String.eqb "Skin" "Veins") with false.
  change (String.eqb "Skin" "Skin") with true. cbv iota.
  rewrite Hp. unfold js_ge, js_gt. rewrite Ha. cbn [ToNumber num_lt toFixed bind].
  destruct (Qlt_bool a 4) eqn:A4;
    [apply Qlt_bool_iff in A4 | apply Qlt_bool_false in A4];
    destruct (Qlt_bool 35 p) eqn:P35;
    [apply Qlt_bool_iff in P35 | apply Qlt_bool_false in P35 |
     apply Qlt_bool_iff in P35 | apply Qlt_bool_false in P35];
    cbn [orb];
    try (eexists; split; [reflexivity|];
         repeat split; intros; try reflexivity; exfalso;
         repeat match goal with H : _ \/ _ |- _ => destruct H end; q_lia).
  destruct (Qlt_bool a 3) eqn:A3;
    [apply Qlt_bool_iff in A3 | apply Qlt_bool_false in A3];
    destruct (Qlt_bool 25 p) eqn:P25;
    [apply Qlt_bool_iff in P25 | apply Qlt_bool_false in P25 |
     apply Qlt_bool_iff in P25 | apply Qlt_bool_false in P25];
    cbn [orb];
    try (eexists; split; [reflexivity|];
         repeat split; intros; try reflexivity; exfalso;
         repeat match goal with H : _ \/ _ |- _ => destruct H end; q_lia).
  destruct (Qlt_bool a 2) eqn:A2;
    [apply Qlt_bool_iff in A2 | apply Qlt_bool_false in A2];
    destruct (Qlt_bool 12 p) eqn:P12;
    [apply Qlt_bool_iff in P12 | apply Qlt_bool_false in P12 |
     apply Qlt_bool_iff in P12 | apply Qlt_bool_false in P12];
    cbn [orb];
    eexists; (split; [reflexivity|]);
    repeat split; intros; try reflexivity; exfalso;
    repeat match goal with H : _ \/ _ |- _ => destruct H end; q_lia.
Qed.

(** X9.  The rule-based engine throws in exactly one situation: it calls
    toFixed on a pH (for the Veins) or a pm25 (for the Skin) that is
    present, truthy, and not a number.  For the Lungs and for any other
    organ type it returns whatever the snapshot holds. *)
Theorem rule_based_engine_throws_iff (metrics : Metrics) (organType iso : string) :
  generateRuleBasedDiagnosis host metrics organType iso = Throw
  <-> (organType = "Veins"
       /\ isNumber (or_else (getPrim metrics "pH") (PNum (Fin (81 # 10)))) = false)
      \/ (organType = "Skin"
          /\ isNumber (or_else (getPrim metrics "pm25") (PNum (Fin 0))) = false).
Proof.
  assert (Hready : ruleBasedReady metrics organType = false
                   <-> (organType = "Veins"
                        /\ isNumber (or_else (getPrim metrics "pH") (PNum (Fin (81 # 10))))
                           = false)
                       \/ (organType = "Skin"
                           /\ isNumber (or_else (getPrim metrics "pm25") (PNum (Fin 0)))
                              = false)).
  { unfold ruleBasedReady.
    destruct (String.eqb_spec organType "Lungs") as [->|HL].
    { split; [discriminate|]. intros [[H _]|[H _]]; discriminate. }
    destruct (String.eqb_spec organType "Veins") as [->|HV].
    { split; [auto|]. intros [[_ H]|[H _]]; [exact H|discriminate]. }
    destruct (String.eqb_spec organType "Skin") as [->|HS].
    { split; [auto|]. intros [[H _]|[_ H]]; [discriminate|exact H]. }
    split; [discriminate|]. intros [[H _]|[H _]]; contradiction. }
  rewrite <- Hready. split.
  - intros Hthrow. destruct (ruleBasedReady metrics organType) eqn:Hr; [|reflexivity].
    destruct (generateRuleBasedDiagnosis_returns host metrics organType iso Hr) as [d Hd].
    congruence.
  - apply generateRuleBasedDiagnosis_throws.
Qed.
End MoreThresholds.

Lemma veins_thresholds_witness :
  exists d,
    generateRuleBasedDiagnosis RefHost.host (reefMetrics (795 # 100)) "Veins"
      "2026-01-15T10:00:01.000Z" = Return d
    /\ ((795 # 100 < 79 # 10)%Q ->
        getProp d "severity" = VStr "CRITICAL" /\ getProp d "status" = VStr "INFLAMED")
    /\ ((79 # 10 <= 795 # 100)%Q -> (795 # 100 < 8)%Q ->
        getProp d "severity" = VStr "HIGH" /\ getProp d "status" = VStr "INFLAMED")
    /\ ((8 <= 795 # 100)%Q -> (795 # 100 < 81 # 10)%Q ->
        getProp d "severity" = VStr "MODERATE" /\ getProp d "status" = VStr "INFLAMED")
    /\ ((81 # 10 <= 795 # 100)%Q ->
        getProp d "severity" = VStr "LOW" /\ getProp d "status" = VStr "HEALTHY").
Proof.
  apply (veins_thresholds RefHost.host (reefMetrics (795 # 100)) "2026-01-15T10:00:01.000Z"
           (795 # 100)).
  reflexivity.
Defined.

Lemma skin_thresholds_witness :
  exists d,
    generateRuleBasedDiagnosis RefHost.host (skinMetrics 2 40) "Skin"
      "2026-01-15T10:00:01.000Z" = Return d
    /\ ((4 <= 2)%Q \/ (35 < 40)%Q ->
        getProp d "severity" = VStr "CRITICAL" /\ getProp d "status" = VStr "INFLAMED")
    /\ ((2 < 4)%Q -> (40 <= 35)%Q -> (3 <= 2)%Q \/ (25 < 40)%Q ->
        getProp d "severity" = VStr "HIGH" /\ getProp d "status" = VStr "INFLAMED")
    /\ ((2 < 3)%Q -> (40 <= 25)%Q -> (2 <= 2)%Q \/ (12 < 40)%Q ->
        getProp d "severity" = VStr "MODERATE" /\ getProp d "status" = VStr "INFLAMED")
    /\ ((2 < 2)%Q -> (40 <= 12)%Q ->
        getProp d "severity" = VStr "LOW" /\ getProp d "status" = VStr "HEALTHY").
Proof.
  apply (skin_thresholds RefHost.host (skinMetrics 2 40) "2026-01-15T10:00:01.000Z" 2 40);
    reflexivity.
Defined.

Example veins_and_skin_samples :
  map (fun '(m, o) => match generateRuleBasedDiagnosis RefHost.host m o "" with
                      | Return d => (getProp d "status", getProp d "severity")
                      | Throw => (VUndefined, VUndefined)
                      end)
      [(reefMetrics (785 # 100), "Veins"); (reefMetrics (81 # 10), "Veins");
       ([("location", PStr "Ocean")], "Veins");
       (skinMetrics 2 40, "Skin"); (skinMetrics 1 5, "Skin"); (textualPH, "Veins")]
  = [(VStr "INFLAMED", VStr "CRITICAL"); (VStr "HEALTHY", VStr "LOW");
     (VStr "HEALTHY", VStr "LOW");
     (VStr "INFLAMED", VStr "CRITICAL"); (VStr "HEALTHY", VStr "LOW");
     (VUndefined, VUndefined)].
Proof. vm_compute. reflexivity. Qed.

(** ** The health score of a scan *)

Lemma Qfloor_range (y : Q) (lo hi : Z) :
  (inject_Z lo <= y)%Q -> (y < inject_Z (hi + 1))%Q -> lo <= Qfloor y <= hi.
Proof.
  intros Hlo Hhi. split.
  - pose proof (Qfloor_resp_le _ _ Hlo) as H. rewrite Qfloor_Z in H. exact H.
  - pose proof (Qfloor_le y) as Hf.
    assert (Hz : (inject_Z (Qfloor y) < inject_Z (hi + 1))%Q)
      by (eapply Qle_lt_trans; eauto).
    rewrite <- Zlt_Qlt in Hz. lia.
Qed.

Section ScanScore.
Variable host : Host.

(** A scan returns as soon as the rule-based engine can run on the fetched
    snapshot, with the score computed from the organ and the snapshot. *)
Lemma scan_returns (s : State) (organ : Organ) (sw : ScanWorld) (metrics : Metrics) :
  fetchMetrics organ sw = Some metrics ->
  ruleBasedReady metrics (type organ) = true ->
  exists res s',
    performDiagnosticScan host s organ sw = (Return res, s')
    /\ scan_metrics res = metrics
    /\ scan_healthScore res = Math_round (computeHealthScore host organ metrics).
Proof.
  intros Hfetch Hready. unfold performDiagnosticScan. rewrite Hfetch.
  destruct (generateDiagnosis_returns host s metrics (type organ) (diagnosisWorld sw) Hready)
    as (d & s' & rt & ->).
  eexists _, _. split; [reflexivity|]. split; reflexivity.
Qed.

(** X10.  A scan of a Lungs organ returns whatever the snapshot and Gemini
    are.  With n the number in alertCount: a count of zero leaves the
    stored score (rounded) in place rather than giving 100; a non-zero
    count up to 995 gives round(100 - n / 10); above 995 the score is 0;
    and every positive count gives an integer between 0 and 100. *)
Theorem lungs_health_score (s : State) (organ : Organ) (sw : ScanWorld) (n : Q) :
  type organ = "Lungs" ->
  getPrim (fetchDeforestationData sw (if includes (name organ) "Amazon"
                                      then "Amazon" else "Congo")) "alertCount"
  = PNum (Fin n) ->
  exists res s',
    performDiagnosticScan host s organ sw = (Return res, s')
    /\ ((n == 0)%Q -> scan_healthScore res = Math_round (healthScore organ))
    /\ (~ (n == 0)%Q -> (n <= 995)%Q ->
        scan_healthScore res = Fin (inject_Z (Qfloor (100 - n / 10 + (1 # 2)))))
    /\ ((995 < n)%Q -> scan_healthScore res = Fin (inject_Z 0))
    /\ ((0 < n)%Q -> percentage (scan_healthScore res)).
Proof.
  intros Ht Hn.
  set (metrics := fetchDeforestationData sw _) in *.
  assert (Hfetch : fetchMetrics organ sw = Some metrics).
  { unfold fetchMetrics. rewrite Ht. reflexivity. }
  assert (Hready : ruleBasedReady metrics (type organ) = true).
  { rewrite Ht. reflexivity. }
  destruct (scan_returns s organ sw metrics Hfetch Hready) as (res & s' & Hscan & _ & Hscore).
  exists res, s'. split; [exact Hscan|]. rewrite Hscore. clear Hscan Hscore.
  unfold computeHealthScore. rewrite Ht, Hn.
  change (String.eqb "Lungs" "Lungs") with true. cbn [andb truthy ToNumber].
  destruct (Qeq_bool n 0) eqn:Hz; cbn [negb].
  - apply Qeq_bool_iff in Hz.
    split; [reflexivity|]. split; [intros H; contradiction|].
    split; intros H; exfalso; destruct n as [nn nd]; q_lia.
  - apply Qeq_bool_neq in Hz.
    split; [intros H; contradiction|].
    unfold num_div. change (Qeq_bool 10 0) with false. cbv iota.
    cbn [num_sub num_add num_neg]. unfold Math_max, num_lt.
    change (n / 10)%Q with (n * (1 # 10))%Q.
    destruct (Qlt_bool 0 (100 + - (n * (1 # 10)))) eqn:Hpos;
      [apply Qlt_bool_iff in Hpos | apply Qlt_bool_false in Hpos]; cbn [Math_round].
    + split; [intros _ _; reflexivity|]. split.
      * intros Hbig. do 2 f_equal. apply Qfloor_unit; destruct n as [nn nd]; q_lia.
      * intros Hn0. eexists. split; [reflexivity|].
        apply Qfloor_range; destruct n as [nn nd]; q_lia.
    + split; [intros _ Hle; exfalso; destruct n as [nn nd]; q_lia|].
      split; [intros _; reflexivity|].
      intros _. exists 0. split; [reflexivity|lia].
Qed.


(** X12.  A scan of a Veins organ whose pH is a number q of at least 7.5
    returns an integer score between 0 and 100, and the score is 100 from
    a pH of 8.0 on.  (Between 7.5 and 8.0 the score is the rounded product
    of line 486, whose last digit depends on the rounding of the
    arithmetic; only its bounds are stated.) *)
Theorem veins_health_score_from_7_5 (s : State) (organ : Organ) (sw : ScanWorld) (q : Q) :
  type organ = "Veins" ->
  getPrim (fetchOceanPHData sw (if includes (name organ) "Barrier"
                                then "Great Barrier Reef" else "Ocean")) "pH"
  = PNum (Fin q) ->
  (75 # 10 <= q)%Q ->
  exists res s',
    performDiagnosticScan host s organ sw = (Return res, s')
    /\ percentage (scan_healthScore res)
    /\ ((8 <= q)%Q -> scan_healthScore res = Fin (inject_Z 100)).
Proof.
  intros Ht Hph Hge.
  set (metrics := fetchOceanPHData sw _) in *.
  assert (Hfetch : fetchMetrics organ sw = Some metrics).
  { unfold fetchMetrics. rewrite Ht. reflexivity. }
  assert (Hready : ruleBasedReady metrics (type organ) = true).
  { rewrite Ht. unfold ruleBasedReady.
    change (String.eqb "Veins" "Lungs") with false.
    change (String.eqb "Veins" "Veins") with true. cbv iota.
    rewrite Hph. unfold or_else. destruct (truthy (PNum (Fin q))); reflexivity. }
  destruct (scan_returns s organ sw metrics Hfetch Hready) as (res & s' & Hscan & _ & Hscore).
  exists res, s'. split; [exact Hscan|]. rewrite Hscore. clear Hscan Hscore.
  unfold computeHealthScore. rewrite Ht, Hph.
  change (String.eqb "Veins" "Lungs") with false.
  change (String.eqb "Veins" "Veins") with true. cbn [andb truthy].
  destruct (Qeq_bool q 0) eqn:Hz;
    [apply Qeq_bool_iff in Hz; exfalso; destruct q as [qn qd]; q_lia|].
  cbn [negb ToNumber num_sub num_add num_neg num_mul]. unfold Math_min, num_lt.
  destruct (Qlt_bool ((q + - (75 # 10)) * 200) 100) eqn:Hlt;
    [apply Qlt_bool_iff in Hlt | apply Qlt_bool_false in Hlt]; cbn [Math_round].
  - split.
    + eexists. split; [reflexivity|]. apply Qfloor_range; destruct q as [qn qd]; q_lia.
    + intros H8. exfalso. destruct q as [qn qd]. q_lia.
  - split.
    + exists 100. split; [reflexivity|lia].
    + intros _. reflexivity.
Qed.
End ScanScore.

Lemma lungs_health_score_witness :
  exists res s',
    performDiagnosticScan RefHost.host (constructor thursday) forestOrgan
      (scanWorld (lungsMetrics 620) (failingWorld tenOClock))
    = (Return res, s')
    /\ ((inject_Z 620 == 0)%Q -> scan_healthScore res = Math_round (healthScore forestOrgan))
    /\ (~ (inject_Z 620 == 0)%Q -> (inject_Z 620 <= 995)%Q ->
        scan_healthScore res
        = Fin (inject_Z (Qfloor (100 - inject_Z 620 / 10 + (1 # 2)))))
    /\ ((995 < inject_Z 620)%Q -> scan_healthScore res = Fin (inject_Z 0))
    /\ ((0 < inject_Z 620)%Q -> percentage (scan_healthScore res)).
Proof.
  apply (lungs_health_score RefHost.host (constructor thursday) forestOrgan
           (scanWorld (lungsMetrics 620) (failingWorld tenOClock)) (inject_Z 620));
    reflexivity.
Defined.


Lemma veins_health_score_from_7_5_witness :
  exists res s',
    performDiagnosticScan RefHost.host (constructor thursday) reefOrgan
      (scanWorld (reefMetrics (8043 # 1000)) (failingWorld tenOClock))
    = (Return res, s')
    /\ percentage (scan_healthScore res)
    /\ ((8 <= 8043 # 1000)%Q -> scan_healthScore res = Fin (inject_Z 100)).
Proof.
  apply (veins_health_score_from_7_5 RefHost.host (constructor thursday) reefOrgan
           (scanWorld (reefMetrics (8043 # 1000)) (failingWorld tenOClock)) (8043 # 1000)).
  - reflexivity.
  - reflexivity.
  - vm_compute. discriminate.
Defined.

Example scan_scores :
  map (fun '(organ, m) =>
         scanScore (performDiagnosticScan RefHost.host (constructor thursday) organ
                      (scanWorld m (failingWorld tenOClock))))
      [(forestOrgan, lungsMetrics 620); (forestOrgan, lungsMetrics 0);
       (forestOrgan, lungsMetrics 1499);
       (cityOrgan, skinMetrics 4 (123 # 2)); (cityOrgan, skinMetrics 7 10);
       (reefOrgan, reefMetrics (7951 # 1000)); (reefOrgan, reefMetrics (8043 # 1000))]
  = [Some (Fin 38); Some (Fin 42); Some (Fin 0);
     Some (Fin 40); Some (Fin 0);
     Some (Fin 90); Some (Fin 100)].
Proof. vm_compute. reflexivity. Qed.

(** ** The quota report *)

Example toISOString_samples :
  map toISOString [tenOClock; 0; 951782400000; 253402300799999; 253402300800000;
                   -1; maxTime; maxTime + 1]
  = [Return "2026-01-15T10:00:00.000Z"; Return "1970-01-01T00:00:00.000Z";
     Return "2000-02-29T00:00:00.000Z"; Return "9999-12-31T23:59:59.999Z";
     Return "+010000-01-01T00:00:00.000Z"; Return "1969-12-31T23:59:59.999Z";
     Return "+275760-09-13T00:00:00.000Z"; Throw].
Proof. vm_compute. reflexivity. Qed.

Section QuotaReport.
Variable host : Host.

(** lastGeminiCall is the time at which some call started. *)
Lemma schedule_last_call (bound : Z) (events : list Event) (p : Pool) :
  lastGeminiCall (pool_service p) <= bound ->
  Forall (fun c => clockNow (call_world c) <= bound) (pool_awaiting p) ->
  Forall (entering (fun c => clockNow (call_world c) <= bound)) events ->
  lastGeminiCall (pool_service (poolAfter host p events)) <= bound.
Proof.
  revert p. induction events as [|e rest IH]; intros p Hl Hw Hev; cbn [poolAfter].
  - exact Hl.
  - inversion Hev as [|? ? He Hrest]; subst.
    destruct (handle host p e) as [p' en] eqn:Hh. cbn [fst].
    apply handle_quota in Hh as (_ & _ & _ & H).
    destruct e as [c|i].
    + cbn [entering] in He. cbv zeta in H. destruct H as (Hl' & _ & _ & H).
      apply IH; [rewrite Hl'; exact Hl| |exact Hrest].
      destruct en as [d|]; [destruct H as (-> & _); exact Hw|].
      destruct H as (-> & _). apply Forall_app. split; [exact Hw|].
      constructor; [exact He|constructor].
    + destruct en as [d|]; [|subst p'; apply IH; assumption].
      destruct H as (Hi & Ha & _ & _ & Hrec).
      assert (Hd : clockNow (call_world (ended_call d)) <= bound)
        by (rewrite Forall_lookup in Hw; exact (Hw _ _ Hi)).
      apply IH; [|rewrite Ha; apply Forall_delete; exact Hw|exact Hrest].
      destruct (quotaRecorded (ended_route d)); destruct Hrec as [-> _]; assumption.
Qed.

Lemma toISOString_returns (t : Z) :
  0 < t -> t <= maxTime -> exists iso, toISOString t = Return iso.
Proof.
  intros H0 H1. unfold toISOString.
  assert (Hlow : (t <? - maxTime) = false) by (apply Z.ltb_ge; unfold maxTime; lia).
  assert (Hhigh : (maxTime <? t) = false) by (apply Z.ltb_ge; lia).
  rewrite Hlow, Hhigh. cbn [orb].
  destruct (civilFromDays (t / msPerDay)) as [[y m] d]. eauto.
Qed.

(** X13.  At any moment of any schedule of calls, from a service whose
    counter lies between zero and the ceiling (the constructor's does) and
    with clocks a Date can hold, the quota report is sent with code 200:
    used and remaining calls add up to the limit, and the status is
    AVAILABLE exactly when a call remains and QUOTA_EXCEEDED otherwise.
    When at most [k] calls wait for the Gemini client at once, the
    remaining calls are at least 1 - k: never negative when each call
    ends before the next starts, and as low as 1 - k when calls
    overlap. *)
Theorem quota_report_at_any_moment (s : State) (events : list Event) (k : Z) (iso : string) :
  1 <= k ->
  0 <= dailyCallCount s <= maxDailyCalls s ->
  lastGeminiCall s <= maxTime ->
  Forall (entering (fun c => clockNow (call_world c) <= maxTime)) events ->
  atMostAwaiting k (schedule host (idle s) events) ->
  exists info,
    getQuotaStatus host (pool_service (poolAfter host (idle s) events)) iso
    = Success 200 (info, iso)
    /\ dailyCallsLimit info = maxDailyCalls s
    /\ dailyCallsUsed info + remainingCalls info = dailyCallsLimit info
    /\ 1 - k <= remainingCalls info <= dailyCallsLimit info
    /\ (info_status info = "AVAILABLE" <-> 0 < remainingCalls info)
    /\ (info_status info = "QUOTA_EXCEEDED" <-> remainingCalls info <= 0).
Proof.
  intros Hk Hb Hl Hall Hmost.
  assert (Hstart : quotaWithin k (idle s)) by (unfold quotaWithin; cbn; lia).
  destruct (schedule_within host k events (idle s) Hstart Hmost) as (_ & [Hb0 Hb1] & Hx).
  assert (Hl' : lastGeminiCall (pool_service (poolAfter host (idle s) events)) <= maxTime)
    by (apply schedule_last_call; [exact Hl|constructor|exact Hall]).
  cbn [idle pool_service] in Hx.
  set (s' := pool_service (poolAfter host (idle s) events)) in *.
  unfold getQuotaStatus, quotaInfo.
  assert (Hlast : exists last,
             (if 0 <? lastGeminiCall s'
              then do iso <- toISOString (lastGeminiCall s'); Return (Some iso)
              else Return None) = Return last).
  { destruct (0 <? lastGeminiCall s') eqn:Hpos; [|eauto].
    apply Z.ltb_lt in Hpos. destruct (toISOString_returns _ Hpos Hl') as [t ->].
    cbn. eauto. }
  destruct Hlast as [last ->]. cbn [bind]. eexists. split; [reflexivity|].
  cbn [dailyCallsLimit dailyCallsUsed remainingCalls info_status].
  split; [exact Hx|]. split; [lia|]. split; [lia|].
  destruct (dailyCallCount s' <? maxDailyCalls s') eqn:Hlt;
    [apply Z.ltb_lt in Hlt | apply Z.ltb_ge in Hlt];
    split; split; intros H; try reflexivity; try discriminate H; lia.
Qed.

(** X14.  What the report says about the next diagnosis.  On the day the
    service has in lastResetDate the status is the daily part of the test
    of lines 240-242: after QUOTA_EXCEEDED the call does not invoke the
    Gemini client, after AVAILABLE a call that misses the cache invokes it
    as soon as the spacing allows.  On a later day the report is out of
    date, because it does not reset the counter: whatever it said, a call
    that misses the cache invokes the client as soon as the spacing allows
    and the ceiling is positive. *)
Theorem quota_status_and_next_call
    (s : State) (iso : string) (info : QuotaInfo) metrics organType w r s' rt :
  getQuotaStatus host s iso = Success 200 (info, iso) ->
  generateDiagnosis host s metrics organType w = (r, s', rt) ->
  (lastResetDate s = today w ->
   (info_status info = "QUOTA_EXCEEDED" -> geminiInvoked rt = false)
   /\ (info_status info = "AVAILABLE" -> rt <> CacheHit ->
       minCallInterval s <= clockNow w - lastGeminiCall s ->
       geminiInvoked rt = true))
  /\ (lastResetDate s <> today w -> 0 < maxDailyCalls s -> rt <> CacheHit ->
      minCallInterval s <= clockNow w - lastGeminiCall s ->
      geminiInvoked rt = true).
Proof.
  intros Hq H.
  assert (Hst : info_status info
                = if dailyCallCount s <? maxDailyCalls s
                  then "AVAILABLE" else "QUOTA_EXCEEDED").
  { unfold getQuotaStatus, quotaInfo in Hq.
    destruct (if 0 <? lastGeminiCall s then _ else _); cbn [bind] in Hq;
      [|discriminate Hq].
    injection Hq as <-. reflexivity. }
  split.
  - intros Hd. pose proof (reset_same_day s w Hd) as Hreset. split.
    + intros Hex. rewrite Hst in Hex.
      destruct (dailyCallCount s <? maxDailyCalls s) eqn:Hlt; [discriminate Hex|].
      apply Z.ltb_ge in Hlt.
      destruct (geminiInvoked rt) eqn:Hi; [|reflexivity].
      apply generateDiagnosis_quota in H as (_ & _ & _ & Hinv & _).
      apply Hinv, shouldUseGemini_true in Hi as [_ Hi]. rewrite Hreset in Hi. lia.
    + intros Hav Hmiss Hgap. rewrite Hst in Hav.
      destruct (dailyCallCount s <? maxDailyCalls s) eqn:Hlt; [|discriminate Hav].
      rewrite (generateDiagnosis_miss_route host _ _ _ _ _ _ _ H Hmiss), Hreset.
      unfold shouldUseGemini. rewrite Hlt, andb_true_r. apply Z.leb_le. exact Hgap.
  - intros Hd Hmax Hmiss Hgap.
    destruct (reset_new_day s w Hd) as [Hzero _].
    rewrite (generateDiagnosis_miss_route host _ _ _ _ _ _ _ H Hmiss).
    destruct (reset_frame s w) as (_ & _ & Hl & Hm & Hx).
    unfold shouldUseGemini. rewrite Hl, Hm, Hx, Hzero.
    apply andb_true_iff. split; [apply Z.leb_le; exact Hgap|apply Z.ltb_lt; exact Hmax].
Qed.
End QuotaReport.

Example quota_report_samples :
  getQuotaStatus RefHost.host exhaustedState "2026-01-15T09:00:00.000Z"
  = Success 200 (exhaustedReport, "2026-01-15T09:00:00.000Z")
  /\ getQuotaStatus RefHost.host
       (runState RefHost.host (constructor thursday) sweepCalls) "2026-01-15T10:00:01.000Z"
     = Success 200
         ({| dailyCallsUsed := 1;
             dailyCallsLimit := 50;
             remainingCalls := 49;
             percentageUsed := "2.0";
             info_lastResetDate := thursday;
             info_lastGeminiCall := Some "2026-01-15T10:00:00.000Z";
             cacheSize := 3;
             cacheExpiryMinutes := Fin (3600000 # 60000);
             minCallIntervalSeconds := Fin (60000 # 1000);
             info_status := "AVAILABLE";
             info_message := "49 Gemini calls remaining today" |},
          "2026-01-15T10:00:01.000Z").
Proof. split; vm_compute; reflexivity. Qed.

Lemma quota_report_at_any_moment_witness :
  exists info,
    getQuotaStatus RefHost.host
      (pool_service (poolAfter RefHost.host (idle usedState) overlapping))
      "2026-01-15T10:00:02.000Z"
    = Success 200 (info, "2026-01-15T10:00:02.000Z")
    /\ dailyCallsLimit info = maxDailyCalls usedState
    /\ dailyCallsUsed info + remainingCalls info = dailyCallsLimit info
    /\ 1 - 2 <= remainingCalls info <= dailyCallsLimit info
    /\ (info_status info = "AVAILABLE" <-> 0 < remainingCalls info)
    /\ (info_status info = "QUOTA_EXCEEDED" <-> remainingCalls info <= 0).
Proof.
  apply (quota_report_at_any_moment RefHost.host usedState overlapping 2
           "2026-01-15T10:00:02.000Z").
  - lia.
  - vm_compute. split; discriminate.
  - vm_compute. discriminate.
  - repeat constructor; vm_compute; discriminate.
  - apply atMostAwaiting_check. vm_compute. reflexivity.
Defined.

(** The report after the two overlapping calls: 51 calls used of 50. *)
Example quota_report_after_the_overlap :
  option_map
    (fun info => (dailyCallsUsed info, remainingCalls info, percentageUsed info,
                  info_status info))
    (match getQuotaStatus RefHost.host
             (pool_service (poolAfter RefHost.host (idle usedState) overlapping))
             "2026-01-15T10:00:02.000Z" with
     | Success _ (info, _) => Some info
     | Failure _ _ => None
     end)
  = Some (51, -1, "102.0", "QUOTA_EXCEEDED").
Proof. vm_compute. reflexivity. Qed.

Lemma quota_status_and_next_call_witness :
  (lastResetDate exhaustedState = today answeredWorld ->
   (info_status exhaustedReport = "QUOTA_EXCEEDED" -> geminiInvoked GeminiParsed = false)
   /\ (info_status exhaustedReport = "AVAILABLE" -> GeminiParsed <> CacheHit ->
       minCallInterval exhaustedState
       <= clockNow answeredWorld - lastGeminiCall exhaustedState ->
       geminiInvoked GeminiParsed = true))
  /\ (lastResetDate exhaustedState <> today answeredWorld ->
      0 < maxDailyCalls exhaustedState -> GeminiParsed <> CacheHit ->
      minCallInterval exhaustedState
      <= clockNow answeredWorld - lastGeminiCall exhaustedState ->
      geminiInvoked GeminiParsed = true).
Proof.
  apply (quota_status_and_next_call RefHost.host exhaustedState "2026-01-15T09:00:00.000Z"
           exhaustedReport (lungsMetrics 1500) "Lungs" answeredWorld
           (Return [("diagnosis",
                     VStr "Tissue regeneration observed. Respiratory function stable.");
                    ("status", VStr "HEALTHY")])
           (step_after (stepOf RefHost.host exhaustedState (lungsCall 1500 answeredWorld)))
           GeminiParsed).
  - vm_compute. reflexivity.
  - reflexivity.
Defined.

(** * Properties of the data sources *)

(** ** The simulated ocean *)

Lemma roundTo3_nonneg (x : Q) :
  (0 <= x)%Q ->
  AlternativeDataService.roundTo 3 x = (Qfloor (x * 1000 + (1 # 2)) # 1000)%Q.
Proof.
  intros H. unfold AlternativeDataService.roundTo.
  assert (Hneg : Qlt_bool x 0 = false).
  { destruct (Qlt_bool x 0) eqn:E; [|reflexivity].
    apply Qlt_bool_iff in E. exfalso. destruct x as [n d]. q_lia. }
  rewrite Hneg. destruct x as [n d]. cbn [Qabs].
  rewrite Z.abs_eq by q_lia. reflexivity.
Qed.

(** The pH of the adapter in thousandths, with its level. *)
Lemma simulated_pH_value (random : nat -> Q) (iso location : string) :
  unitInterval (random 0%nat) ->
  exists n : Z,
    AlternativeDataService.pH (Fetchers.fetchOceanPHData random iso location)
    = Fin (n # 1000)%Q
    /\ (if includes location "Barrier" then 7900 <= n <= 8000 else 8000 <= n <= 8100)
    /\ AlternativeDataService.acidificationLevel
         (Fetchers.fetchOceanPHData random iso location)
       = (if n <? 8000 then "HIGH" else if n <? 8100 then "MODERATE" else "LOW").
Proof.
  intros [H0 H1].
  unfold Fetchers.fetchOceanPHData, AlternativeDataService.fetchNOAAOceanData.
  cbn [AlternativeDataService.pH AlternativeDataService.acidificationLevel].
  set (r := random 0%nat) in *.
  set (x := ((if includes location "Barrier" then 795 # 100 else 805 # 100)
             + (r - (1 # 2)) * (1 # 10))%Q).
  assert (Hx : (0 <= x)%Q).
  { subst x. destruct (includes location "Barrier"); destruct r as [rn rd]; q_lia. }
  rewrite (roundTo3_nonneg x Hx).
  set (n := Qfloor (x * 1000 + (1 # 2))%Q).
  exists n. split; [reflexivity|]. split.
  - subst n x. destruct (includes location "Barrier");
      apply Qfloor_range; destruct r as [rn rd]; q_lia.
  - assert (H8 : Qlt_bool (n # 1000)%Q 8%Q = (n <? 8000)).
    { destruct (n <? 8000) eqn:E.
      - apply Z.ltb_lt in E. apply Qlt_bool_iff. q_lia.
      - apply Z.ltb_ge in E. apply Qlt_bool_false. q_lia. }
    assert (H81 : Qlt_bool (n # 1000)%Q (81 # 10)%Q = (n <? 8100)).
    { destruct (n <? 8100) eqn:E.
      - apply Z.ltb_lt in E. apply Qlt_bool_iff. q_lia.
      - apply Z.ltb_ge in E. apply Qlt_bool_false. q_lia. }
    rewrite H8, H81. reflexivity.
Qed.

Section SimulatedOcean.
Variable host : Host.

(** X15.  The ocean adapter draws its pH around 7.95 for a location whose
    name contains Barrier and around 8.05 for any other: the pH it returns
    lies between 7.9 and 8.0 in the first case and between 8.0 and 8.1 in
    the second, both ends included, and the acidification level is HIGH
    below 8.0, MODERATE from 8.0 to below 8.1, and LOW at 8.1. *)
Theorem simulated_ocean_pH (random : nat -> Q) (iso location : string) :
  unitInterval (random 0%nat) ->
  exists q,
    AlternativeDataService.pH (Fetchers.fetchOceanPHData random iso location) = Fin q
    /\ (includes location "Barrier" = true -> (79 # 10 <= q)%Q /\ (q <= 8)%Q)
    /\ (includes location "Barrier" = false -> (8 <= q)%Q /\ (q <= 81 # 10)%Q)
    /\ (AlternativeDataService.acidificationLevel
          (Fetchers.fetchOceanPHData random iso location) = "HIGH" <-> (q < 8)%Q)
    /\ (AlternativeDataService.acidificationLevel
          (Fetchers.fetchOceanPHData random iso location) = "MODERATE"
        <-> (8 <= q)%Q /\ (q < 81 # 10)%Q)
    /\ (AlternativeDataService.acidificationLevel
          (Fetchers.fetchOceanPHData random iso location) = "LOW" <-> (q == 81 # 10)%Q).
Proof.
  intros Hr. destruct (simulated_pH_value random iso location Hr) as (n & -> & Hn & ->).
  exists (n # 1000)%Q. split; [reflexivity|].
  split; [intros Hb; rewrite Hb in Hn; q_lia|].
  split; [intros Hb; rewrite Hb in Hn; q_lia|].
  assert (Hhigh : n <= 8100) by (destruct (includes location "Barrier"); lia).
  destruct (n <? 8000) eqn:E8;
    [apply Z.ltb_lt in E8 | apply Z.ltb_ge in E8].
  { split; [split; [intros _; q_lia|reflexivity]|].
    split; split; try (intros H; discriminate H); intros H; exfalso; q_lia. }
  destruct (n <? 8100) eqn:E81;
    [apply Z.ltb_lt in E81 | apply Z.ltb_ge in E81].
  { split; [split; [intros H; discriminate H|intros H; exfalso; q_lia]|].
    split; [split; [intros _; q_lia|reflexivity]|].
    split; [intros H; discriminate H|intros H; exfalso; q_lia]. }
  split; [split; [intros H; discriminate H|intros H; exfalso; q_lia]|].
  split; [split; [intros H; discriminate H|intros H; exfalso; q_lia]|].
  split; [intros _; q_lia|reflexivity].
Qed.

(** X16.  What the simulated pH does downstream, for a Veins organ and any
    snapshot that carries it: the rule-based engine never finds it
    CRITICAL and finds it INFLAMED unless the pH is 8.1 (level LOW), while
    the health score computed from it is at least 80, and exactly 100 for
    every location without Barrier in its name. *)
Theorem simulated_ocean_diagnosis
    (random : nat -> Q) (iso location : string) (organ : Organ) (metrics : Metrics)
    (iso' : string) :
  unitInterval (random 0%nat) ->
  type organ = "Veins" ->
  getPrim metrics "pH"
  = PNum (AlternativeDataService.pH (Fetchers.fetchOceanPHData random iso location)) ->
  (exists d,
     generateRuleBasedDiagnosis host metrics "Veins" iso' = Return d
     /\ getProp d "severity" <> VStr "CRITICAL"
     /\ (AlternativeDataService.acidificationLevel
           (Fetchers.fetchOceanPHData random iso location) <> "LOW" ->
         getProp d "status" = VStr "INFLAMED"))
  /\ (exists x,
        computeHealthScore host organ metrics = Fin x
        /\ (80 <= x)%Q /\ (x <= 100)%Q
        /\ (includes location "Barrier" = false -> (x == 100)%Q)).
Proof.
  intros Hr Ht Hph.
  destruct (simulated_pH_value random iso location Hr) as (n & Hq & Hn & ->).
  rewrite Hq in Hph. clear Hq.
  assert (Hrange : 7900 <= n <= 8100) by (destruct (includes location "Barrier"); lia).
  assert (Htruthy : truthy (PNum (Fin (n # 1000)%Q)) = true).
  { cbn [truthy]. destruct (Qeq_bool (n # 1000) 0) eqn:E; [|reflexivity].
    apply Qeq_bool_iff in E. exfalso. q_lia. }
  split.
  - unfold generateRuleBasedDiagnosis.
    change (String.eqb "Veins" "Lungs") with false.
    change (String.eqb "Veins" "Veins") with true. cbv iota.
    rewrite Hph. unfold or_else. rewrite Htruthy.
    unfold js_lt. cbn [ToNumber num_lt toFixed bind].
    assert (H79 : Qlt_bool (n # 1000)%Q (79 # 10)%Q = false)
      by (apply Qlt_bool_false; q_lia).
    rewrite H79.
    destruct (Qlt_bool (n # 1000)%Q 8%Q) eqn:E8.
    { eexists. split; [reflexivity|]. split; [discriminate|reflexivity]. }
    destruct (Qlt_bool (n # 1000)%Q (81 # 10)%Q) eqn:E81.
    { eexists. split; [reflexivity|]. split; [discriminate|reflexivity]. }
    eexists. split; [reflexivity|]. split; [discriminate|].
    intros Hlow. exfalso. apply Hlow.
    apply Qlt_bool_false in E81.
    assert (Hge : 8100 <= n) by q_lia.
    apply Z.ltb_ge in Hge. rewrite Hge.
    assert (Hge8 : (n <? 8000) = false) by (apply Z.ltb_ge; apply Z.ltb_ge in Hge; lia).
    rewrite Hge8. reflexivity.
  - unfold computeHealthScore. rewrite Ht, Hph, Htruthy.
    change (String.eqb "Veins" "Lungs") with false.
    change (String.eqb "Veins" "Veins") with true.
    cbn [andb ToNumber num_sub num_add num_neg num_mul]. unfold Math_min, num_lt.
    destruct (Qlt_bool (((n # 1000) + - (75 # 10)) * 200)%Q 100%Q) eqn:E;
      [apply Qlt_bool_iff in E | apply Qlt_bool_false in E].
    + eexists. split; [reflexivity|].
      split; [q_lia|]. split; [q_lia|].
      intros Hb. rewrite Hb in Hn. exfalso. q_lia.
    + exists 100%Q. split; [reflexivity|].
      split; [q_lia|]. split; [q_lia|]. intros _. reflexivity.
Qed.
End SimulatedOcean.

Lemma simulated_ocean_pH_witness :
  exists q,
    AlternativeDataService.pH
      (Fetchers.fetchOceanPHData (fun _ => 1 # 4)%Q "2026-01-15T10:00:00.000Z"
         "Great Barrier Reef") = Fin q
    /\ (includes "Great Barrier Reef" "Barrier" = true -> (79 # 10 <= q)%Q /\ (q <= 8)%Q)
    /\ (includes "Great Barrier Reef" "Barrier" = false -> (8 <= q)%Q /\ (q <= 81 # 10)%Q)
    /\ (AlternativeDataService.acidificationLevel
          (Fetchers.fetchOceanPHData (fun _ => 1 # 4)%Q "2026-01-15T10:00:00.000Z"
             "Great Barrier Reef") = "HIGH" <-> (q < 8)%Q)
    /\ (AlternativeDataService.acidificationLevel
          (Fetchers.fetchOceanPHData (fun _ => 1 # 4)%Q "2026-01-15T10:00:00.000Z"
             "Great Barrier Reef") = "MODERATE"
        <-> (8 <= q)%Q /\ (q < 81 # 10)%Q)
    /\ (AlternativeDataService.acidificationLevel
          (Fetchers.fetchOceanPHData (fun _ => 1 # 4)%Q "2026-01-15T10:00:00.000Z"
             "Great Barrier Reef") = "LOW" <-> (q == 81 # 10)%Q).
Proof.
  apply (simulated_ocean_pH (fun _ => 1 # 4)%Q "2026-01-15T10:00:00.000Z"
           "Great Barrier Reef").
  split; vm_compute; [discriminate|reflexivity].
Defined.

Lemma simulated_ocean_diagnosis_witness :
  (exists d,
     generateRuleBasedDiagnosis RefHost.host (reefMetrics (7925 # 1000)) "Veins"
       "2026-01-15T10:00:01.000Z" = Return d
     /\ getProp d "severity" <> VStr "CRITICAL"
     /\ (AlternativeDataService.acidificationLevel
           (Fetchers.fetchOceanPHData (fun _ => 1 # 4)%Q "2026-01-15T10:00:00.000Z"
              "Great Barrier Reef") <> "LOW" ->
         getProp d "status" = VStr "INFLAMED"))
  /\ (exists x,
        computeHealthScore RefHost.host reefOrgan (reefMetrics (7925 # 1000)) = Fin x
        /\ (80 <= x)%Q /\ (x <= 100)%Q
        /\ (includes "Great Barrier Reef" "Barrier" = false -> (x == 100)%Q)).
Proof.
  apply (simulated_ocean_diagnosis RefHost.host (fun _ => 1 # 4)%Q
           "2026-01-15T10:00:00.000Z" "Great Barrier Reef" reefOrgan
           (reefMetrics (7925 # 1000)) "2026-01-15T10:00:01.000Z").
  - split; vm_compute; [discriminate|reflexivity].
  - reflexivity.
  - reflexivity.
Defined.

Example ocean_samples :
  map (fun '(r, location) =>
         let d := Fetchers.fetchOceanPHData (fun _ => r) "" location in
         (AlternativeDataService.pH d, AlternativeDataService.acidificationLevel d,
          AlternativeDataService.ocean_coordinates d))
      [(0, "Great Barrier Reef"); (9999 # 10000, "Great Barrier Reef");
       (0, "Ocean"); (9999 # 10000, "Ocean"); (1 # 2, "toString")]%Q
  = [(Fin (7900 # 1000), "HIGH",
      Own {| AlternativeDataService.lat := -182871 # 10000;
             AlternativeDataService.lon := 1476992 # 10000 |});
     (Fin (8000 # 1000), "MODERATE",
      Own {| AlternativeDataService.lat := -182871 # 10000;
             AlternativeDataService.lon := 1476992 # 10000 |});
     (Fin (8000 # 1000), "MODERATE",
      Own {| AlternativeDataService.lat := -182871 # 10000;
             AlternativeDataService.lon := 1476992 # 10000 |});
     (Fin (8100 # 1000), "LOW",
      Own {| AlternativeDataService.lat := -182871 # 10000;
             AlternativeDataService.lon := 1476992 # 10000 |});
     (Fin (8050 # 1000), "MODERATE", Inherited)]%Q.
Proof. vm_compute. reflexivity. Qed.

(** ** The deforestation sources *)

(** The mock alert count is an integer from 500 to 1499, and the mock area
    five times as much. *)
Lemma mockAlertCount_range (r : Q) :
  unitInterval r ->
  exists z : Z,
    AlternativeDataService.mockAlertCount r = Fin (inject_Z z)
    /\ 500 <= z <= 1499
    /\ Math_floor (num_mul (AlternativeDataService.mockAlertCount r) (Fin 5))
       = Fin (inject_Z (z * 5)).
Proof.
  intros [H0 H1]. unfold AlternativeDataService.mockAlertCount.
  cbn [num_mul Math_floor num_add].
  set (f := Qfloor (r * 1000)).
  assert (Hf : 0 <= f <= 999).
  { subst f. apply Qfloor_range; destruct r as [rn rd]; q_lia. }
  assert (Heq : (inject_Z f + 500)%Q = inject_Z (f + 500)).
  { unfold Qplus, inject_Z. cbn [Qnum Qden]. f_equal. lia. }
  rewrite Heq. exists (f + 500). split; [reflexivity|]. split; [lia|].
  cbn [num_mul Math_floor]. do 2 f_equal.
  unfold Qmult, inject_Z, Qfloor. cbn [Qnum Qden Pos.mul]. apply Z.div_1_r.
Qed.

Section Deforestation.
Variable host : Host.

(** X17.  Where the deforestation data of the service come from.  The
    object is NASA's whenever the EONET request is answered, even with no
    fire in the region: its alert count is the number of events inside
    the region's box.  When the request fails, the mock that the NASA
    adapter built is discarded with its error: the object is Global
    Forest Watch's, which takes a real API key, or else the service's own
    mock, whose alert count is an integer from 500 to 1499 and whose area
    is five times the count. *)
Theorem deforestation_sources (net : Fetchers.ForestNetwork) (region : string) :
  unitInterval (Fetchers.forest_random net 1%nat) ->
  let d := Fetchers.fetchDeforestationData net region in
  AlternativeDataService.error d = None
  /\ AlternativeDataService.region d = region
  /\ (AlternativeDataService.dataSource d = "NASA EONET"
      \/ AlternativeDataService.dataSource d = "Global Forest Watch"
      \/ AlternativeDataService.dataSource d = "Mock Data (Realistic)")
  /\ (forall events, Fetchers.nasa net = AlternativeDataService.NasaEvents events ->
        AlternativeDataService.dataSource d = "NASA EONET"
        /\ exists k : nat,
             AlternativeDataService.alertCount d = Fin (inject_Z (Z.of_nat k))
             /\ (k <= length events)%nat
             /\ k = length (filter
                             (fun e => AlternativeDataService.inRegion
                                         (AlternativeDataService.getRegionCoordinates region) e
                                       = true) events))
  /\ (AlternativeDataService.dataSource d = "Global Forest Watch" ->
      Fetchers.hasRealKey (Fetchers.GFW_API_KEY net) = true
      /\ exists message, Fetchers.nasa net = AlternativeDataService.NasaFailed message)
  /\ (AlternativeDataService.dataSource d = "Mock Data (Realistic)" ->
      exists z : Z,
        AlternativeDataService.alertCount d = Fin (inject_Z z)
        /\ 500 <= z <= 1499
        /\ AlternativeDataService.totalAreaHa d = Fin (inject_Z (z * 5))).
Proof.
  intros Hr d. subst d. unfold Fetchers.fetchDeforestationData.
  destruct (mockAlertCount_range _ Hr) as (z & Hz & Hzr & Harea).
  destruct (Fetchers.nasa net) as [events|message] eqn:Hnasa;
    cbn [AlternativeDataService.fetchNASAWildfireData AlternativeDataService.dataSource].
  - change (String.eqb "NASA EONET" "NASA EONET") with true. cbv iota.
    cbn [AlternativeDataService.error AlternativeDataService.region
         AlternativeDataService.dataSource AlternativeDataService.alertCount].
    split; [reflexivity|]. split; [reflexivity|]. split; [auto|]. split.
    + intros events' [= <-]. split; [reflexivity|].
      eexists. split; [reflexivity|]. split; [apply length_filter|reflexivity].
    + split; intros H; discriminate H.
  - change (String.eqb "NASA EONET (Mock)" "NASA EONET") with false. cbv iota.
    destruct (Fetchers.hasRealKey (Fetchers.GFW_API_KEY net)) eqn:Hkey;
      [destruct (Fetchers.gfw net)|];
      cbn [AlternativeDataService.error AlternativeDataService.region
           AlternativeDataService.dataSource AlternativeDataService.alertCount
           AlternativeDataService.totalAreaHa];
      (split; [reflexivity|]); (split; [reflexivity|]); (split; [auto|]);
      (split; [intros events H; discriminate H|]);
      split; intros H; try discriminate H; eauto.
Qed.

(** X18.  What the service's mock does downstream, for a Lungs organ and
    any snapshot that carries its alert count: the rule-based engine
    finds it INFLAMED, and the health score computed from it lies between
    0 and 50. *)
Theorem mock_deforestation_diagnosis
    (net : Fetchers.ForestNetwork) (region : string) (organ : Organ) (metrics : Metrics)
    (iso : string) :
  unitInterval (Fetchers.forest_random net 1%nat) ->
  AlternativeDataService.dataSource (Fetchers.fetchDeforestationData net region)
  = "Mock Data (Realistic)" ->
  type organ = "Lungs" ->
  getPrim metrics "alertCount"
  = PNum (AlternativeDataService.alertCount (Fetchers.fetchDeforestationData net region)) ->
  (exists d,
     generateRuleBasedDiagnosis host metrics "Lungs" iso = Return d
     /\ getProp d "status" = VStr "INFLAMED")
  /\ (exists x,
        computeHealthScore host organ metrics = Fin x /\ (0 <= x)%Q /\ (x <= 50)%Q).
Proof.
  intros Hr Hsrc Ht Hcount.
  assert (Hmock : exists z : Z,
             getPrim metrics "alertCount" = PNum (Fin (inject_Z z)) /\ 500 <= z <= 1499).
  { rewrite Hcount. clear Hcount. revert Hsrc. unfold Fetchers.fetchDeforestationData.
    destruct (mockAlertCount_range _ Hr) as (z & Hz & Hzr & _).
    destruct (Fetchers.nasa net) as [events|message];
      cbn [AlternativeDataService.fetchNASAWildfireData AlternativeDataService.dataSource].
    - change (String.eqb "NASA EONET" "NASA EONET") with true. cbv iota.
      intros H. discriminate H.
    - change (String.eqb "NASA EONET (Mock)" "NASA EONET") with false. cbv iota.
      destruct (Fetchers.hasRealKey (Fetchers.GFW_API_KEY net));
        [destruct (Fetchers.gfw net)|];
        cbn [AlternativeDataService.dataSource AlternativeDataService.alertCount];
        intros H; try discriminate H; rewrite Hz; eauto. }
  destruct Hmock as (z & Hz & Hzr). clear Hcount Hsrc.
  assert (Htruthy : truthy (PNum (Fin (inject_Z z))) = true).
  { cbn [truthy]. destruct (Qeq_bool (inject_Z z) 0) eqn:E; [|reflexivity].
    apply Qeq_bool_iff in E. exfalso. q_lia. }
  split.
  - unfold generateRuleBasedDiagnosis.
    change (String.eqb "Lungs" "Lungs") with true. cbv iota.
    destruct (toLocaleString_or_else host (getPrim metrics "alertCount") (Fin 0)) as [n ->].
    destruct (localeOrNA_returns host (getPrim metrics "totalAreaHa")) as [area ->].
    rewrite Hz. unfold or_else. rewrite Htruthy.
    unfold js_gt. cbn [ToNumber num_lt bind].
    destruct (Qlt_bool 1000 (inject_Z z)); [eexists; split; reflexivity|].
    destruct (Qlt_bool 500 (inject_Z z)); [eexists; split; reflexivity|].
    assert (H200 : Qlt_bool 200 (inject_Z z) = true) by (apply Qlt_bool_iff; q_lia).
    rewrite H200. eexists; split; reflexivity.
  - unfold computeHealthScore. rewrite Ht, Hz, Htruthy.
    change (String.eqb "Lungs" "Lungs") with true. cbn [andb ToNumber].
    unfold num_div. change (Qeq_bool 10 0) with false. cbv iota.
    cbn [num_sub num_add num_neg]. unfold Math_max, num_lt.
    change (inject_Z z / 10)%Q with (inject_Z z * (1 # 10))%Q.
    destruct (Qlt_bool 0 (100 + - (inject_Z z * (1 # 10)))) eqn:Hpos;
      [apply Qlt_bool_iff in Hpos | apply Qlt_bool_false in Hpos].
    + eexists. split; [reflexivity|]. split; q_lia.
    + exists 0%Q. split; [reflexivity|]. split; q_lia.
Qed.
End Deforestation.

Lemma deforestation_sources_witness :
  let d := Fetchers.fetchDeforestationData forestDown "Amazon" in
  AlternativeDataService.error d = None
  /\ AlternativeDataService.region d = "Amazon"
  /\ (AlternativeDataService.dataSource d = "NASA EONET"
      \/ AlternativeDataService.dataSource d = "Global Forest Watch"
      \/ AlternativeDataService.dataSource d = "Mock Data (Realistic)")
  /\ (forall events, Fetchers.nasa forestDown = AlternativeDataService.NasaEvents events ->
        AlternativeDataService.dataSource d = "NASA EONET"
        /\ exists k : nat,
             AlternativeDataService.alertCount d = Fin (inject_Z (Z.of_nat k))
             /\ (k <= length events)%nat
             /\ k = length (filter
                             (fun e => AlternativeDataService.inRegion
                                         (AlternativeDataService.getRegionCoordinates "Amazon") e
                                       = true) events))
  /\ (AlternativeDataService.dataSource d = "Global Forest Watch" ->
      Fetchers.hasRealKey (Fetchers.GFW_API_KEY forestDown) = true
      /\ exists message,
           Fetchers.nasa forestDown = AlternativeDataService.NasaFailed message)
  /\ (AlternativeDataService.dataSource d = "Mock Data (Realistic)" ->
      exists z : Z,
        AlternativeDataService.alertCount d = Fin (inject_Z z)
        /\ 500 <= z <= 1499
        /\ AlternativeDataService.totalAreaHa d = Fin (inject_Z (z * 5))).
Proof.
  apply (deforestation_sources forestDown "Amazon").
  split; vm_compute; [discriminate|reflexivity].
Defined.

Lemma mock_deforestation_diagnosis_witness :
  (exists d,
     generateRuleBasedDiagnosis RefHost.host (lungsMetrics 750) "Lungs"
       "2026-01-15T10:00:01.000Z" = Return d
     /\ getProp d "status" = VStr "INFLAMED")
  /\ (exists x,
        computeHealthScore RefHost.host forestOrgan (lungsMetrics 750) = Fin x
        /\ (0 <= x)%Q /\ (x <= 50)%Q).
Proof.
  apply (mock_deforestation_diagnosis RefHost.host forestDown "Amazon" forestOrgan
           (lungsMetrics 750) "2026-01-15T10:00:01.000Z").
  - split; vm_compute; [discriminate|reflexivity].
  - reflexivity.
  - reflexivity.
  - reflexivity.
Defined.

Example deforestation_samples :
  Fetchers.fetchDeforestationData forestDown "Amazon"
  = {| AlternativeDataService.alertCount := Fin 750;
       AlternativeDataService.totalAreaHa := Fin 3750;
       AlternativeDataService.region := "Amazon";
       AlternativeDataService.dataSource := "Mock Data (Realistic)";
       AlternativeDataService.timestamp := "2026-01-15T10:00:00.000Z";
       AlternativeDataService.events := None;
       AlternativeDataService.error := None |}
  /\ Fetchers.fetchDeforestationData forestAnswered "Amazon"
     = {| AlternativeDataService.alertCount := Fin 2;
          AlternativeDataService.totalAreaHa := Fin 801;
          AlternativeDataService.region := "Amazon";
          AlternativeDataService.dataSource := "NASA EONET";
          AlternativeDataService.timestamp := "2026-01-15T10:00:00.000Z";
          AlternativeDataService.events :=
            Some [{| AlternativeDataService.summary_title := PStr "Wildfire in Para";
                     AlternativeDataService.summary_date := PStr "2026-01-10T00:00:00Z";
                     AlternativeDataService.summary_coordinates := Some (-52, -3)%Q |};
                  {| AlternativeDataService.summary_title := PStr "Wildfire in Acre";
                     AlternativeDataService.summary_date := PStr "2026-01-10T00:00:00Z";
                     AlternativeDataService.summary_coordinates := Some (-70, -9)%Q |}];
          AlternativeDataService.error := None |}
  /\ AlternativeDataService.alertCount (Fetchers.fetchDeforestationData forestAnswered "Congo")
     = Fin 1
  /\ AlternativeDataService.alertCount
       (Fetchers.fetchDeforestationData forestAnswered "Borneo") = Fin 2
  /\ AlternativeDataService.alertCount
       (Fetchers.fetchDeforestationData forestAnswered "valueOf") = Fin 0.
Proof. repeat split; vm_compute; reflexivity. Qed.

(** ** The air quality sources *)

Lemma truthy_or_else (p : prim) (q : Q) :
  ~ (q == 0)%Q -> truthy (or_else p (PNum (Fin q))) = true.
Proof.
  intros Hq. unfold or_else. destruct (truthy p) eqn:Hp; [exact Hp|].
  cbn [truthy]. destruct (Qeq_bool q 0) eqn:E; [|reflexivity].
  apply Qeq_bool_iff in E. contradiction.
Qed.

(** The readings of a mock: an integer index from [offset] on, and a
    concentration in its interval. *)
Lemma flooredRandom_range (r : Q) (offset : Z) :
  unitInterval r ->
  exists z : Z,
    AlternativeDataService.flooredRandom r 3 (inject_Z offset) = PNum (Fin (inject_Z z))
    /\ offset <= z <= offset + 2.
Proof.
  intros [H0 H1]. unfold AlternativeDataService.flooredRandom.
  cbn [num_mul Math_floor num_add].
  set (f := Qfloor (r * 3)).
  assert (Hf : 0 <= f <= 2).
  { subst f. apply Qfloor_range; destruct r as [rn rd]; q_lia. }
  exists (f + offset). split; [|lia].
  do 2 f_equal. unfold Qplus, inject_Z. cbn [Qnum Qden]. f_equal. lia.
Qed.

Lemma scaledRandom_range (r : Q) (width offset : Z) :
  unitInterval r -> 0 <= width ->
  exists p : Q,
    AlternativeDataService.scaledRandom r (inject_Z width) (inject_Z offset) = PNum (Fin p)
    /\ (inject_Z offset <= p)%Q /\ (p <= inject_Z (offset + width))%Q.
Proof.
  intros [H0 H1] Hw. unfold AlternativeDataService.scaledRandom.
  cbn [num_mul num_add]. eexists. split; [reflexivity|].
  destruct r as [rn rd]. split; q_lia || (unfold Qle, Qlt in *; cbn in *; nia).
Qed.

Section AirQuality.
Variable host : Host.

(** The fields of the service's own mock. *)
Lemma air_mock_values (net : Fetchers.AirNetwork) (city : string) :
  unitInterval (Fetchers.air_random net 4%nat) ->
  unitInterval (Fetchers.air_random net 5%nat) ->
  getPrim (Fetchers.fetchAirQualityData net city) "dataSource"
  = PStr "Mock Data (Realistic)" ->
  exists (z : Z) (p : Q),
    getPrim (Fetchers.fetchAirQualityData net city) "aqi" = PNum (Fin (inject_Z z))
    /\ 3 <= z <= 5
    /\ getPrim (Fetchers.fetchAirQualityData net city) "pm25" = PNum (Fin p)
    /\ (25 <= p)%Q /\ (p <= 75)%Q.
Proof.
  intros H4 H5. unfold Fetchers.fetchAirQualityData.
  destruct (flooredRandom_range _ 3 H4) as (z & Hz & Hzr).
  destruct (scaledRandom_range _ 50 25 H5 ltac:(lia)) as (p & Hp & Hp0 & Hp1).
  change (inject_Z 3) with 3%Q in Hz. change (inject_Z 50) with 50%Q in Hp.
  change (inject_Z 25) with 25%Q in Hp, Hp0. change (inject_Z (25 + 50)) with 75%Q in Hp1.
  destruct (Fetchers.openWeather net) as [a b c d|message].
  { intros H. discriminate H. }
  destruct (strictEquals _ "Open-Meteo") eqn:Hs.
  { intros H. rewrite H in Hs. discriminate Hs. }
  intros _. exists z, p.
  change (getPrim _ "aqi")
    with (AlternativeDataService.flooredRandom (Fetchers.air_random net 4%nat) 3 3).
  change (getPrim _ "pm25")
    with (AlternativeDataService.scaledRandom (Fetchers.air_random net 5%nat) 50 25).
  rewrite Hz, Hp. repeat split; auto; lia.
Qed.

(** X19.  Where the air quality data of the service come from, and what
    they always hold.  The snapshot is OpenWeather's whenever its two
    requests are answered; failing that Open-Meteo's when it has current
    readings; failing that the service's own mock (the mock that the
    Open-Meteo adapter built is discarded), whose aqi is 3, 4 or 5 and
    whose pm25 lies between 25 and 75.  Whatever the source, aqi is never
    missing, zero or empty, and location is the city asked for. *)
Theorem air_quality_sources (net : Fetchers.AirNetwork) (city : string) :
  unitInterval (Fetchers.air_random net 4%nat) ->
  unitInterval (Fetchers.air_random net 5%nat) ->
  let m := Fetchers.fetchAirQualityData net city in
  truthy (getPrim m "aqi") = true
  /\ getPrim m "location" = PStr city
  /\ (getPrim m "dataSource" = PStr "OpenWeather"
      \/ getPrim m "dataSource" = PStr "Open-Meteo"
      \/ getPrim m "dataSource" = PStr "Mock Data (Realistic)")
  /\ (getPrim m "dataSource" = PStr "OpenWeather"
      <-> exists aqi pm2_5 pm10 no2,
            Fetchers.openWeather net = Fetchers.OpenWeatherEntry aqi pm2_5 pm10 no2)
  /\ (getPrim m "dataSource" = PStr "Open-Meteo"
      <-> (exists message, Fetchers.openWeather net = Fetchers.OpenWeatherFailed message)
          /\ exists us_aqi pm2_5 pm10 no2 co,
               Fetchers.openMeteo net
               = AlternativeDataService.MeteoCurrent us_aqi pm2_5 pm10 no2 co)
  /\ (getPrim m "dataSource" = PStr "Mock Data (Realistic)" ->
      exists (z : Z) (p : Q),
        getPrim m "aqi" = PNum (Fin (inject_Z z)) /\ 3 <= z <= 5
        /\ getPrim m "pm25" = PNum (Fin p) /\ (25 <= p)%Q /\ (p <= 75)%Q).
Proof.
  intros H4 H5 m.
  split; [|split; [|split; [|split; [|split]]]];
    try exact (air_mock_values net city H4 H5).
  all: subst m; unfold Fetchers.fetchAirQualityData.
  all: destruct (Fetchers.openWeather net) as [a b c d|message];
    [|destruct (Fetchers.openMeteo net) as [ua pa pb nd co| |message'];
      cbn [AlternativeDataService.fetchOpenMeteoAirQuality]].
  - apply truthy_or_else. intros H. discriminate H.
  - apply truthy_or_else. intros H. discriminate H.
  - destruct (flooredRandom_range _ 3 H4) as (z & Hz & Hzr).
    change (inject_Z 3) with 3%Q in Hz.
    change (truthy (AlternativeDataService.flooredRandom (Fetchers.air_random net 4%nat) 3 3)
            = true).
    rewrite Hz. cbn [truthy]. destruct (Qeq_bool (inject_Z z) 0) eqn:E; [|reflexivity].
    apply Qeq_bool_iff in E. exfalso. q_lia.
  - destruct (flooredRandom_range _ 3 H4) as (z & Hz & Hzr).
    change (inject_Z 3) with 3%Q in Hz.
    change (truthy (AlternativeDataService.flooredRandom (Fetchers.air_random net 4%nat) 3 3)
            = true).
    rewrite Hz. cbn [truthy]. destruct (Qeq_bool (inject_Z z) 0) eqn:E; [|reflexivity].
    apply Qeq_bool_iff in E. exfalso. q_lia.
  - reflexivity.
  - reflexivity.
  - reflexivity.
  - reflexivity.
  - left. reflexivity.
  - right. left. reflexivity.
  - right. right. reflexivity.
  - right. right. reflexivity.
  - split; [eauto|reflexivity].
  - split; [intros H; discriminate H|intros (? & ? & ? & ? & H); discriminate H].
  - split; [intros H; discriminate H|intros (? & ? & ? & ? & H); discriminate H].
  - split; [intros H; discriminate H|intros (? & ? & ? & ? & H); discriminate H].
  - split; [intros H; discriminate H|intros [[? H] _]; discriminate H].
  - split; [intros _; split; eauto 10|reflexivity].
  - split; [intros H; discriminate H|intros [_ (? & ? & ? & ? & ? & H)]; discriminate H].
  - split; [intros H; discriminate H|intros [_ (? & ? & ? & ? & ? & H)]; discriminate H].
Qed.

(** X20.  A Skin scan made while both air sources are down, so that the
    service falls back on its mock: the scan returns, and its health score
    is 55, 40 or 25, never the stored one. *)
Theorem skin_scan_on_mock_data
    (s : State) (organ : Organ) (sw : ScanWorld) (net : Fetchers.AirNetwork) :
  type organ = "Skin" ->
  (forall city, fetchAirQualityData sw city = Fetchers.fetchAirQualityData net city) ->
  unitInterval (Fetchers.air_random net 4%nat) ->
  unitInterval (Fetchers.air_random net 5%nat) ->
  getPrim (Fetchers.fetchAirQualityData net
             (if includes (name organ) "Lagos" then "Lagos" else "Delhi")) "dataSource"
  = PStr "Mock Data (Realistic)" ->
  exists res s',
    performDiagnosticScan host s organ sw = (Return res, s')
    /\ (scan_healthScore res = Fin (inject_Z 55)
        \/ scan_healthScore res = Fin (inject_Z 40)
        \/ scan_healthScore res = Fin (inject_Z 25)).
Proof.
  intros Ht Hfetch H4 H5 Hsrc.
  set (city := if includes (name organ) "Lagos" then "Lagos" else "Delhi") in *.
  destruct (air_mock_values net city H4 H5 Hsrc) as (z & p & Hz & Hzr & Hp & _).
  rewrite <- Hfetch in Hz, Hp.
  set (metrics := fetchAirQualityData sw city) in *.
  assert (Hm : fetchMetrics organ sw = Some metrics).
  { unfold fetchMetrics. rewrite Ht. reflexivity. }
  assert (Hready : ruleBasedReady metrics (type organ) = true).
  { rewrite Ht. unfold ruleBasedReady.
    change (String.eqb "Skin" "Lungs") with false.
    change (String.eqb "Skin" "Veins") with false.
    change (String.eqb "Skin" "Skin") with true. cbv iota.
    rewrite Hp. unfold or_else. destruct (truthy (PNum (Fin p))); reflexivity. }
  destruct (scan_returns host s organ sw metrics Hm Hready)
    as (res & s' & Hscan & _ & Hscore).
  exists res, s'. split; [exact Hscan|]. rewrite Hscore. clear Hscan Hscore.
  unfold computeHealthScore. rewrite Ht, Hz.
  change (String.eqb "Skin" "Lungs") with false.
  change (String.eqb "Skin" "Veins") with false.
  change (String.eqb "Skin" "Skin") with true.
  assert (Hcases : z = 3 \/ z = 4 \/ z = 5) by lia.
  destruct Hcases as [-> | [-> | ->]]; [left|right; left|right; right];
    vm_compute; reflexivity.
Qed.
End AirQuality.

Lemma air_quality_sources_witness :
  let m := Fetchers.fetchAirQualityData airDown "Lagos" in
  truthy (getPrim m "aqi") = true
  /\ getPrim m "location" = PStr "Lagos"
  /\ (getPrim m "dataSource" = PStr "OpenWeather"
      \/ getPrim m "dataSource" = PStr "Open-Meteo"
      \/ getPrim m "dataSource" = PStr "Mock Data (Realistic)")
  /\ (getPrim m "dataSource" = PStr "OpenWeather"
      <-> exists aqi pm2_5 pm10 no2,
            Fetchers.openWeather airDown = Fetchers.OpenWeatherEntry aqi pm2_5 pm10 no2)
  /\ (getPrim m "dataSource" = PStr "Open-Meteo"
      <-> (exists message, Fetchers.openWeather airDown = Fetchers.OpenWeatherFailed message)
          /\ exists us_aqi pm2_5 pm10 no2 co,
               Fetchers.openMeteo airDown
               = AlternativeDataService.MeteoCurrent us_aqi pm2_5 pm10 no2 co)
  /\ (getPrim m "dataSource" = PStr "Mock Data (Realistic)" ->
      exists (z : Z) (p : Q),
        getPrim m "aqi" = PNum (Fin (inject_Z z)) /\ 3 <= z <= 5
        /\ getPrim m "pm25" = PNum (Fin p) /\ (25 <= p)%Q /\ (p <= 75)%Q).
Proof.
  apply (air_quality_sources airDown "Lagos");
    split; vm_compute; (discriminate || reflexivity).
Defined.

Lemma skin_scan_on_mock_data_witness :
  exists res s',
    performDiagnosticScan RefHost.host (constructor thursday) cityOrgan
      (airScanWorld airDown (failingWorld tenOClock))
    = (Return res, s')
    /\ (scan_healthScore res = Fin (inject_Z 55)
        \/ scan_healthScore res = Fin (inject_Z 40)
        \/ scan_healthScore res = Fin (inject_Z 25)).
Proof.
  apply (skin_scan_on_mock_data RefHost.host (constructor thursday) cityOrgan
           (airScanWorld airDown (failingWorld tenOClock)) airDown).
  - reflexivity.
  - intros city. reflexivity.
  - split; vm_compute; [discriminate|reflexivity].
  - split; vm_compute; [discriminate|reflexivity].
  - reflexivity.
Defined.

Example air_samples :
  Fetchers.fetchAirQualityData airDown "Lagos"
  = [("aqi", PNum (Fin 3)); ("pm25", PNum (Fin (150 # 4))); ("pm10", PNum (Fin (240 # 4)));
     ("no2", PNum (Fin (120 # 4))); ("location", PStr "Lagos");
     ("dataSource", PStr "Mock Data (Realistic)");
     ("timestamp", PStr "2026-01-15T10:00:00.000Z");
     ("error", PStr "Request failed with status code 401")]
  /\ scanScore (performDiagnosticScan RefHost.host (constructor thursday) cityOrgan
                  (airScanWorld airDown (failingWorld tenOClock)))
     = Some (Fin 55).
Proof. split; vm_compute; reflexivity. Qed.

(** * Properties of the sweep over all organs *)

Section SweepProperties.
Variable host : Host.

(** A scan of a Lungs organ returns. *)
Lemma lungs_scan_returns (s : State) (o : Organ) (sw : ScanWorld) :
  type o = "Lungs" ->
  exists res s', performDiagnosticScan host s o sw = (Return res, s').
Proof.
  intros Ht.
  destruct (scan_returns host s o sw
              (fetchDeforestationData sw (if includes (name o) "Amazon"
                                          then "Amazon" else "Congo")))
    as (res & s' & H & _).
  - unfold fetchMetrics. rewrite Ht. reflexivity.
  - rewrite Ht. reflexivity.
  - eauto.
Qed.

(** A scan of an organ of no known type throws before it fetches or
    diagnoses anything. *)
Lemma unknown_type_scan_throws (s : State) (o : Organ) (sw : ScanWorld) :
  type o <> "Lungs" -> type o <> "Veins" -> type o <> "Skin" ->
  performDiagnosticScan host s o sw = (Throw, s).
Proof.
  intros HL HV HS. unfold performDiagnosticScan, fetchMetrics.
  destruct (String.eqb_spec (type o) "Lungs"); [contradiction|].
  destruct (String.eqb_spec (type o) "Veins"); [contradiction|].
  destruct (String.eqb_spec (type o) "Skin"); [contradiction|]. reflexivity.
Qed.

Lemma diagnoseEach_entries (w : SweepWorld) (s : State) (i : nat) (organs : list Document) :
  let results := fst (fst (diagnoseEach host w s i organs)) in
  map organId results = map _id organs
  /\ map organName results = map (fun doc => name (organ doc)) organs
  /\ (length (snd (diagnoseEach host w s i organs)) <= length organs)%nat
  /\ Forall2 (fun doc entry =>
                (type (organ doc) <> "Lungs" -> type (organ doc) <> "Veins" ->
                 type (organ doc) <> "Skin" ->
                 entry = Errored (_id doc) (name (organ doc)))
                /\ (type (organ doc) = "Lungs" -> (forall d, save w d = true) ->
                    exists text, entry = Diagnosed (_id doc) (name (organ doc)) text))
             organs results.
Proof.
  revert s i. induction organs as [|doc rest IH]; intros s i; cbn [diagnoseEach].
  - cbn. repeat split; auto.
  - destruct (diagnoseOne host w s i doc) as [[entry s1] saved] eqn:Hone.
    specialize (IH s1 (S i)).
    destruct (diagnoseEach host w s1 (S i) rest) as [[results s2] savedRest].
    cbn [fst snd map length] in IH |- *.
    destruct IH as (Hid & Hname & Hsaved & Hall).
    assert (Hentry : organId entry = _id doc /\ organName entry = name (organ doc)
                     /\ (type (organ doc) <> "Lungs" -> type (organ doc) <> "Veins" ->
                         type (organ doc) <> "Skin" ->
                         entry = Errored (_id doc) (name (organ doc)))
                     /\ (type (organ doc) = "Lungs" -> (forall d, save w d = true) ->
                         exists text, entry = Diagnosed (_id doc) (name (organ doc)) text)).
    { unfold diagnoseOne in Hone. split; [|split; [|split]].
      - destruct (performDiagnosticScan host s (organ doc) (scanWorldAt w i)) as [[res|] s'];
          [destruct (save w _)|]; injection Hone as <- _ _; reflexivity.
      - destruct (performDiagnosticScan host s (organ doc) (scanWorldAt w i)) as [[res|] s'];
          [destruct (save w _)|]; injection Hone as <- _ _; reflexivity.
      - intros HL HV HS.
        rewrite (unknown_type_scan_throws s (organ doc) (scanWorldAt w i) HL HV HS) in Hone.
        injection Hone as <- _ _. reflexivity.
      - intros HL Hsave.
        destruct (lungs_scan_returns s (organ doc) (scanWorldAt w i) HL) as (res & s' & Hscan).
        rewrite Hscan, Hsave in Hone. injection Hone as <- _ _. eauto. }
    destruct Hentry as (Hi & Hn & Hunknown & Hlungs).
    split; [congruence|]. split; [congruence|].
    split; [destruct saved; cbn [length]; lia|].
    constructor; [split; assumption|exact Hall].
Qed.

(** X21.  When Organ.find answers, the sweep answers 200 with one entry
    for every organ, in the order of the documents and under their ids and
    names, whichever scans or saves fail on the way: an organ of no known
    type gets an error entry and the loop goes on, and a Lungs organ is
    diagnosed whenever the data base accepts the document. *)
Theorem sweep_answers_for_every_organ (w : SweepWorld) (s : State) (organs : list Document) :
  find w = Some organs ->
  exists message results s' saved,
    diagnoseAllOrgans host w s = (Success 200 (message, results), s', saved)
    /\ map organId results = map _id organs
    /\ map organName results = map (fun doc => name (organ doc)) organs
    /\ (length saved <= length organs)%nat
    /\ Forall2 (fun doc entry =>
                  (type (organ doc) <> "Lungs" -> type (organ doc) <> "Veins" ->
                   type (organ doc) <> "Skin" ->
                   entry = Errored (_id doc) (name (organ doc)))
                  /\ (type (organ doc) = "Lungs" -> (forall d, save w d = true) ->
                      exists text, entry = Diagnosed (_id doc) (name (organ doc)) text))
               organs results.
Proof.
  intros Hfind. unfold diagnoseAllOrgans. rewrite Hfind.
  pose proof (diagnoseEach_entries w s 0 organs) as H.
  destruct (diagnoseEach host w s 0 organs) as [[results s'] saved].
  cbn [fst snd] in H. eexists _, results, s', saved. split; [reflexivity|exact H].
Qed.



End SweepProperties.

Lemma sweep_answers_for_every_organ_witness :
  exists message results s' saved,
    diagnoseAllOrgans RefHost.host sampleSweep (constructor thursday)
    = (Success 200 (message, results), s', saved)
    /\ map organId results = map _id sampleOrgans
    /\ map organName results = map (fun doc => name (organ doc)) sampleOrgans
    /\ (length saved <= length sampleOrgans)%nat
    /\ Forall2 (fun doc entry =>
                  (type (organ doc) <> "Lungs" -> type (organ doc) <> "Veins" ->
                   type (organ doc) <> "Skin" ->
                   entry = Errored (_id doc) (name (organ doc)))
                  /\ (type (organ doc) = "Lungs" -> (forall d, save sampleSweep d = true) ->
                      exists text, entry = Diagnosed (_id doc) (name (organ doc)) text))
               sampleOrgans results.
Proof.
  apply (sweep_answers_for_every_organ RefHost.host sampleSweep (constructor thursday)
           sampleOrgans).
  reflexivity.
Defined.


Example sample_sweep_results :
  fst (fst (diagnoseAllOrgans RefHost.host sampleSweep (constructor thursday)))
  = Success 200
      ("Diagnostic scan completed for 3 organs",
       [Diagnosed "65a4f0c2e1" "Amazon Rainforest"
          (VStr "Tissue regeneration observed. Respiratory function stable.");
        Errored "65a4f0c2e2" "Arctic Ice";
        Diagnosed "65a4f0c2e3" "Great Barrier Reef Veins"
          (VStr "ACUTE ACIDIFICATION: pH level 7.925 detected in Great Barrier Reef. Circulatory system under significant stress. HIGH acidification level compromising vascular health. Immediate buffering intervention needed.")])
  /\ dailyCallCount (snd (fst (diagnoseAllOrgans RefHost.host sampleSweep
                                 (constructor thursday)))) = 1
  /\ map (fun d => (symptomState d, healthScore (organ d)))
         (snd (diagnoseAllOrgans RefHost.host sampleSweep (constructor thursday)))
     = [(VStr "HEALTHY", Fin 0); (VStr "INFLAMED", Fin 85)].
Proof. repeat split; vm_compute; reflexivity. Qed.

(** * Properties of the donations *)

Lemma validSignature_no_hash (w : WebhookWorld) (req : WebhookRequest) :
  FLUTTERWAVE_WEBHOOK_HASH w = None -> validSignature w req = false.
Proof. intros H. unfold validSignature. rewrite H. destruct (verif_hash req); reflexivity. Qed.

(** X23.  A webhook is answered 401 exactly when the verif-hash header is
    missing, empty or different from the configured hash, hence always
    when no hash is configured; and every answer other than the 500 and
    the final success (401, 404, Payment not successful, Already
    processed) leaves the data base as it was. *)
Theorem webhook_refusals_change_nothing
    (w : WebhookWorld) (req : WebhookRequest) (db db' : DataBase) (c : Z) (m : string) :
  handleWebhook w req db = (c, m, db') ->
  (c = 401 <-> validSignature w req = false)
  /\ (FLUTTERWAVE_WEBHOOK_HASH w = None -> c = 401)
  /\ (c <> 500 -> m <> "Webhook processed successfully" -> db' = db).
Proof.
  intros H. unfold handleWebhook in H.
  pose proof (validSignature_no_hash w req) as Hnone.
  destruct (validSignature w req) eqn:Hsig; cbn [negb] in H.
  2:{ injection H as <- <- <-. repeat split; auto. }
  assert (Hc : c <> 401 /\ (c <> 500 -> m <> "Webhook processed successfully" -> db' = db)).
  { destruct (negb (strictEquals _ "successful"));
      [injection H as <- <- <-; split; [discriminate|auto]|].
    destruct (dbThrows w 0%nat); [injection H as <- <- <-; split; [discriminate|auto]|].
    destruct (findOne w db _) as [[key vial]|];
      [|injection H as <- <- <-; split; [discriminate|auto]].
    destruct (String.eqb (vial_status vial) "SUCCESS");
      [injection H as <- <- <-; split; [discriminate|auto]|].
    destruct (dbThrows w 1%nat); [injection H as <- <- <-; split; [discriminate|auto]|].
    destruct (dbThrows w 2%nat);
      [injection H as <- <- <-; split; [discriminate|intros Hc; contradiction]|].
    destruct (_ !! vial_organId vial);
      [destruct (dbThrows w 3%nat)|]; injection H as <- <- <-;
      (split; [discriminate|intros; contradiction]). }
  destruct Hc as [Hc Hdb]. split; [split; [contradiction|discriminate]|].
  split; [|exact Hdb].
  intros Hn. specialize (Hnone Hn). discriminate Hnone.
Qed.

(** What the call did when it answers that the webhook was processed. *)
Lemma handleWebhook_processed (w : WebhookWorld) (req : WebhookRequest) (db db1 : DataBase) :
  handleWebhook w req db = (200, "Webhook processed successfully", db1) ->
  strictEquals (payload_status (body req)) "successful" = true
  /\ exists key vial,
       findOne w db (firstTruthy (tx_ref (body req)) (txRef (body req))) = Some (key, vial)
       /\ vialCollection db1
          = <[key := processed vial (body req) (webhook_now w)]> (vialCollection db).
Proof.
  unfold handleWebhook. intros H.
  destruct (negb (validSignature w req)); [discriminate H|].
  destruct (strictEquals _ "successful"); cbn [negb] in H; [|discriminate H].
  split; [reflexivity|].
  destruct (dbThrows w 0%nat); [discriminate H|].
  destruct (findOne w db _) as [[key vial]|]; [|discriminate H].
  destruct (String.eqb (vial_status vial) "SUCCESS"); [discriminate H|].
  destruct (dbThrows w 1%nat); [discriminate H|].
  destruct (dbThrows w 2%nat); [discriminate H|].
  exists key, vial. split; [reflexivity|].
  destruct (_ !! vial_organId vial); [destruct (dbThrows w 3%nat); [discriminate H|]|];
    injection H as <-; reflexivity.
Qed.

Lemma findOne_reference (w : WebhookWorld) (db : DataBase) (reference key : string) vial :
  findOne w db (Some reference) = Some (key, vial) ->
  key = reference /\ vialCollection db !! reference = Some vial.
Proof.
  unfold findOne. destruct (vialCollection db !! reference) eqn:E; [|discriminate].
  intros [= <- <-]. auto.
Qed.

(** A vial that is marked SUCCESS is answered Already processed. *)
Lemma handleWebhook_already (w : WebhookWorld) (req : WebhookRequest) (db : DataBase)
    (reference : string) (vial : Vial) :
  validSignature w req = true ->
  strictEquals (payload_status (body req)) "successful" = true ->
  firstTruthy (tx_ref (body req)) (txRef (body req)) = Some reference ->
  vialCollection db !! reference = Some vial ->
  vial_status vial = "SUCCESS" ->
  handleWebhook w req db
  = if dbThrows w 0%nat then (500, "Webhook processing failed", db)
    else (200, "Already processed", db).
Proof.
  intros Hsig Hst Href Hv Hs. unfold handleWebhook.
  rewrite Hsig, Hst, Href. cbn [negb].
  destruct (dbThrows w 0%nat); [reflexivity|].
  unfold findOne. rewrite Hv, Hs. reflexivity.
Qed.

(** X24.  A webhook is processed once: after the call that answered
    Webhook processed successfully, a second delivery of the same
    request, which names its transaction, is answered Already processed
    and changes nothing, so the amount is not credited twice. *)
Theorem webhook_is_processed_once
    (w w' : WebhookWorld) (req : WebhookRequest) (db db1 : DataBase) (reference : string) :
  handleWebhook w req db = (200, "Webhook processed successfully", db1) ->
  firstTruthy (tx_ref (body req)) (txRef (body req)) = Some reference ->
  validSignature w' req = true ->
  dbThrows w' 0%nat = false ->
  handleWebhook w' req db1 = (200, "Already processed", db1).
Proof.
  intros H Href Hsig Hdb.
  apply handleWebhook_processed in H as (Hst & key & vial & Hfind & Hv).
  rewrite Href in Hfind. apply findOne_reference in Hfind as [-> _].
  rewrite (handleWebhook_already w' req db1 reference
             (processed vial (body req) (webhook_now w)) Hsig Hst Href), Hdb;
    [reflexivity| |reflexivity].
  rewrite Hv. apply lookup_insert_eq.
Qed.

(** X25.  When the save of the organ throws after the vial has been
    saved, the answer is 500, the vial stays marked SUCCESS and the organ
    keeps the funding it had; every later delivery of the webhook finds
    the vial processed and leaves the data base as it is, so the amount
    is never credited. *)
Theorem failed_credit_is_lost
    (w : WebhookWorld) (req : WebhookRequest) (db : DataBase) (reference : string)
    (vial : Vial) (doc : Document) :
  validSignature w req = true ->
  strictEquals (payload_status (body req)) "successful" = true ->
  firstTruthy (tx_ref (body req)) (txRef (body req)) = Some reference ->
  vialCollection db !! reference = Some vial ->
  vial_status vial <> "SUCCESS" ->
  organCollection db !! vial_organId vial = Some doc ->
  dbThrows w 0%nat = false -> dbThrows w 1%nat = false -> dbThrows w 2%nat = false ->
  dbThrows w 3%nat = true ->
  exists db1,
    handleWebhook w req db = (500, "Webhook processing failed", db1)
    /\ organCollection db1 = organCollection db
    /\ vialStatus db1 reference = Some "SUCCESS"
    /\ forall w', validSignature w' req = true ->
         exists c m, handleWebhook w' req db1 = (c, m, db1).
Proof.
  intros Hsig Hst Href Hv Hs Hdoc H0 H1 H2 H3.
  unfold handleWebhook at 1. rewrite Hsig, Hst, Href, H0. cbn [negb].
  unfold findOne. rewrite Hv.
  destruct (String.eqb_spec (vial_status vial) "SUCCESS") as [|_]; [contradiction|].
  rewrite H1, H2. cbn [organCollection]. rewrite Hdoc, H3.
  set (db1 := {| vialCollection :=
                   <[reference := processed vial (body req) (webhook_now w)]>
                     (vialCollection db);
                 organCollection := organCollection db |}).
  exists db1. split; [reflexivity|]. split; [reflexivity|].
  assert (Hnew : vialCollection db1 !! reference
                 = Some (processed vial (body req) (webhook_now w)))
    by apply lookup_insert_eq.
  split.
  - unfold vialStatus. rewrite Hnew. reflexivity.
  - intros w' Hsig'.
    rewrite (handleWebhook_already w' req db1 reference
               (processed vial (body req) (webhook_now w)) Hsig' Hst Href Hnew eq_refl).
    destruct (dbThrows w' 0%nat); eauto.
Qed.

(** The credit of lines 122-137 in the arithmetic of the embedding, on
    exact rationals. *)
Lemma handleWebhook_credit
    (w : WebhookWorld) (req : WebhookRequest) (db : DataBase) (reference : string)
    (vial : Vial) (doc : Document) (a f t : Q) :
  validSignature w req = true ->
  strictEquals (payload_status (body req)) "successful" = true ->
  firstTruthy (tx_ref (body req)) (txRef (body req)) = Some reference ->
  vialCollection db !! reference = Some vial ->
  vial_status vial <> "SUCCESS" ->
  organCollection db !! vial_organId vial = Some doc ->
  (forall n, dbThrows w n = false) ->
  amountUSD vial = Fin a -> currentFundingUSD doc = Fin f -> targetFundingUSD doc = Fin t ->
  exists db' doc',
    handleWebhook w req db = (200, "Webhook processed successfully", db')
    /\ organCollection db' !! vial_organId vial = Some doc'
    /\ vialStatus db' reference = Some "SUCCESS"
    /\ currentFundingUSD doc' = Fin (f + a)
    /\ (isString (symptomState doc) "INFLAMED" = false ->
        symptomState doc' = symptomState doc)
    /\ ((0 < t)%Q ->
        fundingPercentage doc' = Fin ((f + a) / t * 100)
        /\ (isString (symptomState doc) "INFLAMED" = true ->
            ((t <= 2 * (f + a))%Q -> symptomState doc' = VStr "HEALING")
            /\ ((2 * (f + a) < t)%Q -> symptomState doc' = symptomState doc)))
    /\ ((t == 0)%Q -> (0 < f + a)%Q ->
        fundingPercentage doc' = Fin 0
        /\ (isString (symptomState doc) "INFLAMED" = true ->
            symptomState doc' = VStr "HEALING")).
Proof.
  intros Hsig Hst Href Hv Hs Hdoc Hdb Ha Hf Ht.
  unfold handleWebhook. rewrite Hsig, Hst, Href, !Hdb. cbn [negb].
  unfold findOne. rewrite Hv.
  destruct (String.eqb_spec (vial_status vial) "SUCCESS") as [|_]; [contradiction|].
  cbn [organCollection]. rewrite Hdoc.
  eexists _, _. split; [reflexivity|]. cbn [organCollection vialCollection].
  split; [apply lookup_insert_eq|].
  split; [unfold vialStatus; cbn [vialCollection]; rewrite lookup_insert_eq; reflexivity|].
  unfold credited, fundingPercentage.
  cbn [currentFundingUSD symptomState targetFundingUSD]. rewrite Ha, Hf, Ht.
  cbn [num_add]. split; [reflexivity|].
  split; [intros Hi; rewrite Hi, andb_false_r; reflexivity|].
  split.
  - intros Hpos.
    assert (Hnz : Qeq_bool t 0 = false).
    { destruct (Qeq_bool t 0) eqn:E; [|reflexivity].
      apply Qeq_bool_iff in E. rewrite E in Hpos. discriminate Hpos. }
    unfold num_div. rewrite Hnz. cbn [num_mul]. split; [reflexivity|].
    intros Hi. rewrite Hi, andb_true_r. unfold num_ge, num_lt.
    assert (Hhalf : (((f + a) / t * 100 < 50) <-> (2 * (f + a) < t))%Q).
    { clear -Hpos. destruct f as [fn fd], a as [an ad], t as [tn td].
      destruct tn as [|tp|tp]; try discriminate Hpos.
      unfold Qdiv, Qinv, Qlt, Qmult, Qplus. cbn [Qnum Qden].
      rewrite !Pos2Z.inj_mul.
      set (x := (fn * Z.pos ad + an * Z.pos fd)%Z).
      replace (x * Z.pos td * 100 * 1)%Z with (100 * (x * Z.pos td))%Z by ring.
      replace (50 * (Z.pos fd * Z.pos ad * Z.pos tp * 1))%Z
        with (50 * (Z.pos tp * (Z.pos fd * Z.pos ad)))%Z by ring.
      replace (2 * x * Z.pos td)%Z with (2 * (x * Z.pos td))%Z by ring.
      replace (Z.pos tp * (1 * (Z.pos fd * Z.pos ad)))%Z
        with (Z.pos tp * (Z.pos fd * Z.pos ad))%Z by ring.
      generalize (x * Z.pos td)%Z (Z.pos tp * (Z.pos fd * Z.pos ad))%Z.
      intros p q. lia. }
    destruct (Qlt_bool ((f + a) / t * 100) 50) eqn:E;
      [apply Qlt_bool_iff in E | apply Qlt_bool_false in E].
    + apply Hhalf in E. split; [intros Hle; exfalso|reflexivity].
      exact (Qlt_not_le _ _ E Hle).
    + split; [reflexivity|]. intros Hlt. apply Hhalf in Hlt.
      exfalso. exact (Qlt_not_le _ _ Hlt E).
  - intros Hzero Hpos.
    assert (Hz : Qeq_bool t 0 = true) by (apply Qeq_bool_iff; exact Hzero).
    rewrite Hz. split; [reflexivity|].
    intros Hi. rewrite Hi, andb_true_r. unfold num_div. rewrite Hz.
    assert (Hsgn : Qsign (f + a) = 1).
    { unfold Qsign. apply Z.sgn_pos. clear -Hpos.
      destruct f as [fn fd], a as [an ad]. unfold Qlt, Qplus in *.
      cbn [Qnum Qden] in *. lia. }
    rewrite Hsgn. reflexivity.
Qed.

(** X26.  What a processed webhook does to the organ of the vial, for
    amounts in whole dollars (up to Number.MAX_SAFE_INTEGER, which the
    additions of the code do not round): the amount is added to
    currentFundingUSD, and with a positive target an INFLAMED organ turns
    HEALING exactly when the funding has reached half of the target; an
    organ in another state keeps it.  With a target of zero any positive
    funding turns the INFLAMED organ HEALING, while the document's
    fundingPercentage is 0. *)
Theorem webhook_credits_the_organ
    (w : WebhookWorld) (req : WebhookRequest) (db : DataBase) (reference : string)
    (vial : Vial) (doc : Document) (a f t : Z) :
  validSignature w req = true ->
  strictEquals (payload_status (body req)) "successful" = true ->
  firstTruthy (tx_ref (body req)) (txRef (body req)) = Some reference ->
  vialCollection db !! reference = Some vial ->
  vial_status vial <> "SUCCESS" ->
  organCollection db !! vial_organId vial = Some doc ->
  (forall n, dbThrows w n = false) ->
  amountUSD vial = ofZ a -> currentFundingUSD doc = ofZ f -> targetFundingUSD doc = ofZ t ->
  0 <= a -> 0 <= f -> f + a <= maxSafeInteger -> 0 <= t <= maxSafeInteger ->
  exists db' doc',
    handleWebhook w req db = (200, "Webhook processed successfully", db')
    /\ organCollection db' !! vial_organId vial = Some doc'
    /\ vialStatus db' reference = Some "SUCCESS"
    /\ wholeNumber (currentFundingUSD doc') (f + a)
    /\ (isString (symptomState doc) "INFLAMED" = false ->
        symptomState doc' = symptomState doc)
    /\ (0 < t -> isString (symptomState doc) "INFLAMED" = true ->
        (t <= 2 * (f + a) -> symptomState doc' = VStr "HEALING")
        /\ (2 * (f + a) < t -> symptomState doc' = symptomState doc))
    /\ (t = 0 -> 0 < f + a ->
        fundingPercentage doc' = Fin 0
        /\ (isString (symptomState doc) "INFLAMED" = true ->
            symptomState doc' = VStr "HEALING")).
Proof.
  intros Hsig Hst Href Hv Hs Hdoc Hdb Ha Hf Ht Ha0 Hf0 Hsum Ht0.
  destruct (handleWebhook_credit w req db reference vial doc
              (inject_Z a) (inject_Z f) (inject_Z t) Hsig Hst Href Hv Hs Hdoc Hdb Ha Hf Ht)
    as (db' & doc' & Hh & Hd & Hvs & Hcur & Hother & Hpos & Hzero).
  exists db', doc'. split; [exact Hh|]. split; [exact Hd|]. split; [exact Hvs|].
  split; [eexists; split; [exact Hcur|]; rewrite inject_Z_plus; apply Qeq_refl|].
  split; [exact Hother|]. split.
  - intros Hp Hi.
    assert (Hq : (0 < inject_Z t)%Q) by (unfold Qlt; cbn; lia).
    destruct (Hpos Hq) as (_ & Hstate). destruct (Hstate Hi) as [Hup Hdown].
    split; intros H; [apply Hup|apply Hdown];
      unfold Qle, Qlt, Qmult, Qplus, inject_Z; cbn [Qnum Qden]; lia.
  - intros Hz Hp. apply Hzero.
    + rewrite Hz. reflexivity.
    + unfold Qlt, Qplus, inject_Z. cbn [Qnum Qden]. lia.
Qed.

Lemma webhook_refusals_change_nothing_witness :
  (401 = 401 <-> validSignature (webhookWorld []) forged = false)
  /\ (FLUTTERWAVE_WEBHOOK_HASH (webhookWorld []) = None -> 401 = 401)
  /\ (401 <> 500 -> "Invalid signature" <> "Webhook processed successfully" ->
      sampleBase = sampleBase).
Proof.
  apply (webhook_refusals_change_nothing (webhookWorld []) forged sampleBase sampleBase
           401 "Invalid signature").
  reflexivity.
Defined.

Lemma webhook_is_processed_once_witness :
  handleWebhook (webhookWorld []) paid afterPayment
  = (200, "Already processed", afterPayment).
Proof.
  apply (webhook_is_processed_once (webhookWorld []) (webhookWorld []) paid sampleBase
           afterPayment "VIAL-65a4f0c2e1-1768471200000").
  - reflexivity.
  - reflexivity.
  - reflexivity.
  - reflexivity.
Defined.

Lemma failed_credit_is_lost_witness :
  exists db1,
    handleWebhook (webhookWorld [3%nat]) paid sampleBase
    = (500, "Webhook processing failed", db1)
    /\ organCollection db1 = organCollection sampleBase
    /\ vialStatus db1 "VIAL-65a4f0c2e1-1768471200000" = Some "SUCCESS"
    /\ forall w', validSignature w' paid = true ->
         exists c m, handleWebhook w' paid db1 = (c, m, db1).
Proof.
  apply (failed_credit_is_lost (webhookWorld [3%nat]) paid sampleBase
           "VIAL-65a4f0c2e1-1768471200000" pledge inflamedForest);
    try reflexivity.
  discriminate.
Defined.

Lemma webhook_credits_the_organ_witness :
  exists db' doc',
    handleWebhook (webhookWorld []) paid sampleBase
    = (200, "Webhook processed successfully", db')
    /\ organCollection db' !! vial_organId pledge = Some doc'
    /\ vialStatus db' "VIAL-65a4f0c2e1-1768471200000" = Some "SUCCESS"
    /\ wholeNumber (currentFundingUSD doc') (0 + 60000)
    /\ (isString (symptomState inflamedForest) "INFLAMED" = false ->
        symptomState doc' = symptomState inflamedForest)
    /\ (0 < 100000 -> isString (symptomState inflamedForest) "INFLAMED" = true ->
        (100000 <= 2 * (0 + 60000) -> symptomState doc' = VStr "HEALING")
        /\ (2 * (0 + 60000) < 100000 -> symptomState doc' = symptomState inflamedForest))
    /\ (100000 = 0 -> 0 < 0 + 60000 ->
        fundingPercentage doc' = Fin 0
        /\ (isString (symptomState inflamedForest) "INFLAMED" = true ->
            symptomState doc' = VStr "HEALING")).
Proof.
  apply (webhook_credits_the_organ (webhookWorld []) paid sampleBase
           "VIAL-65a4f0c2e1-1768471200000" pledge inflamedForest 60000 0 100000);
    try reflexivity; try discriminate; unfold maxSafeInteger; lia.
Defined.

Example webhook_samples :
  fundingOf sampleBase "65a4f0c2e1" = Some (Fin 0, VStr "INFLAMED")
  /\ fundingOf afterPayment "65a4f0c2e1" = Some (Fin (0 + 60000), VStr "HEALING")
  /\ vialStatus afterPayment "VIAL-65a4f0c2e1-1768471200000" = Some "SUCCESS"
  /\ fundingOf afterBrokenSave "65a4f0c2e1" = Some (Fin 0, VStr "INFLAMED")
  /\ vialStatus afterBrokenSave "VIAL-65a4f0c2e1-1768471200000" = Some "SUCCESS"
  /\ fst (handleWebhook (webhookWorld []) paid afterBrokenSave) = (200, "Already processed")
  /\ fst (handleWebhook (webhookWorld []) forged sampleBase) = (401, "Invalid signature").
Proof. repeat split; vm_compute; reflexivity. Qed.

(** * Properties of the verification *)

Lemma substring_all (s : string) : String.substring 0 (String.length s) s = s.
Proof. induction s as [|c s IH]; cbn; [reflexivity|]. rewrite IH. reflexivity. Qed.

Lemma dropPrefix_spec (p s t : string) : dropPrefix p s = Some t <-> s = p +:+ t.
Proof.
  unfold dropPrefix. revert s. induction p as [|c p IH]; intros s.
  - cbn [String.length]. rewrite Nat.sub_0_r, substring_all.
    change ("" +:+ t) with t. destruct s; cbn [String.prefix]; split; congruence.
  - destruct s as [|d s]; cbn [String.prefix].
    + push_append. split; discriminate.
    + push_append. destruct (ascii_dec c d) as [->|Hne].
      * cbn [String.length Nat.sub String.substring]. rewrite IH.
        split; [intros ->; reflexivity|intros [= ->]; reflexivity].
      * split; [discriminate|intros [= E _]; congruence].
Qed.

Lemma splitWord_spec (s word tail : string) :
  splitWord s = (word, tail) -> s = word +:+ tail /\ allWordChars word = true.
Proof.
  revert word tail. induction s as [|c s IH]; intros word tail; cbn [splitWord].
  - intros [= <- <-]. auto.
  - destruct (isWordChar c) eqn:Hc.
    + destruct (splitWord s) as [w t]. intros [= <- <-].
      destruct (IH w t eq_refl) as [-> Hw]. push_append. cbn [allWordChars].
      rewrite Hc, Hw. auto.
    + intros [= <- <-]. auto.
Qed.

Lemma splitWord_word (word tail : string) :
  allWordChars word = true ->
  match tail with String c _ => isWordChar c = false | EmptyString => True end ->
  splitWord (word +:+ tail) = (word, tail).
Proof.
  intros Hw Htail. induction word as [|c word IH]; push_append.
  - destruct tail as [|c t]; cbn [splitWord]; [reflexivity|]. rewrite Htail. reflexivity.
  - cbn [allWordChars] in Hw. apply andb_true_iff in Hw as [Hc Hw].
    cbn [splitWord]. rewrite Hc, (IH Hw). reflexivity.
Qed.

(** X27.  The images the verification accepts as data URLs.  The regular
    expression of line 305 matches exactly the texts
    data:image/WORD;base64,DATA in which WORD is a non-empty run of
    letters, digits and underscores and DATA is non-empty and free of
    line terminators, and its groups are WORD and DATA. *)
Theorem data_url_format (text word data : string) :
  matchDataUrl text = Some (word, data)
  <-> text = "data:image/" +:+ word +:+ ";base64," +:+ data
      /\ word <> "" /\ allWordChars word = true
      /\ data <> "" /\ hasLineTerminator data = false.
Proof.
  unfold matchDataUrl. split.
  - destruct (dropPrefix "data:image/" text) as [rest|] eqn:Hrest; [|discriminate].
    apply dropPrefix_spec in Hrest. subst text.
    destruct (splitWord rest) as [w tail] eqn:Hsplit.
    apply splitWord_spec in Hsplit as [-> Hw].
    destruct (dropPrefix ";base64," tail) as [d|] eqn:Htail; [|discriminate].
    apply dropPrefix_spec in Htail. subst tail.
    destruct (String.eqb_spec w ""); [discriminate|].
    destruct (String.eqb_spec d ""); [discriminate|].
    destruct (hasLineTerminator d) eqn:Hd; [discriminate|].
    cbn [orb]. intros [= <- <-]. auto.
  - intros (-> & Hword & Hw & Hdata & Hd).
    assert (H1 : dropPrefix "data:image/" ("data:image/" +:+ word +:+ ";base64," +:+ data)
                 = Some (word +:+ ";base64," +:+ data))
      by (apply dropPrefix_spec; reflexivity).
    rewrite H1.
    rewrite (splitWord_word word (";base64," +:+ data) Hw)
      by (push_append; reflexivity).
    assert (H2 : dropPrefix ";base64," (";base64," +:+ data) = Some data)
      by (apply dropPrefix_spec; reflexivity).
    rewrite H2.
    destruct (String.eqb_spec word ""); [contradiction|].
    destruct (String.eqb_spec data ""); [contradiction|].
    rewrite Hd. reflexivity.
Qed.

(** X28.  What an answer 200 of the verification means.  The organ was
    found and Gemini's text held a JSON object, which the answer carries.
    The organ is saved exactly when verified is truthy and the
    recommendation is the string APPROVE or PARTIAL: it is then HEALTHY
    with 20 points more, or HEALING with 10 more, the score being capped
    at 100 and not lowered when it was at most 100.  Otherwise nothing is
    saved.  In both cases previousState and newState are the same value,
    the state after the update. *)
Theorem verification_outcome
    (w : VerifyWorld) (body : VerifyBody) (v : Verification) (saved : option Document) :
  verifyRestorationImage w body = (Success 200 v, saved) ->
  exists doc image text,
    findById w = Found doc
    /\ vision w image = GeminiText text
    /\ extractObject text = Some (verification v)
    /\ previousState v = newState v
    /\ let verified := truthyValue (getProp (verification v) "verified") in
       let recommendation := getProp (verification v) "recommendation" in
       match saved with
       | Some doc' =>
           newState v = symptomState doc'
           /\ verified = true
           /\ (isString recommendation "APPROVE" = true
               /\ symptomState doc' = VStr "HEALTHY"
               /\ healthScore (organ doc')
                  = Math_min (Fin 100) (num_add (healthScore (organ doc)) (Fin 20))
               \/ isString recommendation "PARTIAL" = true
                  /\ symptomState doc' = VStr "HEALING"
                  /\ healthScore (organ doc')
                     = Math_min (Fin 100) (num_add (healthScore (organ doc)) (Fin 10)))
           /\ forall h, healthScore (organ doc) = Fin h ->
                exists h', healthScore (organ doc') = Fin h'
                           /\ (h' <= 100)%Q /\ ((h <= 100)%Q -> (h <= h')%Q)
       | None =>
           newState v = symptomState doc
           /\ (verified = false
               \/ isString recommendation "APPROVE" = false
                  /\ isString recommendation "PARTIAL" = false)
       end.
Proof.
  unfold verifyRestorationImage. intros H.
  destruct (negb (truthy (body_organId body)) || negb (truthy (imageBase64 body)));
    [discriminate H|].
  destruct (findById w) as [doc| |]; try discriminate H.
  destruct (imageData (imageBase64 body)) as [[image|]|]; try discriminate H.
  destruct (vision w image) as [text|] eqn:Hvision; [|discriminate H].
  destruct (extractObject text) as [result|] eqn:Hparse; [|discriminate H].
  exists doc, image, text. split; [reflexivity|]. split; [exact Hvision|].
  assert (Hcap : forall (points : Q) (h : Q), (0 <= points)%Q ->
             exists h', Math_min (Fin 100) (num_add (Fin h) (Fin points)) = Fin h'
                        /\ (h' <= 100)%Q /\ ((h <= 100)%Q -> (h <= h')%Q)).
  { intros points h Hp. cbn [num_add]. unfold Math_min, num_lt.
    destruct (Qlt_bool (h + points) 100) eqn:E;
      [apply Qlt_bool_iff in E | apply Qlt_bool_false in E].
    - exists (h + points)%Q. split; [reflexivity|]. split; [apply Qlt_le_weak; exact E|].
      intros _. rewrite <- (Qplus_0_r h) at 1. apply Qplus_le_r. exact Hp.
    - exists 100%Q. split; [reflexivity|]. split; [apply Qle_refl|auto]. }
  unfold verifiedOrgan in H.
  destruct (truthyValue (getProp result "verified")) eqn:Hv; cbn [andb] in H.
  - destruct (isString (getProp result "recommendation") "APPROVE") eqn:Ha.
    + destruct (saveThrows w); [discriminate H|]. injection H as <- <-.
      cbn [verification previousState newState symptomState organ healthScore].
      split; [exact Hparse|]. split; [reflexivity|]. rewrite Hv, Ha.
      split; [reflexivity|]. split; [reflexivity|]. split; [left; auto|].
      intros h ->. apply Hcap. discriminate.
    + destruct (isString (getProp result "recommendation") "PARTIAL") eqn:Hp.
      * destruct (saveThrows w); [discriminate H|]. injection H as <- <-.
        cbn [verification previousState newState symptomState organ healthScore].
        split; [exact Hparse|]. split; [reflexivity|]. rewrite Hv, Hp.
        split; [reflexivity|]. split; [reflexivity|]. split; [right; auto|].
        intros h ->. apply Hcap. discriminate.
      * injection H as <- <-. cbn [verification previousState newState].
        split; [exact Hparse|]. split; [reflexivity|]. rewrite Ha, Hp. auto.
  - injection H as <- <-. cbn [verification previousState newState].
    split; [exact Hparse|]. split; [reflexivity|]. rewrite Hv. auto.
Qed.

Lemma verification_outcome_witness :
  exists doc image text,
    findById (verifyWorld approval) = Found doc
    /\ vision (verifyWorld approval) image = GeminiText text
    /\ extractObject text = Some (verification approvedAnswer)
    /\ previousState approvedAnswer = newState approvedAnswer
    /\ let verified := truthyValue (getProp (verification approvedAnswer) "verified") in
       let recommendation := getProp (verification approvedAnswer) "recommendation" in
       match Some approvedReef with
       | Some doc' =>
           newState approvedAnswer = symptomState doc'
           /\ verified = true
           /\ (isString recommendation "APPROVE" = true
               /\ symptomState doc' = VStr "HEALTHY"
               /\ healthScore (organ doc')
                  = Math_min (Fin 100) (num_add (healthScore (organ doc)) (Fin 20))
               \/ isString recommendation "PARTIAL" = true
                  /\ symptomState doc' = VStr "HEALING"
                  /\ healthScore (organ doc')
                     = Math_min (Fin 100) (num_add (healthScore (organ doc)) (Fin 10)))
           /\ forall h, healthScore (organ doc) = Fin h ->
                exists h', healthScore (organ doc') = Fin h'
                           /\ (h' <= 100)%Q /\ ((h <= 100)%Q -> (h <= h')%Q)
       | None =>
           newState approvedAnswer = symptomState doc
           /\ (verified = false
               \/ isString recommendation "APPROVE" = false
                  /\ isString recommendation "PARTIAL" = false)
       end.
Proof.
  apply (verification_outcome (verifyWorld approval) reefPicture approvedAnswer
           (Some approvedReef)).
  vm_compute. reflexivity.
Defined.

Example verification_samples :
  matchDataUrl "data:image/png;base64,iVBORw0KGgo=" = Some ("png", "iVBORw0KGgo=")
  /\ matchDataUrl "data:image/svg+xml;base64,PHN2Zz4=" = None
  /\ matchDataUrl "data:text/plain;base64,aGk=" = None
  /\ matchDataUrl "data:image/png;base64," = None
  /\ imageData (PStr "iVBORw0KGgo=")
     = Return (Some {| inline_data := "iVBORw0KGgo="; mimeType := "image/jpeg" |})
  /\ imageData (PNum (Fin 7)) = Throw
  /\ fst (verifyRestorationImage (verifyWorld "I cannot tell.") reefPicture)
     = Failure 500 "Failed to parse verification result"
  /\ snd (verifyRestorationImage
            (verifyWorld (dq "{'verified': true, 'recommendation': 'REJECT'}")) reefPicture)
     = None
  /\ fst (verifyRestorationImage (verifyWorld approval)
            {| body_organId := PStr "65a4f0c2e3"; imageBase64 := PStr "" |})
     = Failure 400 "organId and imageBase64 are required".
Proof. repeat split; vm_compute; reflexivity. Qed.

(** * From the pledge to the credit *)

Section Pledge.
Variable host : Host.

(** What an answer 200 of the initialization left in the data base. *)
Lemma initializePayment_created
    (w : PaymentWorld) (order : PaymentBody) (db db1 : DataBase) vialId link reference :
  initializePayment host w order db = (Success 200 (vialId, link, reference), db1) ->
  exists vial,
    vialCollection db1 = <[reference := vial]> (vialCollection db)
    /\ organCollection db1 = organCollection db
    /\ vialCollection db !! reference = None
    /\ is_Some (organCollection db !! pay_organId order)
    /\ vial_organId vial = pay_organId order
    /\ vial_status vial = "PENDING"
    /\ amountUSD vial
       = (if String.eqb (match currency order with Some c => c | None => "USD" end) "USD"
          then amount order else num_div (amount order) (Fin 1600))
    /\ reference = "VIAL-" +:+ pay_organId order +:+ "-"
                     +:+ Number_toString host (ofZ (payment_now w)).
Proof.
  unfold initializePayment. intros H.
  destruct (findThrows w); [discriminate H|].
  destruct (organCollection db !! pay_organId order) as [doc|] eqn:Hdoc; [|discriminate H].
  destruct (createThrows w); [discriminate H|]. cbn [orb] in H.
  destruct (bool_decide _) eqn:Hdup; [discriminate H|].
  apply bool_decide_eq_false in Hdup.
  destruct (paymentLink w); [|discriminate H].
  injection H as _ _ <- <-. eexists. split; [reflexivity|].
  split; [reflexivity|]. split.
  - destruct (vialCollection db !! _) eqn:E; [|reflexivity].
    exfalso. apply Hdup. eauto.
  - repeat split; eauto.
Qed.

(** X29.  From the pledge to the credit, for amounts in whole units (up
    to Number.MAX_SAFE_INTEGER).  When the initialization of a payment has
    answered 200 with a reference, the webhook that reports the payment of
    that reference, with the right hash and while the data base works, is
    processed: the vial is marked SUCCESS and the organ named in the
    pledge is credited with the amount, as it is in USD, and with its
    1600th part in any other currency (stated for the amounts that are
    multiples of 1600, which the division leaves whole). *)
Theorem paid_pledge_is_credited
    (pw : PaymentWorld) (order : PaymentBody) (db db1 : DataBase) vialId link reference
    (ww : WebhookWorld) (req : WebhookRequest) (doc : Document) (f a : Z) :
  initializePayment host pw order db = (Success 200 (vialId, link, reference), db1) ->
  validSignature ww req = true ->
  strictEquals (payload_status (body req)) "successful" = true ->
  firstTruthy (tx_ref (body req)) (txRef (body req)) = Some reference ->
  (forall n, dbThrows ww n = false) ->
  organCollection db !! pay_organId order = Some doc ->
  currentFundingUSD doc = ofZ f ->
  amount order = ofZ a ->
  0 <= f -> 0 <= a -> f + a <= maxSafeInteger ->
  exists db2 doc',
    handleWebhook ww req db1 = (200, "Webhook processed successfully", db2)
    /\ vialStatus db1 reference = Some "PENDING"
    /\ vialStatus db2 reference = Some "SUCCESS"
    /\ organCollection db2 !! pay_organId order = Some doc'
    /\ (match currency order with Some c => c | None => "USD" end = "USD" ->
        wholeNumber (currentFundingUSD doc') (f + a))
    /\ (match currency order with Some c => c | None => "USD" end <> "USD" ->
        forall k, a = 1600 * k -> wholeNumber (currentFundingUSD doc') (f + k)).
Proof.
  intros Hinit Hsig Hst Href Hdb Hdoc Hf Ha Hf0 Ha0 Hsum.
  apply initializePayment_created
    in Hinit as (vial & Hv & Ho & _ & _ & Hid & Hstatus & Hamount & _).
  assert (Hfound : vialCollection db1 !! reference = Some vial)
    by (rewrite Hv; apply lookup_insert_eq).
  unfold handleWebhook. rewrite Hsig, Hst, Href, !Hdb. cbn [negb].
  unfold findOne. rewrite Hfound, Hstatus.
  change (String.eqb "PENDING" "SUCCESS") with false. cbv iota.
  cbn [organCollection]. rewrite Ho, Hid, Hdoc.
  eexists _, _. split; [reflexivity|].
  split; [unfold vialStatus; rewrite Hfound, Hstatus; reflexivity|].
  split; [unfold vialStatus; cbn [vialCollection]; rewrite lookup_insert_eq; reflexivity|].
  cbn [organCollection]. split; [apply lookup_insert_eq|].
  unfold credited. cbn [currentFundingUSD]. rewrite Hf, Hamount, Ha.
  destruct (String.eqb_spec (match currency order with Some c => c | None => "USD" end) "USD")
    as [Hc|Hc]; (split; [intros Hc'|intros Hc']); try contradiction.
  - eexists. split; [reflexivity|]. rewrite inject_Z_plus. apply Qeq_refl.
  - intros k ->. eexists. split; [reflexivity|].
    unfold Qeq, Qplus, Qdiv, Qmult, Qinv, inject_Z. cbn [Qnum Qden]. lia.
Qed.
End Pledge.

Lemma paid_pledge_is_credited_witness :
  exists db2 doc',
    handleWebhook (webhookWorld []) nairaPaid afterOrder
    = (200, "Webhook processed successfully", db2)
    /\ vialStatus afterOrder "VIAL-65a4f0c2e1-1768471200000" = Some "PENDING"
    /\ vialStatus db2 "VIAL-65a4f0c2e1-1768471200000" = Some "SUCCESS"
    /\ organCollection db2 !! pay_organId nairaOrder = Some doc'
    /\ (match currency nairaOrder with Some c => c | None => "USD" end = "USD" ->
        wholeNumber (currentFundingUSD doc') (0 + 80000))
    /\ (match currency nairaOrder with Some c => c | None => "USD" end <> "USD" ->
        forall k, 80000 = 1600 * k -> wholeNumber (currentFundingUSD doc') (0 + k)).
Proof.
  apply (paid_pledge_is_credited RefHost.host paymentWorld nairaOrder organsOnly afterOrder
           "65a4f0c2f0" (PStr "https://checkout.example/pay/abc")
           "VIAL-65a4f0c2e1-1768471200000" (webhookWorld []) nairaPaid inflamedForest
           0 80000);
    try reflexivity; unfold maxSafeInteger; lia.
Defined.

Example pledge_samples :
  fst (initializePayment RefHost.host paymentWorld nairaOrder organsOnly)
  = Success 200 ("65a4f0c2f0", PStr "https://checkout.example/pay/abc",
                 "VIAL-65a4f0c2e1-1768471200000")
  /\ fundingOf (snd (handleWebhook (webhookWorld []) nairaPaid afterOrder)) "65a4f0c2e1"
     = Some (Fin (0 + 80000 / 1600), VStr "INFLAMED")
  /\ fst (initializePayment RefHost.host paymentWorld nairaOrder afterOrder)
     = Failure 500 "Failed to initialize payment".
Proof. repeat split; vm_compute; reflexivity. Qed.
